(** * inspect_ai tracing: action scopes, structured formatter, trace reader

    A shallow embedding of [src/inspect_ai/_util/trace.py]:

    - [trace_action], the context manager that brackets a unit of work with
      an [enter] record and one terminal record;
    - [TraceFormatter.format], which turns a [logging.LogRecord] into one
      line of JSON;
    - [read_trace_file], which parses such lines back into
      [SimpleTraceRecord]s and [ActionTraceRecord]s.

    Python objects are modelled by the inductive [pyval]; raising is made
    explicit by the type [result]; the clocks, the identifier generator and
    the logging sink are threaded through a state monad.  The limits of
    the interpreter (recursion depth, the number of digits of an integer
    written as text, memory) are not modelled.

    What lies outside the module is a parameter of the definitions that
    use it: the identifier generator, the two clocks, the traceback
    formatter and the level [TRACE] for the scope; the local-time
    formatting of a time stamp, the JSON encoder and the line decoder for
    the formatter and the reader.  The only assumption ever made about
    them is stated where it is used: identifiers do not collide, the
    monotonic clock does not go back, the decoder inverts the encoder.  A
    concrete JSON text codec with that last property is part of the file.

    Floats are exact decimals (no rounding, no infinities, no NaN).  The
    operator [%] is modelled for the conversion [%s], with or without a
    mapping key, and for [%%]; any other conversion evaluates to
    [Unmodelled], about which nothing is claimed.

    The file also embeds the command line of [src/inspect_ai/_cli/eval.py]:
    [parse_comma_separated], [parse_logit_bias] and [config_from_locals],
    which turn the options of the command line into generation options,
    and [eval_exec], [eval_command], [eval_set_command] and
    [eval_retry_command], which resolve the other options and call the
    evaluation.  Their arguments have the types of their signatures, and
    the functions they call outside the module are parameters again. *)

From Stdlib Require Import ZArith String Ascii List Bool Lia.
From Stdlib Require Import DecimalString DecimalZ DecimalPos Sorted.
Import ListNotations.

Open Scope string_scope.
Open Scope Z_scope.

(* ================================================================= *)
(** ** Python values *)

(** A Python [float] is modelled by an exact finite decimal
    [mantissa * 10 ^ exponent10]; every binary64 number is such a decimal.
    The rounding of float arithmetic is not modelled: subtraction is exact. *)
Record pyfloat : Type := mkfloat { mantissa : Z; exponent10 : Z }.

Definition float_of_Z (z : Z) : pyfloat := mkfloat z 0.

(** The mantissa of [f] rescaled to the exponent [e <= exponent10 f]. *)
Definition rescale (f : pyfloat) (e : Z) : Z :=
  mantissa f * 10 ^ (exponent10 f - e).

(** [a - b] on floats. *)
Definition fsub (a b : pyfloat) : pyfloat :=
  let e := Z.min (exponent10 a) (exponent10 b) in
  mkfloat (rescale a e - rescale b e) e.

(** [a <= b] on floats. *)
Definition fleb (a b : pyfloat) : bool :=
  let e := Z.min (exponent10 a) (exponent10 b) in
  rescale a e <=? rescale b e.

(** [f >= 0]. *)
Definition fnonneg (f : pyfloat) : bool := 0 <=? mantissa f.

(** A key of a dictionary: a string, a boolean, [None], an integer, or
    any other hashable object, of which only the name [cls] of its class
    matters (a tuple is [KeyObj "tuple"]).  Float keys are left out, the
    text of a float not being modelled. *)
Inductive pykey : Type :=
| KeyStr (s : string)
| KeyBool (b : bool)
| KeyNone
| KeyInt (z : Z)
| KeyObj (cls : string).

(** The objects the modelled code handles.  Dictionaries keep insertion
    order: [PyDict] is a dictionary all of whose keys are strings,
    [PyMapping] a dictionary with keys of any kind.  [PyObj cls text] is
    any other object: [cls] is the name of its class and [text] is what
    [str] returns for it.  [PyFaulty cls error_type error] is an object of
    class [cls] whose [__str__] raises: an [Exception] whose class is named
    [error_type] and whose message is [error].  [PyRef up] is a list or a
    dictionary met again inside itself: it stands for the container [up]
    levels above the place where it occurs, so that [PyList [PyRef 0]] is
    the list [l] after [l.append(l)]. *)
#[warnings="-register-all"]
Inductive pyval : Type :=
| PyNone
| PyBool (b : bool)
| PyInt (z : Z)
| PyFloat (f : pyfloat)
| PyStr (s : string)
| PyList (l : list pyval)
| PyDict (d : list (string * pyval))
| PyObj (cls : string) (text : string)
| PyMapping (items : list (pykey * pyval))
| PyFaulty (cls : string) (error_type : string) (error : string)
| PyRef (up : nat).

Definition pydict : Type := list (string * pyval).

(* ================================================================= *)
(** ** Dictionaries with insertion order *)

Section Dict.
Context {V : Type}.

(** [d.get(k)] *)
Fixpoint dict_get (k : string) (d : list (string * V)) : option V :=
  match d with
  | [] => None
  | (k', v) :: rest => if String.eqb k k' then Some v else dict_get k rest
  end.

(** [k in d] *)
Definition dict_mem (k : string) (d : list (string * V)) : bool :=
  match dict_get k d with Some _ => true | None => false end.

(** [d[k] = v]: an existing key keeps its position, a new key goes last. *)
Fixpoint dict_set (k : string) (v : V) (d : list (string * V))
  : list (string * V) :=
  match d with
  | [] => [(k, v)]
  | (k', v') :: rest =>
      if String.eqb k k' then (k', v) :: rest
      else (k', v') :: dict_set k v rest
  end.

Definition dict_keys (d : list (string * V)) : list string := map fst d.
End Dict.

(** [k in (a, b, ...)] for a tuple of strings. *)
Definition str_in (k : string) (l : list string) : bool :=
  existsb (String.eqb k) l.

(* ================================================================= *)
(** ** Exceptions and results *)

(** The builtin class an exception derives from, as far as the [except]
    clauses of [trace_action] can tell classes apart.  [CancelledError] is
    [asyncio.CancelledError]; [OtherBaseException] stands for any class
    below [BaseException] that is none of the others. *)
Inductive exc_base : Type :=
| KeyboardInterrupt
| CancelledError
| SystemExit
| GeneratorExit
| OtherBaseException
| Exception.

(** A raised exception: [exc_type_name] is [type(ex).__name__] and
    [exc_str] is [str(ex)]. *)
Record exn : Type := mkexn {
  exc_class : exc_base;
  exc_type_name : string;
  exc_str : string
}.

Definition TypeError (msg : string) : exn := mkexn Exception "TypeError" msg.
Definition ValueError (msg : string) : exn := mkexn Exception "ValueError" msg.

(** [repr(s)] for a string [s]; a character of a string is a code point
    below 256.  The quotes are single ones unless [s] holds a single quote
    and no double quote.  The quote in use and the backslash are escaped
    with a backslash, tab, line feed and carriage return by their letter,
    and every other character that is not printable by its code in
    hexadecimal. *)
Definition squote : ascii := "039"%char.
Definition dquote : ascii := "034"%char.
Definition backslash : ascii := "092"%char.

(** [c.isprintable()] *)
Definition isprintable (c : ascii) : bool :=
  let n := N_of_ascii c in
  (((32 <=? n) && (n <? 127)) || ((161 <=? n) && negb (n =? 173)))%N.

Definition hex_char (n : N) : ascii :=
  if (n <? 10)%N then ascii_of_N (48 + n) else ascii_of_N (87 + n).

Fixpoint has_char (c : ascii) (s : string) : bool :=
  match s with
  | EmptyString => false
  | String c' rest => Ascii.eqb c c' || has_char c rest
  end.

Definition repr_char (quote c : ascii) : string :=
  if Ascii.eqb c quote || Ascii.eqb c backslash then
    String backslash (String c "")
  else if Ascii.eqb c "009" then String backslash "t"
  else if Ascii.eqb c "010" then String backslash "n"
  else if Ascii.eqb c "013" then String backslash "r"
  else if isprintable c then String c ""
  else
    String backslash
      (String "x"
         (String (hex_char (N_of_ascii c / 16))
            (String (hex_char (N_of_ascii c mod 16)) ""))).

Fixpoint repr_chars (quote : ascii) (s : string) : string :=
  match s with
  | EmptyString => String quote ""
  | String c rest => repr_char quote c ++ repr_chars quote rest
  end.

Definition py_repr (s : string) : string :=
  let quote :=
    if has_char squote s && negb (has_char dquote s) then dquote
    else squote in
  String quote (repr_chars quote s).

(** [KeyError(key)] for a string [key]: [str] of it is [repr(key)]. *)
Definition KeyError (key : string) : exn :=
  mkexn Exception "KeyError" (py_repr key).

(** What evaluating a Python expression gives: a value, a raised exception,
    or [Unmodelled] where the embedding does not cover the construct (a
    conversion other than [%s], the [str] of a float or container).  No
    theorem concludes anything from [Unmodelled]. *)
Inductive result (A : Type) : Type :=
| Ok (a : A)
| Raise (e : exn)
| Unmodelled.
Arguments Ok {A} a.
Arguments Raise {A} e.
Arguments Unmodelled {A}.

Definition result_map {A B : Type} (f : A -> B) (r : result A) : result B :=
  match r with
  | Ok a => Ok (f a)
  | Raise e => Raise e
  | Unmodelled => Unmodelled
  end.

Definition result_bind {A B : Type} (r : result A) (f : A -> result B)
  : result B :=
  match r with
  | Ok a => f a
  | Raise e => Raise e
  | Unmodelled => Unmodelled
  end.

(* ================================================================= *)
(** ** [str] and the [%] operator on strings *)

Definition str_of_Z (z : Z) : string := NilZero.string_of_int (Z.to_int z).

(** [str(v)]; that of a float or of a container is not modelled. *)
Definition py_str (v : pyval) : result string :=
  match v with
  | PyNone => Ok "None"
  | PyBool true => Ok "True"
  | PyBool false => Ok "False"
  | PyInt z => Ok (str_of_Z z)
  | PyStr s => Ok s
  | PyObj _ text => Ok text
  | PyFaulty _ error_type error => Raise (mkexn Exception error_type error)
  | PyFloat _ | PyList _ | PyDict _ | PyMapping _ | PyRef _ => Unmodelled
  end.

(** The right operand of [%]: a tuple, a dictionary with string keys, or
    a dictionary with keys of any kind. *)
Inductive fmt_args : Type :=
| ArgsTuple (l : list pyval)
| ArgsDict (d : pydict)
| ArgsMapping (items : list (pykey * pyval)).

(** Truthiness of the operand: [if args] / [if kwargs]. *)
Definition args_truthy (a : fmt_args) : bool :=
  match a with
  | ArgsTuple [] | ArgsDict [] | ArgsMapping [] => false
  | _ => true
  end.

Module PyFormat.

(** Where the next argument comes from ([unicode_format_getnextarg]):
    the rest of a tuple operand, or the single operand of a non-tuple
    (also the value found for a [%(key)] lookup), which can be taken
    once. *)
Inductive argsrc : Type :=
| Positional (rest : list pyval)
| Single (v : option pyval).

Definition getnextarg (a : argsrc) : result (pyval * argsrc) :=
  match a with
  | Positional (v :: rest) => Ok (v, Positional rest)
  | Single (Some v) => Ok (v, Single None)
  | Positional [] | Single None =>
      Raise (TypeError "not enough arguments for format string")
  end.

(** Scanner state: literal text, just after [%] (a mapping key may
    follow), inside [%(key] with [depth] parentheses open, or after
    [%(key)]. *)
Inductive mode : Type :=
| Lit
| AfterPercent
| InKey (depth : nat) (key : string)
| AfterKey.

(** The conversion character [c] of a specifier, found at position
    [index] of the format: the next argument is taken, and then [s]
    writes its [str] and [%] is refused. *)
Definition convert (c : ascii) (index : nat) (a : argsrc)
           (k : argsrc -> result string) : result string :=
  if Ascii.eqb c "s" then
    match getnextarg a with
    | Ok (v, a') =>
        result_bind (py_str v) (fun s => result_map (append s) (k a'))
    | Raise e => Raise e
    | Unmodelled => Unmodelled
    end
  else if Ascii.eqb c "%" then
    match getnextarg a with
    | Ok _ =>
        Raise (ValueError
                 ("unsupported format character '%' (0x25) at index "
                  ++ str_of_Z (Z.of_nat index)))
    | Raise e => Raise e
    | Unmodelled => Unmodelled
    end
  else Unmodelled.

(** [PyUnicode_Format], restricted to the specifiers [%s], [%%] and
    [%(key)s]; [dict] is the operand when it is a mapping, and [index] is
    the position in the format of the first character of [fmt].  A [%]
    right after a [%] writes a percent sign; anywhere later in a
    specifier it is a conversion character like any other. *)
Fixpoint format (fmt : string) (dict : option pydict) (a : argsrc)
         (m : mode) (index : nat) {struct fmt} : result string :=
  match fmt with
  | EmptyString =>
      match m with
      | Lit =>
          match a, dict with
          | Positional (_ :: _), None =>
              Raise (TypeError
                "not all arguments converted during string formatting")
          | _, _ => Ok ""
          end
      | AfterPercent | AfterKey => Raise (ValueError "incomplete format")
      | InKey _ _ => Raise (ValueError "incomplete format key")
      end
  | String c rest =>
      match m with
      | Lit =>
          if Ascii.eqb c "%" then format rest dict a AfterPercent (S index)
          else result_map (String c) (format rest dict a Lit (S index))
      | AfterPercent =>
          if Ascii.eqb c "%" then
            result_map (String "%") (format rest dict a Lit (S index))
          else if Ascii.eqb c "(" then
            match dict with
            | None => Raise (TypeError "format requires a mapping")
            | Some _ => format rest dict a (InKey 1 "") (S index)
            end
          else convert c index a (fun a' => format rest dict a' Lit (S index))
      | InKey depth key =>
          if Ascii.eqb c ")" then
            match depth with
            | S (S d) =>
                format rest dict a (InKey (S d) (key ++ ")")) (S index)
            | _ =>
                match dict with
                | Some d =>
                    match dict_get key d with
                    | Some v =>
                        format rest dict (Single (Some v)) AfterKey (S index)
                    | None => Raise (KeyError key)
                    end
                | None => Raise (TypeError "format requires a mapping")
                end
            end
          else if Ascii.eqb c "(" then
            format rest dict a (InKey (S depth) (key ++ "(")) (S index)
          else format rest dict a (InKey depth (key ++ String c "")) (S index)
      | AfterKey =>
          convert c index a (fun a' => format rest dict a' Lit (S index))
      end
  end.

End PyFormat.

(** [fmt % args]; with a dictionary that has other keys than strings it
    is not modelled. *)
Definition py_percent (fmt : string) (args : fmt_args) : result string :=
  match args with
  | ArgsTuple l =>
      PyFormat.format fmt None (PyFormat.Positional l) PyFormat.Lit 0
  | ArgsDict d =>
      PyFormat.format fmt (Some d) (PyFormat.Single (Some (PyDict d)))
                      PyFormat.Lit 0
  | ArgsMapping _ => Unmodelled
  end.



(* ================================================================= *)
(** ** The environment of a scope: identifiers, clocks and the log sink *)

(** One call [logger.log(level, msg, *args, extra=extra)]. *)
Record log_call : Type := mklog {
  lc_level : Z;
  lc_msg : string;
  lc_args : list pyval;
  lc_extra : pydict
}.

(** The state the code runs in: how many identifiers and clock readings
    have been drawn so far, and the calls the logger has received, oldest
    first. *)
Record world : Type := mkworld {
  uuid_n : nat;
  monotonic_n : nat;
  time_n : nat;
  sink : list log_call
}.

(** Computations over the world that return, raise or are not modelled. *)
Definition M (A : Type) : Type := world -> result A * world.

Definition ret {A : Type} (a : A) : M A := fun w => (Ok a, w).

Definition bind {A B : Type} (m : M A) (f : A -> M B) : M B :=
  fun w =>
    match m w with
    | (Ok a, w') => f a w'
    | (Raise e, w') => (Raise e, w')
    | (Unmodelled, w') => (Unmodelled, w')
    end.

(** [raise ex] *)
Definition raise {A : Type} (ex : exn) : M A := fun w => (Raise ex, w).

(** The value of an expression that may raise. *)
Definition lift {A : Type} (r : result A) : M A := fun w => (r, w).

(** [try: m  except BaseException as ex: handler ex].  An exception raised
    by the handler is not caught again. *)
Definition try_except {A : Type} (m : M A) (handler : exn -> M A) : M A :=
  fun w =>
    match m w with
    | (Raise e, w') => handler e w'
    | r => r
    end.

Declare Scope monad_scope.
Delimit Scope monad_scope with monad.
Notation "x <- m ;; k" := (bind m (fun x => k))
  (at level 61, m at next level, right associativity) : monad_scope.
Notation "m ;; k" := (bind m (fun _ => k))
  (at level 61, right associativity) : monad_scope.

(** [isinstance(ex, classes)] *)
Definition exc_base_eqb (a b : exc_base) : bool :=
  match a, b with
  | KeyboardInterrupt, KeyboardInterrupt
  | CancelledError, CancelledError
  | SystemExit, SystemExit
  | GeneratorExit, GeneratorExit
  | OtherBaseException, OtherBaseException
  | Exception, Exception => true
  | _, _ => false
  end.

Definition isinstance (ex : exn) (classes : list exc_base) : bool :=
  existsb (exc_base_eqb (exc_class ex)) classes.

(** The expression bound to [formatted_message] in [trace_action]:
    [message % args if args else message % kwargs if kwargs else message]. *)
Definition render (message : string) (args : list pyval) (kwargs : pydict)
  : result string :=
  if args_truthy (ArgsTuple args) then py_percent message (ArgsTuple args)
  else if args_truthy (ArgsDict kwargs) then py_percent message (ArgsDict kwargs)
  else Ok message.

Section Scope.

(** The [n]-th value returned by [shortuuid.uuid()], [time.monotonic()]
    and [time.time()], and the text [traceback.format_exc()] gives while
    [ex] is being handled. *)
Variable uuid_src : nat -> string.
Variable monotonic_src : nat -> pyfloat.
Variable time_src : nat -> pyfloat.
Variable format_exc : exn -> string.

(** The constant [TRACE] of [inspect_ai._util.constants], defined outside
    this module: the numeric level reserved for trace records. *)
Variable TRACE : Z.

Definition uuid : M string :=
  fun w => (Ok (uuid_src (uuid_n w)),
            mkworld (S (uuid_n w)) (monotonic_n w) (time_n w) (sink w)).

Definition time_monotonic : M pyfloat :=
  fun w => (Ok (monotonic_src (monotonic_n w)),
            mkworld (uuid_n w) (S (monotonic_n w)) (time_n w) (sink w)).

Definition time_time : M pyfloat :=
  fun w => (Ok (time_src (time_n w)),
            mkworld (uuid_n w) (monotonic_n w) (S (time_n w)) (sink w)).

(** [logger.log(level, msg, *args, extra=extra)]: the logger receives the
    call. *)
Definition Logger_log (level : Z) (msg : string) (args : list pyval)
           (extra : pydict) : M unit :=
  fun w => (Ok tt,
            mkworld (uuid_n w) (monotonic_n w) (time_n w)
                    (sink w ++ [mklog level msg args extra])%list).

Local Open Scope monad_scope.

(** [with trace_action(logger, action, message, *args, **kwargs): body].
    The generator runs to its [yield], [body] runs, and the generator is
    resumed with the outcome of [body]: normally, or by throwing the
    exception [body] raised at the [yield]. *)
Definition trace_action (action message : string) (args : list pyval)
           (kwargs : pydict) (body : M unit) : M unit :=
  trace_id <- uuid ;;
  start_monotonic <- time_monotonic ;;
  start_wall <- time_time ;;
  formatted_message <- lift (render message args kwargs) ;;
  let trace_message (event : string) : string :=
    "Action: " ++ action ++ " - " ++ formatted_message
               ++ " (" ++ event ++ ")" in
  Logger_log TRACE (trace_message "enter") []
             [("action", PyStr action);
              ("event", PyStr "enter");
              ("trace_id", PyStr trace_id);
              ("start_time", PyFloat start_wall)] ;;
  try_except
    (body ;;
     now <- time_monotonic ;;
     let duration := fsub now start_monotonic in
     Logger_log TRACE (trace_message "exit") []
                [("action", PyStr action);
                 ("event", PyStr "exit");
                 ("trace_id", PyStr trace_id);
                 ("duration", PyFloat duration)])
    (fun ex =>
       if isinstance ex [KeyboardInterrupt; CancelledError] then
         now <- time_monotonic ;;
         let duration := fsub now start_monotonic in
         Logger_log TRACE (trace_message "cancel") []
                    [("action", PyStr action);
                     ("event", PyStr "cancel");
                     ("trace_id", PyStr trace_id);
                     ("duration", PyFloat duration)] ;;
         raise ex
       else if isinstance ex [Exception] then
         now <- time_monotonic ;;
         let duration := fsub now start_monotonic in
         Logger_log TRACE (trace_message "error") []
                    [("action", PyStr action);
                     ("event", PyStr "error");
                     ("trace_id", PyStr trace_id);
                     ("duration", PyFloat duration);
                     ("error", PyStr (exc_str ex));
                     ("error_type", PyStr (exc_type_name ex));
                     ("stacktrace", PyStr (format_exc ex))] ;;
         raise ex
       else raise ex).

(** [trace_message(logger, category, message, *args, extra=extra)] *)
Definition trace_message (category message : string) (args : list pyval)
           (extra : pydict) : M unit :=
  Logger_log TRACE ("[" ++ category ++ "] " ++ message) args extra.

(** Code that uses scopes: a block is a sequence of statements, each of
    which raises, logs a plain trace message, or runs a block inside a
    scope. *)
#[warnings="-register-all"]
Inductive stmt : Type :=
| SRaise (ex : exn)
| STraceMessage (category message : string) (args : list pyval)
| SWith (action message : string) (args : list pyval) (kwargs : pydict)
        (body : list stmt).

Fixpoint exec (s : stmt) : M unit :=
  match s with
  | SRaise ex => raise ex
  | STraceMessage category message args =>
      trace_message category message args []
  | SWith action message args kwargs body =>
      trace_action action message args kwargs
        ((fix block (l : list stmt) : M unit :=
            match l with
            | [] => ret tt
            | s :: rest => exec s ;; block rest
            end) body)
  end.

Fixpoint exec_block (l : list stmt) : M unit :=
  match l with
  | [] => ret tt
  | s :: rest => exec s ;; exec_block rest
  end.

End Scope.

(** The records of a scope, as the logger receives them. *)
Definition scope_message (action formatted_message tag : string) : string :=
  "Action: " ++ action ++ " - " ++ formatted_message ++ " (" ++ tag ++ ")".

Definition enter_call (TRACE : Z) (action formatted_message trace_id : string)
           (start_wall : pyfloat) : log_call :=
  mklog TRACE (scope_message action formatted_message "enter") []
        [("action", PyStr action); ("event", PyStr "enter");
         ("trace_id", PyStr trace_id); ("start_time", PyFloat start_wall)].

Definition exit_call (TRACE : Z) (action formatted_message trace_id : string)
           (duration : pyfloat) : log_call :=
  mklog TRACE (scope_message action formatted_message "exit") []
        [("action", PyStr action); ("event", PyStr "exit");
         ("trace_id", PyStr trace_id); ("duration", PyFloat duration)].

Definition cancel_call (TRACE : Z) (action formatted_message trace_id : string)
           (duration : pyfloat) : log_call :=
  mklog TRACE (scope_message action formatted_message "cancel") []
        [("action", PyStr action); ("event", PyStr "cancel");
         ("trace_id", PyStr trace_id); ("duration", PyFloat duration)].

Definition error_call (TRACE : Z) (action formatted_message trace_id : string)
           (duration : pyfloat) (error error_type stacktrace : string)
  : log_call :=
  mklog TRACE (scope_message action formatted_message "error") []
        [("action", PyStr action); ("event", PyStr "error");
         ("trace_id", PyStr trace_id); ("duration", PyFloat duration);
         ("error", PyStr error); ("error_type", PyStr error_type);
         ("stacktrace", PyStr stacktrace)].

(** The attributes of a received call that identify a scope event. *)
Definition call_trace_id (c : log_call) : option string :=
  match dict_get "trace_id" (lc_extra c) with
  | Some (PyStr s) => Some s
  | _ => None
  end.

Definition call_event (c : log_call) : option string :=
  match dict_get "event" (lc_extra c) with
  | Some (PyStr s) => Some s
  | _ => None
  end.

Definition call_duration (c : log_call) : option pyfloat :=
  match dict_get "duration" (lc_extra c) with
  | Some (PyFloat f) => Some f
  | _ => None
  end.

Definition has_trace_id (id : string) (c : log_call) : bool :=
  match call_trace_id c with
  | Some s => String.eqb s id
  | None => false
  end.

(** The events recorded for one trace id, oldest first. *)
Definition events_of (id : string) (l : list log_call) : list log_call :=
  filter (has_trace_id id) l.

Definition is_enter (c : log_call) : bool :=
  match call_event c with
  | Some s => String.eqb s "enter"
  | None => false
  end.

Definition is_terminal (c : log_call) : bool :=
  match call_event c with
  | Some s => str_in s ["exit"; "cancel"; "error"]
  | None => false
  end.

(** The life cycle of one trace id: nothing yet, an [enter] event, or an
    [enter] event followed by one terminal event. *)
Definition lifecycle (events : list log_call) : Prop :=
  events = []
  \/ (exists e, events = [e] /\ is_enter e = true)
  \/ (exists e t, events = [e; t] /\ is_enter e = true
                  /\ is_terminal t = true).

(** A computation that only adds to the sink and only draws further
    identifiers and clock readings. *)
Definition extends (w w' : world) : Prop :=
  (exists l, sink w' = (sink w ++ l)%list)
  /\ (uuid_n w <= uuid_n w')%nat
  /\ (monotonic_n w <= monotonic_n w')%nat
  /\ (time_n w <= time_n w')%nat.

Definition framed {A : Type} (m : M A) : Prop :=
  forall w, extends w (snd (m w)).

(** What a scope logs when its body has finished with [r]: the [exit]
    record, the [cancel] record, the [error] record, or nothing. *)
Definition terminal_calls (format_exc : exn -> string) (TRACE : Z)
           (action formatted_message trace_id : string) (duration : pyfloat)
           (r : result unit) : list log_call :=
  match r with
  | Ok _ => [exit_call TRACE action formatted_message trace_id duration]
  | Raise ex =>
      if isinstance ex [KeyboardInterrupt; CancelledError] then
        [cancel_call TRACE action formatted_message trace_id duration]
      else if isinstance ex [Exception] then
        [error_call TRACE action formatted_message trace_id duration
                    (exc_str ex) (exc_type_name ex) (format_exc ex)]
      else []
  | Unmodelled => []
  end.

(** The outcomes of a body that the [try] statement of the scope handles:
    normal completion, cancellation, and an [Exception]. *)
Definition handled (r : result unit) : bool :=
  match r with
  | Ok _ => true
  | Raise ex => isinstance ex [KeyboardInterrupt; CancelledError; Exception]
  | Unmodelled => false
  end.

(** Every trace id in [l] is one of the identifiers drawn from number [lo]
    up to, and not including, number [hi]. *)
Definition ids_within (uuid_src : nat -> string) (lo hi : nat)
           (l : list log_call) : Prop :=
  forall c id, In c l -> call_trace_id c = Some id ->
               exists k, (lo <= k < hi)%nat /\ id = uuid_src k.


(** The monotonic clock never goes back. *)
Definition never_goes_back (monotonic_src : nat -> pyfloat) : Prop :=
  forall i j, (i <= j)%nat ->
              fleb (monotonic_src i) (monotonic_src j) = true.

(** The world once the scope has drawn its identifier and its two clock
    readings and the logger has received [l]. *)
Definition drawn (w : world) (l : list log_call) : world :=
  mkworld (S (uuid_n w)) (S (monotonic_n w)) (S (time_n w))
          (sink w ++ l)%list.

(** The world once the terminal record [c] has been logged after the body
    left the world [w2]. *)
Definition closed (w2 : world) (c : log_call) : world :=
  mkworld (uuid_n w2) (S (monotonic_n w2)) (time_n w2)
          (sink w2 ++ [c])%list.

(** The elapsed time the scope computes when it was entered in [w] and its
    body left [w2]. *)
Definition elapsed (monotonic_src : nat -> pyfloat) (w w2 : world) : pyfloat :=
  fsub (monotonic_src (monotonic_n w2)) (monotonic_src (monotonic_n w)).

(** A computation that appends [l] to the sink, where the trace ids of [l]
    are identifiers it drew and every one of them has a regular life cycle
    within [l]. *)
Definition emits (uuid_src : nat -> string) (w w' : world)
           (l : list log_call) : Prop :=
  sink w' = (sink w ++ l)%list
  /\ (uuid_n w <= uuid_n w')%nat
  /\ (monotonic_n w <= monotonic_n w')%nat
  /\ (time_n w <= time_n w')%nat
  /\ ids_within uuid_src (uuid_n w) (uuid_n w') l
  /\ (forall id, lifecycle (events_of id l)).

(* ================================================================= *)
(** ** JSON values *)

(** The JSON data model: what [json.loads] returns and what [json.dumps]
    writes once every other object has been replaced by a string. *)
#[warnings="-register-all"]
Inductive json : Type :=
| JNull
| JBool (b : bool)
| JInt (z : Z)
| JFloat (f : pyfloat)
| JStr (s : string)
| JList (l : list json)
| JObject (d : list (string * json)).

Definition jdict : Type := list (string * json).

(** The key of a dictionary as the encoder of [json.dumps] writes it: a
    string as it is, [True], [False], [None] and an integer by their JSON
    text, and a key of any other class is refused. *)
Definition json_key (key : pykey) : result string :=
  match key with
  | KeyStr s => Ok s
  | KeyBool true => Ok "true"
  | KeyBool false => Ok "false"
  | KeyNone => Ok "null"
  | KeyInt z => Ok (str_of_Z z)
  | KeyObj cls =>
      Raise (TypeError
               ("keys must be str, int, float, bool or None, not " ++ cls))
  end.

(** The encoder of [json.dumps(v, default=str)], as far as the JSON value
    it writes (the text of that value is the business of [json_dumps]
    below).  JSON-native values are written as they are.  The elements of
    a list and the items of a dictionary are encoded in order, each key
    before its value, and the first of them that raises ends the
    encoding.  For any other object the encoder calls [default], which is
    [str], and writes the string it returns; what [str] raises is raised.
    The encoder keeps the containers it is encoding as its markers, and
    meeting one of them again, which is what a [PyRef] is, raises
    [ValueError]. *)
Fixpoint json_encode (v : pyval) : result json :=
  match v with
  | PyNone => Ok JNull
  | PyBool b => Ok (JBool b)
  | PyInt z => Ok (JInt z)
  | PyFloat f => Ok (JFloat f)
  | PyStr s => Ok (JStr s)
  | PyList l =>
      result_map JList
        ((fix elements (l : list pyval) : result (list json) :=
            match l with
            | [] => Ok []
            | x :: rest =>
                result_bind (json_encode x) (fun j =>
                result_map (cons j) (elements rest))
            end) l)
  | PyDict d =>
      result_map JObject
        ((fix items (d : list (string * pyval)) : result jdict :=
            match d with
            | [] => Ok []
            | (key, x) :: rest =>
                result_bind (json_encode x) (fun j =>
                result_map (cons (key, j)) (items rest))
            end) d)
  | PyMapping d =>
      result_map JObject
        ((fix items (d : list (pykey * pyval)) : result jdict :=
            match d with
            | [] => Ok []
            | (key, x) :: rest =>
                result_bind (json_key key) (fun name =>
                result_bind (json_encode x) (fun j =>
                result_map (cons (name, j)) (items rest)))
            end) d)
  | PyObj _ text => Ok (JStr text)
  | PyFaulty _ error_type error => Raise (mkexn Exception error_type error)
  | PyRef _ => Raise (ValueError "Circular reference detected")
  end.

(** The values [json.dumps(v, default=str)] encodes without raising:
    no object whose [__str__] raises and no container met again inside
    itself occurs in them, and the keys of their dictionaries are
    strings, booleans, [None] or integers. *)
Definition plain_key (key : pykey) : bool :=
  match key with
  | KeyObj _ => false
  | _ => true
  end.

Fixpoint encodable (v : pyval) : bool :=
  match v with
  | PyList l => forallb encodable l
  | PyDict d => forallb (fun kv => encodable (snd kv)) d
  | PyMapping d =>
      forallb (fun kv => plain_key (fst kv) && encodable (snd kv)) d
  | PyFaulty _ _ _ | PyRef _ => false
  | _ => true
  end.

(** The JSON value that stands for an encodable value [v] in what
    [json.dumps(v, default=str)] returns: a JSON-native value as it is,
    and [default] applied to any other object.  (For a value that is not
    encodable there is none: [JNull] and the empty key are place
    holders.) *)
Definition key_name (key : pykey) : string :=
  match json_key key with
  | Ok name => name
  | _ => ""
  end.

Fixpoint default_str (v : pyval) : json :=
  match v with
  | PyNone => JNull
  | PyBool b => JBool b
  | PyInt z => JInt z
  | PyFloat f => JFloat f
  | PyStr s => JStr s
  | PyList l => JList (map default_str l)
  | PyDict d => JObject (map (fun kv => (fst kv, default_str (snd kv))) d)
  | PyObj _ text => JStr text
  | PyMapping d =>
      JObject (map (fun kv => (key_name (fst kv), default_str (snd kv))) d)
  | PyFaulty _ _ _ | PyRef _ => JNull
  end.


(* ================================================================= *)
(** ** Log records *)

(** A [logging.LogRecord].  The attributes [format] reads are fields;
    [module], [funcName] and [lineno], which [format] tests with [hasattr],
    are optional.  The standard attributes [format] never reads ([name],
    [levelno], [pathname], [thread] and so on) are all on its list of
    excluded names and are left out.  [extra] holds every further entry of
    the record's [__dict__], in insertion order: what the caller passed as
    [extra], and anything else the record was given (such as [taskName]
    from Python 3.12 on). *)
Record LogRecord : Type := mkrecord {
  levelname : string;
  msg : string;
  args : fmt_args;
  created : pyfloat;
  module : option string;
  funcName : option string;
  lineno : option Z;
  extra : pydict
}.

Definition args_value (a : fmt_args) : pyval :=
  match a with
  | ArgsTuple l => PyList l
  | ArgsDict d => PyDict d
  | ArgsMapping d => PyMapping d
  end.

Definition opt_entry (k : string) (v : option pyval) : pydict :=
  match v with
  | Some x => [(k, x)]
  | None => []
  end.

(** [record.__dict__], in the order [LogRecord.__init__] fills it. *)
Definition record_dict (record : LogRecord) : pydict :=
  ([("msg", PyStr (msg record));
    ("args", args_value (args record));
    ("levelname", PyStr (levelname record))]
   ++ opt_entry "module" (option_map PyStr (module record))
   ++ opt_entry "lineno" (option_map PyInt (lineno record))
   ++ opt_entry "funcName" (option_map PyStr (funcName record))
   ++ [("created", PyFloat (created record))]
   ++ extra record)%list.

Definition getattr (record : LogRecord) (key : string) : option pyval :=
  dict_get key (record_dict record).

Definition hasattr (record : LogRecord) (key : string) : bool :=
  dict_mem key (record_dict record).

(** [record.getMessage()] *)
Definition getMessage (record : LogRecord) : result string :=
  if args_truthy (args record) then py_percent (msg record) (args record)
  else Ok (msg record).

(** The further attributes of [record] are values that [json.dumps]
    encodes. *)
Definition encodable_extra (record : LogRecord) : bool :=
  forallb (fun kv => encodable (snd kv)) (extra record).

(** [logging.Logger.makeRecord] for a call received by the logger, when
    no key of [extra] is the name of a standard attribute (else it raises
    [KeyError]): [levelname] is the name [getLevelName] has for the level,
    [created] the wall clock, [caller] the module, function and line of the
    call, and the entries of [extra] become attributes.  A single non-empty
    dictionary argument becomes the operand itself. *)
Definition makeRecord (getLevelName : Z -> string) (now : pyfloat)
           (caller : option string * option string * option Z)
           (c : log_call) : LogRecord :=
  let '(m, f, l) := caller in
  mkrecord (getLevelName (lc_level c)) (lc_msg c)
           (match lc_args c with
            | [PyDict (kv :: d)] => ArgsDict (kv :: d)
            | [PyMapping (kv :: d)] => ArgsMapping (kv :: d)
            | a => ArgsTuple a
            end)
           now m f l (lc_extra c).

(* ================================================================= *)
(** ** The record model *)

Inductive event_kind : Type := Enter | Exit | Cancel | Error.

Definition event_name (e : event_kind) : string :=
  match e with
  | Enter => "enter"
  | Exit => "exit"
  | Cancel => "cancel"
  | Error => "error"
  end.

(** [class TraceRecord(BaseModel)] *)
Record TraceRecordBase : Type := mkbase {
  timestamp : string;
  level : string;
  message : string
}.

(** [class SimpleTraceRecord(TraceRecord)]; its field [action] is always
    [None]. *)
Record SimpleTraceRecord : Type := mksimple {
  simple_base : TraceRecordBase
}.

(** [class ActionTraceRecord(TraceRecord)] *)
Record ActionTraceRecord : Type := mkaction {
  action_base : TraceRecordBase;
  action : string;
  event : event_kind;
  trace_id : string;
  start_time : option pyfloat;
  duration : option pyfloat;
  error : option string;
  error_type : option string;
  stacktrace : option string
}.

Inductive TraceRecord : Type :=
| Simple (r : SimpleTraceRecord)
| Action (r : ActionTraceRecord).

(** One entry of a pydantic [ValidationError]: the field, the kind of
    error and the offending input. *)
Record field_error : Type := mkerr {
  err_loc : string;
  err_type : string;
  err_input : json
}.

(** What [read_trace_file] raises: [jsonlines.InvalidLineError] with the
    line and its number, or [pydantic.ValidationError] for a model with
    its entries. *)
Inductive read_error : Type :=
| InvalidLineError (reason : string) (line : string) (lineno : nat)
| ValidationError (model : string) (errors : list field_error).

(** A returned value or a raised error. *)
Inductive except (E A : Type) : Type :=
| Returned (a : A)
| Failed (e : E).
Arguments Returned {E A} a.
Arguments Failed {E A} e.

(** Validation of one field gives a value or the entries to report. *)
Definition validated (A : Type) : Type := except (list field_error) A.

Definition errors_of {A : Type} (v : validated A) : list field_error :=
  match v with
  | Returned _ => []
  | Failed e => e
  end.

Module Pydantic.

(** A required field of type [str]. *)
Definition str_field (data : jdict) (name : string) : validated string :=
  match dict_get name data with
  | None => Failed [mkerr name "missing" (JObject data)]
  | Some (JStr s) => Returned s
  | Some v => Failed [mkerr name "string_type" v]
  end.

(** A field [str | None] with default [None]. *)
Definition opt_str_field (data : jdict) (name : string)
  : validated (option string) :=
  match dict_get name data with
  | None | Some JNull => Returned None
  | Some (JStr s) => Returned (Some s)
  | Some v => Failed [mkerr name "string_type" v]
  end.

(** A field [None] with default [None]. *)
Definition none_field (data : jdict) (name : string) : validated unit :=
  match dict_get name data with
  | None | Some JNull => Returned tt
  | Some v => Failed [mkerr name "none_required" v]
  end.

(** The field [Literal["enter", "cancel", "error", "exit"]]. *)
Definition event_field (data : jdict) (name : string)
  : validated event_kind :=
  match dict_get name data with
  | None => Failed [mkerr name "missing" (JObject data)]
  | Some (JStr s) =>
      if String.eqb s "enter" then Returned Enter
      else if String.eqb s "cancel" then Returned Cancel
      else if String.eqb s "error" then Returned Error
      else if String.eqb s "exit" then Returned Exit
      else Failed [mkerr name "literal_error" (JStr s)]
  | Some v => Failed [mkerr name "literal_error" v]
  end.

Section Float.
(** Pydantic's lax reading of a string as a float, which is not
    modelled. *)
Variable str_to_float : string -> option pyfloat.

(** A field [float | None] with default [None]: numbers are taken, an
    integer or a boolean becomes a float, a string is parsed. *)
Definition opt_float_field (data : jdict) (name : string)
  : validated (option pyfloat) :=
  match dict_get name data with
  | None | Some JNull => Returned None
  | Some (JFloat f) => Returned (Some f)
  | Some (JInt z) => Returned (Some (float_of_Z z))
  | Some (JBool b) => Returned (Some (float_of_Z (if b then 1 else 0)))
  | Some (JStr s) =>
      match str_to_float s with
      | Some f => Returned (Some f)
      | None => Failed [mkerr name "float_parsing" (JStr s)]
      end
  | Some v => Failed [mkerr name "float_type" v]
  end.
End Float.

End Pydantic.

(** Validation of a model: every field is validated and the errors of all
    fields are reported together. *)
Definition ap {A B : Type} (f : validated (A -> B)) (a : validated A)
  : validated B :=
  match f, a with
  | Returned g, Returned x => Returned (g x)
  | _, _ => Failed (errors_of f ++ errors_of a)%list
  end.

Definition model {A : Type} (name : string) (v : validated A)
  : except read_error A :=
  match v with
  | Returned a => Returned a
  | Failed errors => Failed (ValidationError name errors)
  end.

Declare Scope validate_scope.
Delimit Scope validate_scope with validate.
Notation "f <*> a" := (ap f a) (at level 50, left associativity)
  : validate_scope.

(* ================================================================= *)
(** ** The formatter and the reader *)

(** The attributes of a [trace_action] record that [format] copies. *)
Definition ACTION_KEYS : list string :=
  ["action"; "event"; "trace_id"; "start_time"; "duration";
   "error"; "error_type"; "stacktrace"].

(** The standard record attributes that [format] never copies. *)
Definition EXCLUDED_KEYS : list string :=
  ["args"; "lineno"; "funcName"; "module"; "asctime"; "created";
   "exc_info"; "exc_text"; "filename"; "levelno"; "levelname"; "msecs";
   "msg"; "name"; "pathname"; "process"; "processName";
   "relativeCreated"; "stack_info"; "thread"; "threadName"].

(** [if hasattr(record, key): output[target] = getattr(record, key)] *)
Definition copy_attr (record : LogRecord) (key target : string)
           (output : pydict) : pydict :=
  match getattr record key with
  | Some value => dict_set target value output
  | None => output
  end.

(** The loop over [record.__dict__.items()]. *)
Definition copy_extra (output : pydict) (item : string * pyval) : pydict :=
  let '(key, value) := item in
  if negb (dict_mem key output) && negb (str_in key EXCLUDED_KEYS)
  then dict_set key value output
  else output.

Section Codec.

(** [datetime.fromtimestamp(t).isoformat()], which depends on the local
    time zone. *)
Variable isoformat : pyfloat -> string.

(** The text [json.dumps] writes for a JSON value, and the decoder
    [jsonlines.Reader] applies to one line. *)
Variable json_dumps : json -> string.
Variable json_loads : string -> option json.

Variable str_to_float : string -> option pyfloat.

(** [TraceFormatter.formatTime] *)
Definition formatTime (record : LogRecord) : string :=
  isoformat (created record).

(** The dictionary [output] that [TraceFormatter.format] builds. *)
Definition format_output (record : LogRecord) (message : string)
  : pydict :=
  let output :=
    [("timestamp", PyStr (formatTime record));
     ("level", PyStr (levelname record));
     ("message", PyStr message)] in
  let output :=
    if negb (String.eqb (levelname record) "TRACE") then
      copy_attr record "lineno" "line"
        (copy_attr record "funcName" "function"
           (copy_attr record "module" "module" output))
    else if hasattr record "action" then
      fold_left (fun out key => copy_attr record key key out)
                ACTION_KEYS output
    else output in
  fold_left copy_extra (record_dict record) output.

(** [json.dumps(v, default=str)] *)
Definition dumps_default_str (v : pyval) : result string :=
  result_map json_dumps (json_encode v).

(** [TraceFormatter.format] *)
Definition TraceFormatter_format (record : LogRecord) : result string :=
  result_bind (getMessage record) (fun message =>
    dumps_default_str (PyDict (format_output record message))).

Local Open Scope validate_scope.

(** The constructor of [SimpleTraceRecord] on the entries of [data]. *)
Definition SimpleTraceRecord_init (data : jdict)
  : except read_error SimpleTraceRecord :=
  model "SimpleTraceRecord"
    (Returned (fun ts lv ms (_ : unit) => mksimple (mkbase ts lv ms))
     <*> Pydantic.str_field data "timestamp"
     <*> Pydantic.str_field data "level"
     <*> Pydantic.str_field data "message"
     <*> Pydantic.none_field data "action").

(** The constructor of [ActionTraceRecord] on the entries of [data]. *)
Definition ActionTraceRecord_init (data : jdict)
  : except read_error ActionTraceRecord :=
  model "ActionTraceRecord"
    (Returned (fun ts lv ms => mkaction (mkbase ts lv ms))
     <*> Pydantic.str_field data "timestamp"
     <*> Pydantic.str_field data "level"
     <*> Pydantic.str_field data "message"
     <*> Pydantic.str_field data "action"
     <*> Pydantic.event_field data "event"
     <*> Pydantic.str_field data "trace_id"
     <*> Pydantic.opt_float_field str_to_float data "start_time"
     <*> Pydantic.opt_float_field str_to_float data "duration"
     <*> Pydantic.opt_str_field data "error"
     <*> Pydantic.opt_str_field data "error_type"
     <*> Pydantic.opt_str_field data "stacktrace").

(** [jsonlines.Reader.read(type=dict)] on one line.  (The reason of the
    first error goes on with the message of the decoder.) *)
Definition reader_read (line : string) (lineno : nat)
  : except read_error jdict :=
  match json_loads line with
  | None => Failed (InvalidLineError "line contains invalid json" line lineno)
  | Some JNull =>
      Failed (InvalidLineError "line contains null value" line lineno)
  | Some (JObject trace) => Returned trace
  | Some _ =>
      Failed (InvalidLineError "line does not match requested type"
                               line lineno)
  end.

(** The body of the loop of [read_trace_file] for one decoded line. *)
Definition trace_record (trace : jdict) : except read_error TraceRecord :=
  if dict_mem "action" trace then
    match ActionTraceRecord_init trace with
    | Returned r => Returned (Action r)
    | Failed e => Failed e
    end
  else
    match SimpleTraceRecord_init trace with
    | Returned r => Returned (Simple r)
    | Failed e => Failed e
    end.

(** The loop of [read_trace_file]: [lines] are the lines still to read,
    the first of them numbered [lineno]; [trace_records] is the list
    built so far. *)
Fixpoint read_lines (lines : list string) (lineno : nat)
         (trace_records : list TraceRecord)
  : except read_error (list TraceRecord) :=
  match lines with
  | [] => Returned trace_records
  | line :: rest =>
      match reader_read line lineno with
      | Failed e => Failed e
      | Returned trace =>
          match trace_record trace with
          | Failed e => Failed e
          | Returned r =>
              read_lines rest (S lineno) (trace_records ++ [r])%list
          end
      end
  end.

(** [read_trace_file]; the file is given by its lines, as the reader of
    [jsonlines] takes them from it. *)
Definition read_trace_file (file : list string)
  : except read_error (list TraceRecord) :=
  read_lines file 1%nat [].

End Codec.

(** The three entries every output of [format] starts with. *)
Definition base_output (isoformat : pyfloat -> string) (record : LogRecord)
           (message : string) : pydict :=
  [("timestamp", PyStr (formatTime isoformat record));
   ("level", PyStr (levelname record));
   ("message", PyStr message)].

(** What the output of [format] holds under the key [k] by the end, for
    every key but those a record outside level [TRACE] adds: a base
    entry, nothing for an excluded key, else the attribute of that name. *)
Definition attribute_entry (isoformat : pyfloat -> string)
           (record : LogRecord) (message k : string) : option pyval :=
  match dict_get k (base_output isoformat record message) with
  | Some v => Some v
  | None => if str_in k EXCLUDED_KEYS then None else getattr record k
  end.

(** *** A log record and the typed record it stands for *)

(** The attribute [key] of [record] holds the optional [field]: its value,
    or, for [None], nothing or [None]. *)
Definition opt_attr {A : Type} (inj : A -> pyval) (record : LogRecord)
           (key : string) (field : option A) : Prop :=
  match field with
  | Some x => getattr record key = Some (inj x)
  | None => getattr record key = None \/ getattr record key = Some PyNone
  end.

Definition carries_base (isoformat : pyfloat -> string) (record : LogRecord)
           (b : TraceRecordBase) : Prop :=
  formatTime isoformat record = timestamp b
  /\ levelname record = level b
  /\ getMessage record = Ok (message b).

(** [record] is the log record of the typed record [t]: same time stamp,
    level and message, no [action] attribute for a [SimpleTraceRecord],
    and for an [ActionTraceRecord] the attributes of its fields. *)
Definition carries (isoformat : pyfloat -> string) (record : LogRecord)
           (t : TraceRecord) : Prop :=
  match t with
  | Simple r =>
      carries_base isoformat record (simple_base r)
      /\ hasattr record "action" = false
  | Action r =>
      carries_base isoformat record (action_base r)
      /\ getattr record "action" = Some (PyStr (action r))
      /\ getattr record "event" = Some (PyStr (event_name (event r)))
      /\ getattr record "trace_id" = Some (PyStr (trace_id r))
      /\ opt_attr PyFloat record "start_time" (start_time r)
      /\ opt_attr PyFloat record "duration" (duration r)
      /\ opt_attr PyStr record "error" (error r)
      /\ opt_attr PyStr record "error_type" (error_type r)
      /\ opt_attr PyStr record "stacktrace" (stacktrace r)
  end.

(** The typed record of a scope event: [tag] and [kind] name the event,
    [text] is the rendered message. *)
Definition scope_trace (timestamp level action text tag : string)
           (kind : event_kind) (trace_id : string)
           (start_time duration : option pyfloat)
           (error error_type stacktrace : option string) : TraceRecord :=
  Action (mkaction (mkbase timestamp level (scope_message action text tag))
                   action kind trace_id start_time duration
                   error error_type stacktrace).

(** *** One line of a trace file *)

(** What one turn of the loop of [read_trace_file] makes of a line. *)
Definition line_record (json_loads : string -> option json)
           (str_to_float : string -> option pyfloat)
           (line : string) (lineno : nat) : except read_error TraceRecord :=
  match reader_read json_loads line lineno with
  | Failed e => Failed e
  | Returned trace => trace_record str_to_float trace
  end.

(** The entry [fe] of a validation error points into the mapping [trace]:
    its input is the mapping itself (a missing field) or the value found
    under the field. *)
Definition points_into (trace : jdict) (fe : field_error) : Prop :=
  err_input fe = JObject trace
  \/ dict_get (err_loc fe) trace = Some (err_input fe).

(** What validation reports: at least one entry, each pointing into the
    mapping. *)
Definition reports (data : jdict) {A : Type} (v : validated A) : Prop :=
  match v with
  | Returned _ => True
  | Failed errors => errors <> [] /\ Forall (points_into data) errors
  end.

(** The error [e] names the line it is about: the line and its number for
    a line that is not a JSON object, the decoded content for one that
    fails validation. *)
Definition identifies (json_loads : string -> option json) (e : read_error)
           (line : string) (lineno : nat) : Prop :=
  match e with
  | InvalidLineError _ l n => l = line /\ n = lineno
  | ValidationError _ errors =>
      errors <> []
      /\ exists trace, json_loads line = Some (JObject trace)
                       /\ Forall (points_into trace) errors
  end.


(** The encoding of the dictionary [output] that [format] returns. *)
Definition encoded (output : pydict) : jdict :=
  map (fun kv => (fst kv, default_str (snd kv))) output.

(* ================================================================= *)
(** ** A JSON text codec *)

(** A concrete encoder and decoder of JSON text, to run the formatter and
    the reader on.  The encoder writes what [json.dumps] writes by default
    (separators [", "] and [": "], every character outside printable ASCII
    escaped), except that a float is written in exponent notation and
    that a control character is always escaped by its code, also where
    [json.dumps] has a letter for it. *)
Module JsonText.

Definition dquote : ascii := "034"%char.
Definition backslash : ascii := "092"%char.

Definition hex_digit (n : N) : ascii :=
  if (n <? 10)%N then ascii_of_N (48 + n) else ascii_of_N (87 + n).

Definition hex_value (c : ascii) : option N :=
  let n := N_of_ascii c in
  if ((48 <=? n) && (n <=? 57))%N then Some (n - 48)%N
  else if ((97 <=? n) && (n <=? 102))%N then Some (n - 87)%N
  else if ((65 <=? n) && (n <=? 70))%N then Some (n - 55)%N
  else None.

(** Characters written as they are. *)
Definition plain (c : ascii) : bool :=
  let n := N_of_ascii c in
  ((32 <=? n) && (n <? 127))%N
  && negb (Ascii.eqb c dquote) && negb (Ascii.eqb c backslash).

Definition escape_char (c : ascii) : string :=
  if plain c then String c ""
  else if Ascii.eqb c dquote then String backslash (String dquote "")
  else if Ascii.eqb c backslash then String backslash (String backslash "")
  else
    String backslash
      (String "u"
         (String "0"
            (String "0"
               (String (hex_digit (N_of_ascii c / 16))
                  (String (hex_digit (N_of_ascii c mod 16)) ""))))).

Fixpoint escape (s : string) : string :=
  match s with
  | EmptyString => ""
  | String c rest => escape_char c ++ escape rest
  end.

Definition quote (s : string) : string :=
  String dquote (escape s ++ String dquote "").

Definition dumps_float (f : pyfloat) : string :=
  str_of_Z (mantissa f) ++ "e" ++ str_of_Z (exponent10 f).

Fixpoint join (sep : string) (l : list string) : string :=
  match l with
  | [] => ""
  | [x] => x
  | x :: rest => x ++ sep ++ join sep rest
  end.

Fixpoint dumps (j : json) : string :=
  match j with
  | JNull => "null"
  | JBool true => "true"
  | JBool false => "false"
  | JInt z => str_of_Z z
  | JFloat f => dumps_float f
  | JStr s => quote s
  | JList l => "[" ++ join ", " (map dumps l) ++ "]"
  | JObject d =>
      "{" ++ join ", " (map (fun kv => quote (fst kv) ++ ": " ++ dumps (snd kv)) d)
          ++ "}"
  end.

(** *** Decoding *)

Definition is_ws (c : ascii) : bool :=
  Ascii.eqb c " " || Ascii.eqb c "009" || Ascii.eqb c "010"
  || Ascii.eqb c "013".

Fixpoint skip_ws (s : string) : string :=
  match s with
  | String c rest => if is_ws c then skip_ws rest else s
  | EmptyString => s
  end.

(** The suffix of [s] after the prefix [p], if [s] starts with [p]. *)
Fixpoint strip (p s : string) : option string :=
  match p, s with
  | EmptyString, _ => Some s
  | String a p', String b s' => if Ascii.eqb a b then strip p' s' else None
  | _, _ => None
  end.

Definition cons_char (c : ascii) (r : option (string * string))
  : option (string * string) :=
  match r with
  | Some (s, rest) => Some (String c s, rest)
  | None => None
  end.

(** The characters of a string up to its closing quote. *)
Fixpoint parse_chars (s : string) : option (string * string) :=
  match s with
  | EmptyString => None
  | String c rest =>
      if Ascii.eqb c dquote then Some ("", rest)
      else if Ascii.eqb c backslash then
        match rest with
        | String e rest1 =>
            if Ascii.eqb e "u" then
              match rest1 with
              | String a (String b (String h (String l rest2))) =>
                  if Ascii.eqb a "0" && Ascii.eqb b "0" then
                    match hex_value h, hex_value l with
                    | Some x, Some y =>
                        cons_char (ascii_of_N (16 * x + y))
                                  (parse_chars rest2)
                    | _, _ => None
                    end
                  else None
              | _ => None
              end
            else if Ascii.eqb e dquote then
              cons_char dquote (parse_chars rest1)
            else if Ascii.eqb e backslash then
              cons_char backslash (parse_chars rest1)
            else if Ascii.eqb e "/" then cons_char "/" (parse_chars rest1)
            else if Ascii.eqb e "b" then cons_char "008" (parse_chars rest1)
            else if Ascii.eqb e "f" then cons_char "012" (parse_chars rest1)
            else if Ascii.eqb e "n" then cons_char "010" (parse_chars rest1)
            else if Ascii.eqb e "r" then cons_char "013" (parse_chars rest1)
            else if Ascii.eqb e "t" then cons_char "009" (parse_chars rest1)
            else None
        | EmptyString => None
        end
      else cons_char c (parse_chars rest)
  end.

Definition digit_of (c : ascii) : option (Decimal.uint -> Decimal.uint) :=
  if Ascii.eqb c "0" then Some Decimal.D0
  else if Ascii.eqb c "1" then Some Decimal.D1
  else if Ascii.eqb c "2" then Some Decimal.D2
  else if Ascii.eqb c "3" then Some Decimal.D3
  else if Ascii.eqb c "4" then Some Decimal.D4
  else if Ascii.eqb c "5" then Some Decimal.D5
  else if Ascii.eqb c "6" then Some Decimal.D6
  else if Ascii.eqb c "7" then Some Decimal.D7
  else if Ascii.eqb c "8" then Some Decimal.D8
  else if Ascii.eqb c "9" then Some Decimal.D9
  else None.

(** The leading digits of [s] and what follows them. *)
Fixpoint parse_digits (s : string) : Decimal.uint * string :=
  match s with
  | EmptyString => (Decimal.Nil, s)
  | String c rest =>
      match digit_of c with
      | Some d => let '(ds, r) := parse_digits rest in (d ds, r)
      | None => (Decimal.Nil, s)
      end
  end.

Definition parse_int (s : string) : option (Z * string) :=
  match s with
  | String "-" rest =>
      match parse_digits rest with
      | (Decimal.Nil, _) => None
      | (d, r) => Some (Z.of_int (Decimal.Neg d), r)
      end
  | _ =>
      match parse_digits s with
      | (Decimal.Nil, _) => None
      | (d, r) => Some (Z.of_int (Decimal.Pos d), r)
      end
  end.

Definition parse_number (s : string) : option (json * string) :=
  match parse_int s with
  | None => None
  | Some (m, r) =>
      match r with
      | String "e" r1 =>
          match parse_int r1 with
          | Some (e, r2) => Some (JFloat (mkfloat m e), r2)
          | None => None
          end
      | _ => Some (JInt m, r)
      end
  end.

Section Containers.
(** The decoder of one value. *)
Variable value : string -> option (json * string).

(** The elements of an array after its first bracket or a comma, at
    most [n] of them. *)
Fixpoint parse_elems (n : nat) (s : string) : option (list json * string) :=
  match n with
  | O => None
  | S n' =>
      match value s with
      | None => None
      | Some (j, r) =>
          match skip_ws r with
          | String c r1 =>
              if Ascii.eqb c "," then
                match parse_elems n' r1 with
                | Some (l, r2) => Some (j :: l, r2)
                | None => None
                end
              else if Ascii.eqb c "]" then Some ([j], r1)
              else None
          | EmptyString => None
          end
      end
  end.

Definition parse_list (n : nat) (s : string)
  : option (list json * string) :=
  match skip_ws s with
  | String "]" r => Some ([], r)
  | _ => parse_elems n s
  end.

(** The members of an object, likewise. *)
Fixpoint parse_members (n : nat) (s : string)
  : option (list (string * json) * string) :=
  match n with
  | O => None
  | S n' =>
      match skip_ws s with
      | String q r =>
          if Ascii.eqb q dquote then
            match parse_chars r with
            | None => None
            | Some (k, r0) =>
                match skip_ws r0 with
                | String ":" r1 =>
                    match value r1 with
                    | None => None
                    | Some (j, r2) =>
                        match skip_ws r2 with
                        | String c r3 =>
                            if Ascii.eqb c "," then
                              match parse_members n' r3 with
                              | Some (l, r4) => Some ((k, j) :: l, r4)
                              | None => None
                              end
                            else if Ascii.eqb c "}" then
                              Some ([(k, j)], r3)
                            else None
                        | EmptyString => None
                        end
                    end
                | _ => None
                end
            end
          else None
      | EmptyString => None
      end
  end.

Definition parse_object (n : nat) (s : string)
  : option (list (string * json) * string) :=
  match skip_ws s with
  | String "}" r => Some ([], r)
  | _ => parse_members n s
  end.
End Containers.

Definition literal (p : string) (j : json) (s : string)
  : option (json * string) :=
  match strip p s with
  | Some r => Some (j, r)
  | None => None
  end.

(** One value, nested at most [fuel] deep. *)
Fixpoint parse_value (fuel : nat) (s : string) : option (json * string) :=
  match fuel with
  | O => None
  | S fuel' =>
      match skip_ws s with
      | EmptyString => None
      | String c r =>
          if Ascii.eqb c "n" then literal "ull" JNull r
          else if Ascii.eqb c "t" then literal "rue" (JBool true) r
          else if Ascii.eqb c "f" then literal "alse" (JBool false) r
          else if Ascii.eqb c dquote then
            match parse_chars r with
            | Some (str, r1) => Some (JStr str, r1)
            | None => None
            end
          else if Ascii.eqb c "[" then
            match parse_list (parse_value fuel') (String.length r) r with
            | Some (l, r1) => Some (JList l, r1)
            | None => None
            end
          else if Ascii.eqb c "{" then
            match parse_object (parse_value fuel') (String.length r) r with
            | Some (d, r1) => Some (JObject d, r1)
            | None => None
            end
          else parse_number (String c r)
      end
  end.

(** The decoder: one value and nothing but white space after it. *)
Definition loads (s : string) : option json :=
  match parse_value (S (String.length s)) s with
  | Some (j, r) =>
      match skip_ws r with
      | EmptyString => Some j
      | _ => None
      end
  | None => None
  end.

(** *** Shapes of encodings, for the proofs *)

(** [s] does not go on with a digit. *)
Definition no_digit (s : string) : bool :=
  match s with
  | String c _ => match digit_of c with Some _ => false | None => true end
  | EmptyString => true
  end.

(** [s] is empty or goes on with one of [,], [\]] and [}]. *)
Definition sep_head (s : string) : bool :=
  match s with
  | String c _ => Ascii.eqb c "," || Ascii.eqb c "]" || Ascii.eqb c "}"
  | EmptyString => true
  end.

(** How deep arrays and objects are nested in [j]. *)
Fixpoint depth (j : json) : nat :=
  match j with
  | JList l => S (list_max (map depth l))
  | JObject d => S (list_max (map (fun kv => depth (snd kv)) d))
  | _ => O
  end.

(** The first character of an encoding is neither white space nor a
    closing bracket. *)
Definition no_ws (s : string) : bool :=
  match s with
  | String c _ =>
      negb (is_ws c) && negb (Ascii.eqb c "]") && negb (Ascii.eqb c "}")
  | EmptyString => false
  end.

(** The first character of a decimal number: a digit or the sign. *)
Definition number_head (s : string) : bool :=
  match s with
  | String c _ =>
      match digit_of c with
      | Some _ => true
      | None => Ascii.eqb c "-"
      end
  | EmptyString => false
  end.

(** The encoding of one member of an object. *)
Definition member (kv : string * json) : string :=
  quote (fst kv) ++ ": " ++ dumps (snd kv).

(** [value] decodes the encoding of [j]. *)
Definition decodes (value : string -> option (json * string)) (j : json)
  : Prop :=
  forall rest, sep_head rest = true ->
               value (dumps j ++ rest) = Some (j, rest).

End JsonText.

(* ================================================================= *)
(** ** A sample environment *)

(** An environment to run the definitions in: identifiers in unary,
    clocks that tick once per reading. *)
Module Sample.

Fixpoint uuid_src (n : nat) : string :=
  match n with
  | O => "u"
  | S k => String "x" (uuid_src k)
  end.

Definition monotonic_src (n : nat) : pyfloat := mkfloat (Z.of_nat n) (-3).

Definition time_src (n : nat) : pyfloat :=
  mkfloat (1700000000 + Z.of_nat n) 0.

Definition format_exc (ex : exn) : string :=
  "Traceback (most recent call last): " ++ exc_type_name ex ++ ": "
    ++ exc_str ex.

Definition TRACE : Z := 13.

Definition start : world := mkworld 0 0 0 [].

Definition scope := trace_action uuid_src monotonic_src time_src format_exc TRACE.


Definition system_exit : exn := mkexn SystemExit "SystemExit" "0".

Definition cancelled : exn := mkexn CancelledError "CancelledError" "".

Definition boom : exn := mkexn Exception "RuntimeError" "boom".

Definition isoformat (t : pyfloat) : string :=
  "T" ++ str_of_Z (mantissa t) ++ "e" ++ str_of_Z (exponent10 t).

Definition str_to_float (s : string) : option pyfloat :=
  match JsonText.parse_number s with
  | Some (JFloat f, EmptyString) => Some f
  | Some (JInt z, EmptyString) => Some (float_of_Z z)
  | _ => None
  end.

(** Level names as registered: [TRACE] beside the standard [INFO]. *)
Definition getLevelName (level : Z) : string :=
  if level =? TRACE then "TRACE"
  else if level =? 20 then "INFO"
  else "Level " ++ str_of_Z level.

Definition format := TraceFormatter_format isoformat JsonText.dumps.

Definition read := read_trace_file JsonText.loads str_to_float.

(** The log record of the [enter] event of a scope. *)
Definition enter_record : LogRecord :=
  makeRecord getLevelName (mkfloat 1700000000 0)
             (Some "trace", Some "trace_action", Some 38)
             (enter_call TRACE "build" "compiling mod.x" "u"
                         (mkfloat 1700000000 0)).

(** The same with one further attribute. *)
Definition tagged_record : LogRecord :=
  makeRecord getLevelName (mkfloat 1700000000 0)
             (Some "trace", Some "trace_action", Some 38)
             (mklog TRACE "Action: build - compiling mod.x (enter)" []
                    [("action", PyStr "build"); ("event", PyStr "enter");
                     ("trace_id", PyStr "u");
                     ("start_time", PyFloat (mkfloat 1700000000 0));
                     ("worker", PyInt 7)]).

(** An ordinary record with an attribute that JSON cannot represent. *)
Definition object_record : LogRecord :=
  makeRecord getLevelName (mkfloat 1700000001 0)
             (Some "eval", Some "run", Some 120)
             (mklog 20 "loaded %s" [PyStr "task"]
                    [("path", PyObj "PosixPath" "/tmp/logs")]).

(** The typed records of [enter_record] and [object_record]. *)
Definition enter_trace : TraceRecord :=
  Action (mkaction (mkbase "T1700000000e0" "TRACE"
                           "Action: build - compiling mod.x (enter)")
                   "build" Enter "u" (Some (mkfloat 1700000000 0))
                   None None None None).

Definition object_trace : TraceRecord :=
  Simple (mksimple (mkbase "T1700000001e0" "INFO" "loaded task")).

(** A decoded line of an [exit] event. *)
Definition exit_mapping : jdict :=
  [("timestamp", JStr "T1700000003e0"); ("level", JStr "TRACE");
   ("message", JStr "Action: build - compiling mod.x (exit)");
   ("action", JStr "build"); ("event", JStr "exit");
   ("trace_id", JStr "u"); ("duration", JFloat (mkfloat 3 (-3)))].





End Sample.

(* ================================================================= *)
(** ** Nested scopes *)

(** Scopes without arguments nested in one another, the first outermost,
    around the block [inner]. *)
Fixpoint nested (scopes : list (string * string)) (inner : list stmt)
  : list stmt :=
  match scopes with
  | [] => inner
  | (action, message) :: rest => [SWith action message [] [] (nested rest inner)]
  end.

(** The [enter] records of nested scopes, when the first of them draws
    identifier number [u] and wall-clock reading number [t]. *)
Fixpoint enters_from (uuid_src : nat -> string) (time_src : nat -> pyfloat)
         (TRACE : Z) (scopes : list (string * string)) (u t : nat)
  : list log_call :=
  match scopes with
  | [] => []
  | (action, message) :: rest =>
      enter_call TRACE action message (uuid_src u) (time_src t)
      :: enters_from uuid_src time_src TRACE rest (S u) (S t)
  end.

(** Their terminal records when the innermost block finishes with [r]:
    the innermost scope first.  The first scope read the monotonic clock
    at reading number [n]; the innermost block left the clock at reading
    number [e], and every scope reads it once more when it ends. *)
Fixpoint terminals_from (uuid_src : nat -> string)
         (monotonic_src : nat -> pyfloat) (format_exc : exn -> string)
         (TRACE : Z) (scopes : list (string * string)) (u n e : nat)
         (r : result unit) : list log_call :=
  match scopes with
  | [] => []
  | (action, message) :: rest =>
      (terminals_from uuid_src monotonic_src format_exc TRACE rest
                      (S u) (S n) e r
       ++ terminal_calls format_exc TRACE action message (uuid_src u)
            (fsub (monotonic_src (e + length rest)%nat) (monotonic_src n))
            r)%list
  end.


(** The world in which the block inside nested scopes starts: every
    scope has drawn its identifier and its two clock readings and logged
    its [enter] record. *)
Definition entered (uuid_src : nat -> string) (time_src : nat -> pyfloat)
           (TRACE : Z) (scopes : list (string * string)) (w : world)
  : world :=
  mkworld (uuid_n w + length scopes) (monotonic_n w + length scopes)
          (time_n w + length scopes)
          (sink w ++ enters_from uuid_src time_src TRACE scopes
                                 (uuid_n w) (time_n w))%list.

(** The error [e] of a line when [k] more lines come before it: the
    number of the line moves, the rest stays. *)
Definition renumber (k : nat) (e : read_error) : read_error :=
  match e with
  | InvalidLineError reason line lineno =>
      InvalidLineError reason line (k + lineno)
  | ValidationError _ _ => e
  end.

(** [v] is not a JSON string. *)
Definition not_a_string (v : json) : Prop :=
  match v with
  | JStr _ => False
  | _ => True
  end.

(** The names of the fields of the record models. *)
Definition FIELD_KEYS : list string :=
  (["timestamp"; "level"; "message"] ++ ACTION_KEYS)%list.

(* ================================================================= *)
(** * The command line of [eval]: generation options *)

(** ** Strings *)

(** [s.split(sep)] for a separator of one character. *)
Fixpoint split (sep : ascii) (s : string) : list string :=
  match s with
  | EmptyString => [EmptyString]
  | String c rest =>
      if Ascii.eqb c sep then EmptyString :: split sep rest
      else match split sep rest with
           | part :: parts => String c part :: parts
           | [] => [String c EmptyString]
           end
  end.

(** [sep.join(parts)] *)
Fixpoint join (sep : ascii) (parts : list string) : string :=
  match parts with
  | [] => EmptyString
  | [part] => part
  | part :: rest => part ++ String sep (join sep rest)
  end.

(** [sep in s] *)
Fixpoint contains (sep : ascii) (s : string) : bool :=
  match s with
  | EmptyString => false
  | String c rest => Ascii.eqb c sep || contains sep rest
  end.

(** [s.lower()] on the letters of ASCII.  (A string is a sequence of
    bytes here; no character outside ASCII has a letter of [true] or
    [false] as its lower case, so the comparisons of [s.lower()] with
    these two words are the same as in Python.) *)
Definition lower_char (c : ascii) : ascii :=
  let n := nat_of_ascii c in
  if (65 <=? n)%nat && (n <=? 90)%nat then ascii_of_nat (n + 32) else c.

Fixpoint lower (s : string) : string :=
  match s with
  | EmptyString => EmptyString
  | String c rest => String (lower_char c) (lower rest)
  end.

(** [parse_comma_separated] *)
Definition parse_comma_separated (value : option string)
  : option (list string) :=
  match value with
  | Some v => Some (split "," v)
  | None => None
  end.

(** ** Dictionaries with integer keys *)

Fixpoint zdict_get (k : Z) (d : list (Z * pyval)) : option pyval :=
  match d with
  | [] => None
  | (k', v) :: rest => if Z.eqb k k' then Some v else zdict_get k rest
  end.

(** [d[k] = v] *)
Fixpoint zdict_set (k : Z) (v : pyval) (d : list (Z * pyval))
  : list (Z * pyval) :=
  match d with
  | [] => [(k, v)]
  | (k', v') :: rest =>
      if Z.eqb k k' then (k', v) :: rest
      else (k', v') :: zdict_set k v rest
  end.

(** [dict(pairs)] *)
Definition zdict_of (pairs : list (Z * pyval)) : list (Z * pyval) :=
  fold_left (fun d kv => zdict_set (fst kv) (snd kv) d) pairs [].

(** [[f(x) for x in l]], which stops at the first call that raises. *)
Fixpoint comprehension {A B : Type} (f : A -> result B) (l : list A)
  : result (list B) :=
  match l with
  | [] => Ok []
  | x :: rest =>
      result_bind (f x) (fun y =>
      result_map (cons y) (comprehension f rest))
  end.

(** ** Generation options *)

(** A value of the generation options: a value of [pyval], or the
    dictionary of token biases, whose keys are integers. *)
Inductive config_value : Type :=
| Plain (v : pyval)
| LogitBias (d : list (Z * pyval)).

(** [value is None], [value is False] *)
Definition is_None (value : config_value) : bool :=
  match value with
  | Plain PyNone => true
  | _ => false
  end.

Definition is_False (value : config_value) : bool :=
  match value with
  | Plain (PyBool false) => true
  | _ => false
  end.

(** The options [config_from_locals] converts. *)
Definition CONVERTED_KEYS : list string :=
  ["stop_seqs"; "logprobs"; "logit_bias"; "cache_prompt";
   "parallel_tool_calls"; "internal_tools"; "reasoning_history";
   "response_schema"; "batch"].

Section Config.

(** [list(GenerateConfigArgs.__mutable_keys__)], the names of the
    generation options. *)
Variable config_keys : list string.

(** [parse_cli_args] of [inspect_ai._cli.util], [int] on a string,
    [ResponseSchema.model_validate_json] and, for [batch],
    [BatchConfig.model_validate(resolve_args(value))]: defined outside
    this module, each returns a value or raises. *)
Variable parse_cli_args : list string -> result pydict.
Variable int : string -> result Z.
Variable model_validate_json : pyval -> result pyval.
Variable batch_config : string -> result pyval.

(** [parse_logit_bias] *)
Definition parse_logit_bias (logit_bias : option string)
  : result (option (list (Z * pyval))) :=
  result_bind
    (match logit_bias with
     | Some (String c rest) =>
         result_map Some (parse_cli_args (split "," (String c rest)))
     | Some EmptyString | None => Ok None
     end)
    (fun logit_biases =>
       match logit_biases with
       | Some (kv :: d) =>
           result_map
             (fun keys => Some (zdict_of (combine keys
                                                  (map snd (kv :: d)))))
             (comprehension int (dict_keys (kv :: d)))
       | Some [] | None => Ok None
       end).

(** The body of the loop of [config_from_locals] between its test and the
    assignment to [config]: [value] as it is rebound by one [if]
    statement after the other.  A method called on a value that has no
    such method is not modelled. *)
Definition converted (key : string) (value : pyval) : result config_value :=
  let value := Plain value in
  result_bind
    (if String.eqb key "stop_seqs" then
       match value with
       | Plain (PyStr s) => Ok (Plain (PyList (map PyStr (split "," s))))
       | _ => Unmodelled
       end
     else Ok value)
    (fun value =>
  let value :=
    if String.eqb key "logprobs" && is_False value then Plain PyNone
    else value in
  result_bind
    (if String.eqb key "logit_bias" && negb (is_None value) then
       match value with
       | Plain (PyStr s) =>
           result_map (fun bias => match bias with
                                   | Some d => LogitBias d
                                   | None => Plain PyNone
                                   end)
                      (parse_logit_bias (Some s))
       | _ => Unmodelled
       end
     else Ok value)
    (fun value =>
  result_bind
    (if String.eqb key "cache_prompt" then
       match value with
       | Plain (PyStr s) =>
           if String.eqb (lower s) "true" then Ok (Plain (PyBool true))
           else if String.eqb (lower s) "false" then Ok (Plain (PyBool false))
           else Ok value
       | _ => Unmodelled
       end
     else Ok value)
    (fun value =>
  let value :=
    if String.eqb key "parallel_tool_calls" then
      if negb (is_False value) then Plain PyNone else value
    else value in
  let value :=
    if String.eqb key "internal_tools" then
      if negb (is_False value) then Plain PyNone else value
    else value in
  let value :=
    if String.eqb key "reasoning_history" then
      if negb (is_False value) then Plain PyNone else value
    else value in
  result_bind
    (if String.eqb key "response_schema" then
       if negb (is_None value) then
         match value with
         | Plain v => result_map Plain (model_validate_json v)
         | LogitBias _ => Unmodelled
         end
       else Ok value
     else Ok value)
    (fun value =>
  if String.eqb key "batch" then
    match value with
    | Plain (PyStr s) => result_map Plain (batch_config s)
    | _ => Ok value
    end
  else Ok value)))).

(** One turn of the loop of [config_from_locals]. *)
Definition config_item (config : list (string * config_value))
           (item : string * pyval)
  : result (list (string * config_value)) :=
  let '(key, value) := item in
  if str_in key config_keys && negb (is_None (Plain value)) then
    result_map (fun value => dict_set key value config)
               (converted key value)
  else Ok config.

(** [config_from_locals]; [locals] is the dictionary of the local
    variables, in the order of its items. *)
Definition config_from_locals (locals : pydict)
  : result (list (string * config_value)) :=
  fold_left (fun config item =>
               result_bind config (fun config => config_item config item))
            locals (Ok []).

End Config.

(** The items of [locals] that [config_from_locals] takes: an option by
    its name, with a value. *)
Definition taken (config_keys : list string) (item : string * pyval)
  : bool :=
  str_in (fst item) config_keys && negb (is_None (Plain (snd item))).

(** An item of [locals] and the item of [config] made of it. *)
Definition made_of (parse_cli_args : list string -> result pydict)
           (int : string -> result Z)
           (model_validate_json : pyval -> result pyval)
           (batch_config : string -> result pyval)
           (item : string * pyval) (made : string * config_value) : Prop :=
  fst made = fst item
  /\ converted parse_cli_args int model_validate_json batch_config
               (fst item) (snd item) = Ok (snd made).

(** Sample surroundings for the generation options: some option names,
    arguments of the form [key=value] taken as they are, decimal
    integers, and schema and batch objects that only remember their
    source. *)
Module SampleCli.

Definition config_keys : list string :=
  ["max_tokens"; "temperature"; "seed"; "stop_seqs"; "logprobs";
   "logit_bias"; "cache_prompt"; "parallel_tool_calls"; "internal_tools";
   "reasoning_history"; "response_schema"; "batch"].

Definition parse_cli_arg (arg : string) : string * pyval :=
  match split "=" arg with
  | key :: rest => (key, PyStr (join "=" rest))
  | [] => (arg, PyNone)
  end.

Definition parse_cli_args (args : list string) : result pydict :=
  Ok (fold_left (fun d arg => dict_set (fst (parse_cli_arg arg))
                                       (snd (parse_cli_arg arg)) d)
                args []).

Definition int (s : string) : result Z :=
  match NilZero.int_of_string s with
  | Some i => Ok (Z.of_int i)
  | None => Raise (ValueError ("invalid literal for int() with base 10: '"
                                 ++ s ++ "'"))
  end.

Definition model_validate_json (v : pyval) : result pyval :=
  match v with
  | PyStr s => Ok (PyObj "ResponseSchema" s)
  | _ => Raise (TypeError "JSON input should be string, bytes or bytearray")
  end.

Definition batch_config (s : string) : result pyval :=
  Ok (PyObj "BatchConfig" s).

Definition config_from_locals :=
  config_from_locals config_keys parse_cli_args int model_validate_json
                     batch_config.

(** Some local variables of the command. *)
Definition locals : pydict :=
  [("tasks", PyList [PyStr "arc.py"]); ("model", PyStr "openai/gpt-4o");
   ("max_tokens", PyInt 100); ("temperature", PyNone);
   ("stop_seqs", PyStr "END,STOP"); ("logprobs", PyBool false);
   ("cache_prompt", PyStr "True"); ("parallel_tool_calls", PyBool true);
   ("reasoning_history", PyStr "last")].

Definition config : list (string * config_value) :=
  [("max_tokens", Plain (PyInt 100));
   ("stop_seqs", Plain (PyList [PyStr "END"; PyStr "STOP"]));
   ("logprobs", Plain PyNone);
   ("cache_prompt", Plain (PyBool true));
   ("parallel_tool_calls", Plain PyNone);
   ("reasoning_history", Plain PyNone)].

End SampleCli.

(* ================================================================= *)
(** * The command line of [eval]: running an evaluation *)

Module Cli.

(** The arguments of [eval_exec], with the types of its signature. *)
Record eval_exec_args : Type := {
  tasks : option (list string);
  solver : option string;
  log_level : string;
  log_level_transcript : string;
  log_dir : string;
  log_format : option string;
  model : option string;
  model_base_url : option string;
  m : option (list string);
  model_config : option string;
  model_role : option (list string);
  t : option (list string);
  task_config : option string;
  s : option (list string);
  solver_config : option string;
  tags : option string;
  metadata : option (list string);
  trace : option bool;
  approval : option string;
  sandbox : option string;
  no_sandbox_cleanup : option bool;
  epochs : option Z;
  epochs_reducer : option string;
  limit : option string;
  sample_id : option string;
  message_limit : option Z;
  token_limit : option Z;
  time_limit : option Z;
  working_limit : option Z;
  max_samples : option Z;
  max_tasks : option Z;
  max_subprocesses : option Z;
  max_sandboxes : option Z;
  fail_on_error : option (bool + pyfloat);
  no_fail_on_error : option bool;
  retry_on_error : option Z;
  debug_errors : option bool;
  no_log_samples : option bool;
  no_log_realtime : option bool;
  log_images : option bool;
  log_buffer : option Z;
  log_shared : option Z;
  no_score : option bool;
  no_score_display : option bool;
  is_eval_set : bool;
  retry_attempts : option Z;
  retry_wait : option Z;
  retry_connections : option pyfloat;
  retry_cleanup : option bool;
  bundle_dir : option string;
  bundle_overwrite : bool
}.

(** The arguments of [eval_retry_command]; [r_common] is the dictionary
    of the common options. *)
Record eval_retry_args : Type := {
  r_log_files : list string;
  r_max_samples : option Z;
  r_max_tasks : option Z;
  r_max_subprocesses : option Z;
  r_max_sandboxes : option Z;
  r_no_sandbox_cleanup : option bool;
  r_trace : option bool;
  r_fail_on_error : option (bool + pyfloat);
  r_no_fail_on_error : option bool;
  r_retry_on_error : option Z;
  r_no_log_samples : option bool;
  r_no_log_realtime : option bool;
  r_log_images : option bool;
  r_log_buffer : option Z;
  r_log_shared : option Z;
  r_no_score : option bool;
  r_no_score_display : option bool;
  r_max_connections : option Z;
  r_max_retries : option Z;
  r_timeout : option Z;
  r_log_level_transcript : string;
  r_common : pydict
}.

(** The values of the arguments as Python values. *)
Definition of_bool (b : bool) : config_value := Plain (PyBool b).
Definition of_str (x : string) : config_value := Plain (PyStr x).

Definition of_opt {A : Type} (inj : A -> pyval) (x : option A)
  : config_value :=
  match x with
  | Some a => Plain (inj a)
  | None => Plain PyNone
  end.

Definition of_strs (l : list string) : pyval := PyList (map PyStr l).

Definition of_threshold (x : bool + pyfloat) : pyval :=
  match x with
  | inl b => PyBool b
  | inr f => PyFloat f
  end.

(** Truth of a value used as a condition: [if x] for [x] an optional
    flag, number, string or tuple. *)
Definition flag_set (x : option bool) : bool :=
  match x with
  | Some true => true
  | _ => false
  end.

Definition number_set (x : option Z) : bool :=
  match x with
  | Some z => negb (z =? 0)
  | None => false
  end.

Definition text_set (x : option string) : bool :=
  match x with
  | Some (String _ _) => true
  | _ => false
  end.

(** [x == 0.0] for a flag, a float or [None]: [False] equals zero. *)
Definition equals_zero (x : option (bool + pyfloat)) : bool :=
  match x with
  | Some (inl b) => negb b
  | Some (inr f) => mantissa f =? 0
  | None => false
  end.

(** [left | right] on dictionaries. *)
Definition dict_or {V : Type} (left right : list (string * V))
  : list (string * V) :=
  fold_left (fun d kv => dict_set (fst kv) (snd kv) d) right left.

(** The resolution of [fail_on_error] and [retry_on_error], and the
    negating options, as [eval_exec] and [eval_retry_command] both have
    them. *)
Definition resolve_fail_on_error (fail_on_error : option (bool + pyfloat))
           (no_fail_on_error : option bool) : config_value :=
  match no_fail_on_error with
  | Some true => of_bool false
  | _ => if equals_zero fail_on_error then of_bool true
         else of_opt of_threshold fail_on_error
  end.

Definition resolve_retry_on_error (retry_on_error : option Z)
  : config_value :=
  match retry_on_error with
  | Some 0 => Plain PyNone
  | _ => of_opt PyInt retry_on_error
  end.

(** [False if flag else None] *)
Definition off_if (flag : bool) : config_value :=
  if flag then of_bool false else Plain PyNone.

(** [common[key]] for an entry that is a string, and for one that is a
    flag or [None]; a missing key raises [KeyError]. *)
Definition common_str (common : pydict) (key : string) : result string :=
  match dict_get key common with
  | Some (PyStr x) => Ok x
  | Some _ => Unmodelled
  | None => Raise (KeyError key)
  end.

Definition common_flag (common : pydict) (key : string)
  : result (option bool) :=
  match dict_get key common with
  | Some (PyBool b) => Ok (Some b)
  | Some PyNone => Ok None
  | Some _ => Unmodelled
  | None => Raise (KeyError key)
  end.

(** The values of the local variables of the commands. *)
Definition local_opt {A : Type} (inj : A -> pyval) (x : option A) : pyval :=
  match x with
  | Some a => inj a
  | None => PyNone
  end.

Definition of_batch (x : Z + string) : pyval :=
  match x with
  | inl n => PyInt n
  | inr text => PyStr text
  end.

(** The arguments of [eval_command] and [eval_set_command], with the
    types of their signatures ([response_schema] is a string on the
    command line).  The fields [ctx], [retry_attempts], [retry_wait],
    [retry_connections], [no_retry_cleanup], [bundle_dir] and
    [bundle_overwrite] are arguments of [eval_set_command] only. *)
Record command_args : Type := {
  c_ctx : pyval;
  c_tasks : option (list string);
  c_retry_attempts : option Z;
  c_retry_wait : option Z;
  c_retry_connections : option pyfloat;
  c_no_retry_cleanup : option bool;
  c_solver : option string;
  c_trace : option bool;
  c_approval : option string;
  c_model : option string;
  c_model_base_url : option string;
  c_m : option (list string);
  c_model_config : option string;
  c_model_role : option (list string);
  c_t : option (list string);
  c_task_config : option string;
  c_s : option (list string);
  c_solver_config : option string;
  c_tags : option string;
  c_metadata : option (list string);
  c_sandbox : option string;
  c_no_sandbox_cleanup : option bool;
  c_epochs : option Z;
  c_epochs_reducer : option string;
  c_limit : option string;
  c_sample_id : option string;
  c_max_retries : option Z;
  c_timeout : option Z;
  c_max_connections : option Z;
  c_max_tokens : option Z;
  c_system_message : option string;
  c_best_of : option Z;
  c_frequency_penalty : option pyfloat;
  c_presence_penalty : option pyfloat;
  c_logit_bias : option string;
  c_seed : option Z;
  c_stop_seqs : option string;
  c_temperature : option pyfloat;
  c_top_p : option pyfloat;
  c_top_k : option Z;
  c_num_choices : option Z;
  c_logprobs : option bool;
  c_top_logprobs : option Z;
  c_parallel_tool_calls : option bool;
  c_internal_tools : option bool;
  c_max_tool_output : option Z;
  c_cache_prompt : option string;
  c_reasoning_effort : option string;
  c_reasoning_tokens : option Z;
  c_reasoning_summary : option string;
  c_reasoning_history : option string;
  c_response_schema : option string;
  c_batch : option (Z + string);
  c_message_limit : option Z;
  c_token_limit : option Z;
  c_time_limit : option Z;
  c_working_limit : option Z;
  c_max_samples : option Z;
  c_max_tasks : option Z;
  c_max_subprocesses : option Z;
  c_max_sandboxes : option Z;
  c_fail_on_error : option (bool + pyfloat);
  c_no_fail_on_error : option bool;
  c_retry_on_error : option Z;
  c_no_log_samples : option bool;
  c_no_log_realtime : option bool;
  c_log_images : option bool;
  c_log_buffer : option Z;
  c_log_shared : option Z;
  c_no_score : option bool;
  c_no_score_display : option bool;
  c_bundle_dir : option string;
  c_bundle_overwrite : option bool;
  c_log_format : option string;
  c_log_level_transcript : string;
  c_common : pydict
}.

(** [dict(locals())] at the start of [eval_command]. *)
Definition eval_command_locals (c : command_args) : pydict :=
  [("tasks", local_opt of_strs (c_tasks c));
   ("solver", local_opt PyStr (c_solver c));
   ("model", local_opt PyStr (c_model c));
   ("model_base_url", local_opt PyStr (c_model_base_url c));
   ("m", local_opt of_strs (c_m c));
   ("model_config", local_opt PyStr (c_model_config c));
   ("model_role", local_opt of_strs (c_model_role c));
   ("t", local_opt of_strs (c_t c));
   ("task_config", local_opt PyStr (c_task_config c));
   ("s", local_opt of_strs (c_s c));
   ("solver_config", local_opt PyStr (c_solver_config c));
   ("tags", local_opt PyStr (c_tags c));
   ("metadata", local_opt of_strs (c_metadata c));
   ("trace", local_opt PyBool (c_trace c));
   ("approval", local_opt PyStr (c_approval c));
   ("sandbox", local_opt PyStr (c_sandbox c));
   ("no_sandbox_cleanup", local_opt PyBool (c_no_sandbox_cleanup c));
   ("epochs", local_opt PyInt (c_epochs c));
   ("epochs_reducer", local_opt PyStr (c_epochs_reducer c));
   ("limit", local_opt PyStr (c_limit c));
   ("sample_id", local_opt PyStr (c_sample_id c));
   ("max_retries", local_opt PyInt (c_max_retries c));
   ("timeout", local_opt PyInt (c_timeout c));
   ("max_connections", local_opt PyInt (c_max_connections c));
   ("max_tokens", local_opt PyInt (c_max_tokens c));
   ("system_message", local_opt PyStr (c_system_message c));
   ("best_of", local_opt PyInt (c_best_of c));
   ("frequency_penalty", local_opt PyFloat (c_frequency_penalty c));
   ("presence_penalty", local_opt PyFloat (c_presence_penalty c));
   ("logit_bias", local_opt PyStr (c_logit_bias c));
   ("seed", local_opt PyInt (c_seed c));
   ("stop_seqs", local_opt PyStr (c_stop_seqs c));
   ("temperature", local_opt PyFloat (c_temperature c));
   ("top_p", local_opt PyFloat (c_top_p c));
   ("top_k", local_opt PyInt (c_top_k c));
   ("num_choices", local_opt PyInt (c_num_choices c));
   ("logprobs", local_opt PyBool (c_logprobs c));
   ("top_logprobs", local_opt PyInt (c_top_logprobs c));
   ("parallel_tool_calls", local_opt PyBool (c_parallel_tool_calls c));
   ("internal_tools", local_opt PyBool (c_internal_tools c));
   ("max_tool_output", local_opt PyInt (c_max_tool_output c));
   ("cache_prompt", local_opt PyStr (c_cache_prompt c));
   ("reasoning_effort", local_opt PyStr (c_reasoning_effort c));
   ("reasoning_tokens", local_opt PyInt (c_reasoning_tokens c));
   ("reasoning_summary", local_opt PyStr (c_reasoning_summary c));
   ("reasoning_history", local_opt PyStr (c_reasoning_history c));
   ("response_schema", local_opt PyStr (c_response_schema c));
   ("batch", local_opt of_batch (c_batch c));
   ("message_limit", local_opt PyInt (c_message_limit c));
   ("token_limit", local_opt PyInt (c_token_limit c));
   ("time_limit", local_opt PyInt (c_time_limit c));
   ("working_limit", local_opt PyInt (c_working_limit c));
   ("max_samples", local_opt PyInt (c_max_samples c));
   ("max_tasks", local_opt PyInt (c_max_tasks c));
   ("max_subprocesses", local_opt PyInt (c_max_subprocesses c));
   ("max_sandboxes", local_opt PyInt (c_max_sandboxes c));
   ("fail_on_error", local_opt of_threshold (c_fail_on_error c));
   ("no_fail_on_error", local_opt PyBool (c_no_fail_on_error c));
   ("retry_on_error", local_opt PyInt (c_retry_on_error c));
   ("no_log_samples", local_opt PyBool (c_no_log_samples c));
   ("no_log_realtime", local_opt PyBool (c_no_log_realtime c));
   ("log_images", local_opt PyBool (c_log_images c));
   ("log_buffer", local_opt PyInt (c_log_buffer c));
   ("log_shared", local_opt PyInt (c_log_shared c));
   ("no_score", local_opt PyBool (c_no_score c));
   ("no_score_display", local_opt PyBool (c_no_score_display c));
   ("log_format", local_opt PyStr (c_log_format c));
   ("log_level_transcript", PyStr (c_log_level_transcript c));
   ("common", PyDict (c_common c))].

(** [dict(locals())] at the start of [eval_set_command]. *)
Definition eval_set_command_locals (c : command_args) : pydict :=
  [("ctx", c_ctx c);
   ("tasks", local_opt of_strs (c_tasks c));
   ("retry_attempts", local_opt PyInt (c_retry_attempts c));
   ("retry_wait", local_opt PyInt (c_retry_wait c));
   ("retry_connections", local_opt PyFloat (c_retry_connections c));
   ("no_retry_cleanup", local_opt PyBool (c_no_retry_cleanup c));
   ("solver", local_opt PyStr (c_solver c));
   ("trace", local_opt PyBool (c_trace c));
   ("approval", local_opt PyStr (c_approval c));
   ("model", local_opt PyStr (c_model c));
   ("model_base_url", local_opt PyStr (c_model_base_url c));
   ("m", local_opt of_strs (c_m c));
   ("model_config", local_opt PyStr (c_model_config c));
   ("model_role", local_opt of_strs (c_model_role c));
   ("t", local_opt of_strs (c_t c));
   ("task_config", local_opt PyStr (c_task_config c));
   ("s", local_opt of_strs (c_s c));
   ("solver_config", local_opt PyStr (c_solver_config c));
   ("tags", local_opt PyStr (c_tags c));
   ("metadata", local_opt of_strs (c_metadata c));
   ("sandbox", local_opt PyStr (c_sandbox c));
   ("no_sandbox_cleanup", local_opt PyBool (c_no_sandbox_cleanup c));
   ("epochs", local_opt PyInt (c_epochs c));
   ("epochs_reducer", local_opt PyStr (c_epochs_reducer c));
   ("limit", local_opt PyStr (c_limit c));
   ("sample_id", local_opt PyStr (c_sample_id c));
   ("max_retries", local_opt PyInt (c_max_retries c));
   ("timeout", local_opt PyInt (c_timeout c));
   ("max_connections", local_opt PyInt (c_max_connections c));
   ("max_tokens", local_opt PyInt (c_max_tokens c));
   ("system_message", local_opt PyStr (c_system_message c));
   ("best_of", local_opt PyInt (c_best_of c));
   ("frequency_penalty", local_opt PyFloat (c_frequency_penalty c));
   ("presence_penalty", local_opt PyFloat (c_presence_penalty c));
   ("logit_bias", local_opt PyStr (c_logit_bias c));
   ("seed", local_opt PyInt (c_seed c));
   ("stop_seqs", local_opt PyStr (c_stop_seqs c));
   ("temperature", local_opt PyFloat (c_temperature c));
   ("top_p", local_opt PyFloat (c_top_p c));
   ("top_k", local_opt PyInt (c_top_k c));
   ("num_choices", local_opt PyInt (c_num_choices c));
   ("logprobs", local_opt PyBool (c_logprobs c));
   ("top_logprobs", local_opt PyInt (c_top_logprobs c));
   ("parallel_tool_calls", local_opt PyBool (c_parallel_tool_calls c));
   ("internal_tools", local_opt PyBool (c_internal_tools c));
   ("max_tool_output", local_opt PyInt (c_max_tool_output c));
   ("cache_prompt", local_opt PyStr (c_cache_prompt c));
   ("reasoning_effort", local_opt PyStr (c_reasoning_effort c));
   ("reasoning_tokens", local_opt PyInt (c_reasoning_tokens c));
   ("reasoning_summary", local_opt PyStr (c_reasoning_summary c));
   ("reasoning_history", local_opt PyStr (c_reasoning_history c));
   ("response_schema", local_opt PyStr (c_response_schema c));
   ("batch", local_opt of_batch (c_batch c));
   ("message_limit", local_opt PyInt (c_message_limit c));
   ("token_limit", local_opt PyInt (c_token_limit c));
   ("time_limit", local_opt PyInt (c_time_limit c));
   ("working_limit", local_opt PyInt (c_working_limit c));
   ("max_samples", local_opt PyInt (c_max_samples c));
   ("max_tasks", local_opt PyInt (c_max_tasks c));
   ("max_subprocesses", local_opt PyInt (c_max_subprocesses c));
   ("max_sandboxes", local_opt PyInt (c_max_sandboxes c));
   ("fail_on_error", local_opt of_threshold (c_fail_on_error c));
   ("no_fail_on_error", local_opt PyBool (c_no_fail_on_error c));
   ("retry_on_error", local_opt PyInt (c_retry_on_error c));
   ("no_log_samples", local_opt PyBool (c_no_log_samples c));
   ("no_log_realtime", local_opt PyBool (c_no_log_realtime c));
   ("log_images", local_opt PyBool (c_log_images c));
   ("log_buffer", local_opt PyInt (c_log_buffer c));
   ("log_shared", local_opt PyInt (c_log_shared c));
   ("no_score", local_opt PyBool (c_no_score c));
   ("no_score_display", local_opt PyBool (c_no_score_display c));
   ("bundle_dir", local_opt PyStr (c_bundle_dir c));
   ("bundle_overwrite", local_opt PyBool (c_bundle_overwrite c));
   ("log_format", local_opt PyStr (c_log_format c));
   ("log_level_transcript", PyStr (c_log_level_transcript c));
   ("common", PyDict (c_common c))].

(** The keyword arguments [eval_command] names in its call of [eval_exec]. *)
Definition EVAL_KEYWORDS : list string :=
  ["tasks"; "solver"; "log_level"; "log_level_transcript"; "log_dir";
   "log_format"; "model"; "model_base_url"; "m"; "model_config";
   "model_role"; "t"; "task_config"; "s"; "solver_config"; "tags";
   "metadata"; "trace"; "approval"; "sandbox"; "no_sandbox_cleanup";
   "epochs"; "epochs_reducer"; "limit"; "sample_id"; "message_limit";
   "token_limit"; "time_limit"; "working_limit"; "max_samples";
   "max_tasks"; "max_subprocesses"; "max_sandboxes"; "fail_on_error";
   "no_fail_on_error"; "retry_on_error"; "debug_errors";
   "no_log_samples"; "no_log_realtime"; "log_images"; "log_buffer";
   "log_shared"; "no_score"; "no_score_display"; "is_eval_set"].

(** The keyword arguments [eval_set_command] names in its call of [eval_exec]. *)
Definition EVAL_SET_KEYWORDS : list string :=
  ["tasks"; "solver"; "log_level"; "log_level_transcript"; "log_dir";
   "log_format"; "model"; "model_base_url"; "m"; "model_config";
   "model_role"; "t"; "task_config"; "s"; "solver_config"; "tags";
   "metadata"; "trace"; "approval"; "sandbox"; "no_sandbox_cleanup";
   "epochs"; "epochs_reducer"; "limit"; "sample_id"; "message_limit";
   "token_limit"; "time_limit"; "working_limit"; "max_samples";
   "max_tasks"; "max_subprocesses"; "max_sandboxes"; "fail_on_error";
   "no_fail_on_error"; "retry_on_error"; "debug_errors";
   "no_log_samples"; "no_log_realtime"; "log_images"; "log_buffer";
   "log_shared"; "no_score"; "no_score_display"; "is_eval_set";
   "retry_attempts"; "retry_wait"; "retry_connections"; "retry_cleanup";
   "bundle_dir"; "bundle_overwrite"].

(** What the call [f(name=..., **config)] raises when [config] has one
    of the names that the call gives itself. *)
Definition keywords_once (f : string) (names : list string)
           (config : list (string * config_value)) : result unit :=
  match filter (fun key => str_in key names) (dict_keys config) with
  | key :: _ =>
      Raise (TypeError (f ++ "() got multiple values for keyword argument '"
                          ++ key ++ "'"))
  | [] => Ok tt
  end.

Declare Scope result_scope.
Delimit Scope result_scope with result.
Notation "x <~ r ;; k" := (result_bind r (fun x => k))
  (at level 61, r at next level, right associativity) : result_scope.

Section Commands.

(** The functions [eval_exec] and [eval_retry_command] call, defined
    outside this module.  Each returns a Python value or raises;
    [eval], [eval_set] and [eval_retry] take the dictionary of their
    keyword arguments. *)
Variable parse_cli_config :
  option (list string) -> option string -> result pyval.
Variable parse_cli_args : option (list string) -> bool -> result pydict.
Variable create_reducers : option (list string) -> result pyval.
Variable Epochs : Z -> pyval -> result pyval.
Variable parse_samples_limit : option string -> result pyval.
Variable parse_sample_id : option string -> result pyval.
Variable SolverSpec : string -> pyval -> result pyval.
Variable parse_sandbox : option string -> result pyval.
Variable eval : list (string * config_value) -> result pyval.
Variable eval_set : list (string * config_value) -> result (bool * pyval).
Variable process_common_options : pydict -> result unit.
(** [log_file_info(filesystem(log_file).info(log_file))] *)
Variable log_file_info : string -> result pyval.
Variable eval_retry :
  list pyval -> list (string * config_value) -> result pyval.

(** The names of the generation options, [int] on a string,
    [ResponseSchema.model_validate_json] and
    [BatchConfig.model_validate(resolve_args(value))], as for
    [config_from_locals]; [ctx_exit] is [ctx.exit]. *)
Variable config_keys : list string.
Variable int : string -> result Z.
Variable model_validate_json : pyval -> result pyval.
Variable batch_config : string -> result pyval.
Variable ctx_exit : pyval -> Z -> result unit.

Local Open Scope result_scope.

(** [eval_exec] up to the call of [eval] or [eval_set]: the dictionary
    [params] as it is when the call is made. *)
Definition eval_exec_params (a : eval_exec_args)
           (kwargs : list (string * config_value))
  : result (list (string * config_value)) :=
  task_args <~ parse_cli_config (t a) (task_config a) ;;
  solver_args <~ parse_cli_config (s a) (solver_config a) ;;
  model_args <~ parse_cli_config (m a) (model_config a) ;;
  eval_model_roles <~ parse_cli_args (model_role a) true ;;
  let eval_tags := parse_comma_separated (tags a) in
  eval_metadata <~ parse_cli_args (metadata a) false ;;
  eval_epochs <~
    (if number_set (epochs a) then
       match epochs a with
       | Some n =>
           reducers <~ create_reducers
                         (parse_comma_separated (epochs_reducer a)) ;;
           Epochs n reducers
       | None => Ok PyNone
       end
     else Ok PyNone) ;;
  eval_limit <~ parse_samples_limit (limit a) ;;
  eval_sample_id <~ parse_sample_id (sample_id a) ;;
  let fail_on_error :=
    resolve_fail_on_error (fail_on_error a) (no_fail_on_error a) in
  let retry_on_error := resolve_retry_on_error (retry_on_error a) in
  let sandbox_cleanup := off_if (flag_set (no_sandbox_cleanup a)) in
  let log_samples := off_if (flag_set (no_log_samples a)) in
  let log_realtime := off_if (flag_set (no_log_realtime a)) in
  let log_images :=
    match log_images a with
    | Some false => of_bool false
    | _ => Plain PyNone
    end in
  let trace := if flag_set (trace a) then of_bool true else Plain PyNone in
  let score := if flag_set (no_score a) then of_bool false
               else of_bool true in
  let score_display := off_if (flag_set (no_score_display a)) in
  solver_spec <~
    (match solver a with
     | Some (String c rest) => SolverSpec (String c rest) solver_args
     | _ => Ok PyNone
     end) ;;
  sandbox_spec <~ parse_sandbox (sandbox a) ;;
  let params :=
    dict_or
      [("tasks", match tasks a with
                 | Some (task :: rest) => Plain (of_strs (task :: rest))
                 | _ => Plain PyNone
                 end);
       ("model", of_opt PyStr (model a));
       ("model_base_url", of_opt PyStr (model_base_url a));
       ("model_args", Plain model_args);
       ("model_roles", Plain (PyDict eval_model_roles));
       ("task_args", Plain task_args);
       ("solver", Plain solver_spec);
       ("tags", of_opt of_strs eval_tags);
       ("metadata", Plain (PyDict eval_metadata));
       ("trace", trace);
       ("approval", of_opt PyStr (approval a));
       ("sandbox", Plain sandbox_spec);
       ("sandbox_cleanup", sandbox_cleanup);
       ("log_level", of_str (log_level a));
       ("log_level_transcript", of_str (log_level_transcript a));
       ("log_dir", of_str (log_dir a));
       ("log_format", of_opt PyStr (log_format a));
       ("limit", Plain eval_limit);
       ("sample_id", Plain eval_sample_id);
       ("epochs", Plain eval_epochs);
       ("fail_on_error", fail_on_error);
       ("retry_on_error", retry_on_error);
       ("debug_errors", of_opt PyBool (debug_errors a));
       ("message_limit", of_opt PyInt (message_limit a));
       ("token_limit", of_opt PyInt (token_limit a));
       ("time_limit", of_opt PyInt (time_limit a));
       ("working_limit", of_opt PyInt (working_limit a));
       ("max_samples", of_opt PyInt (max_samples a));
       ("max_tasks", of_opt PyInt (max_tasks a));
       ("max_subprocesses", of_opt PyInt (max_subprocesses a));
       ("max_sandboxes", of_opt PyInt (max_sandboxes a));
       ("log_samples", log_samples);
       ("log_realtime", log_realtime);
       ("log_images", log_images);
       ("log_buffer", of_opt PyInt (log_buffer a));
       ("log_shared", of_opt PyInt (log_shared a));
       ("score", score);
       ("score_display", score_display)]
      kwargs in
  if is_eval_set a then
    Ok (dict_set "bundle_overwrite" (of_bool (bundle_overwrite a))
       (dict_set "bundle_dir" (of_opt PyStr (bundle_dir a))
       (dict_set "retry_cleanup" (of_opt PyBool (retry_cleanup a))
       (dict_set "retry_connections" (of_opt PyFloat (retry_connections a))
       (dict_set "retry_wait" (of_opt PyInt (retry_wait a))
       (dict_set "retry_attempts" (of_opt PyInt (retry_attempts a))
                 params))))))
  else
    Ok (dict_set "log_header_only" (of_bool true) params).

(** [eval_exec] *)
Definition eval_exec (a : eval_exec_args)
           (kwargs : list (string * config_value)) : result bool :=
  params <~ eval_exec_params a kwargs ;;
  if is_eval_set a then
    outcome <~ eval_set params ;;
    Ok (fst outcome)
  else
    _ <~ eval params ;;
    Ok true.

(** [eval_retry_command] up to the call of [eval_retry]: the log files
    and the dictionary of the keyword arguments of the call. *)
Definition eval_retry_params (a : eval_retry_args)
  : result (list pyval * list (string * config_value)) :=
  _ <~ process_common_options (r_common a) ;;
  let sandbox_cleanup := off_if (flag_set (r_no_sandbox_cleanup a)) in
  let log_samples := off_if (flag_set (r_no_log_samples a)) in
  let log_realtime := off_if (flag_set (r_no_log_realtime a)) in
  let log_images :=
    match r_log_images a with
    | Some false => of_bool false
    | _ => Plain PyNone
    end in
  let score := if flag_set (r_no_score a) then of_bool false
               else of_bool true in
  let score_display := off_if (flag_set (r_no_score_display a)) in
  let fail_on_error :=
    resolve_fail_on_error (r_fail_on_error a) (r_no_fail_on_error a) in
  let retry_on_error := resolve_retry_on_error (r_retry_on_error a) in
  retry_log_files <~ comprehension log_file_info (r_log_files a) ;;
  log_level <~ common_str (r_common a) "log_level" ;;
  log_dir <~ common_str (r_common a) "log_dir" ;;
  debug_errors <~ common_flag (r_common a) "debug_errors" ;;
  Ok (retry_log_files,
      [("log_level", of_str log_level);
       ("log_level_transcript", of_str (r_log_level_transcript a));
       ("log_dir", of_str log_dir);
       ("max_samples", of_opt PyInt (r_max_samples a));
       ("max_tasks", of_opt PyInt (r_max_tasks a));
       ("max_subprocesses", of_opt PyInt (r_max_subprocesses a));
       ("max_sandboxes", of_opt PyInt (r_max_sandboxes a));
       ("sandbox_cleanup", sandbox_cleanup);
       ("trace", of_opt PyBool (r_trace a));
       ("fail_on_error", fail_on_error);
       ("retry_on_error", retry_on_error);
       ("debug_errors", of_opt PyBool debug_errors);
       ("log_samples", log_samples);
       ("log_realtime", log_realtime);
       ("log_images", log_images);
       ("log_buffer", of_opt PyInt (r_log_buffer a));
       ("log_shared", of_opt PyInt (r_log_shared a));
       ("score", score);
       ("score_display", score_display);
       ("max_retries", of_opt PyInt (r_max_retries a));
       ("timeout", of_opt PyInt (r_timeout a));
       ("max_connections", of_opt PyInt (r_max_connections a))]).

(** [eval_retry_command] *)
Definition eval_retry_command (a : eval_retry_args) : result unit :=
  call <~ eval_retry_params a ;;
  _ <~ eval_retry (fst call) (snd call) ;;
  Ok tt.

(** [config_from_locals] with the functions of this section. *)
Definition config_of (locals : pydict)
  : result (list (string * config_value)) :=
  config_from_locals config_keys
                     (fun args => parse_cli_args (Some args) false)
                     int model_validate_json batch_config locals.

(** [eval_command] up to the call of [eval_exec]: the arguments and the
    generation options of the call.  ([eval_exec] takes the generation
    options under the names that are not names of its parameters; a
    generation option with the name of a parameter that the command
    leaves to its default is not modelled.) *)
Definition eval_command_call (c : command_args)
  : result (eval_exec_args * list (string * config_value)) :=
  config <~ config_of (eval_command_locals c) ;;
  _ <~ process_common_options (c_common c) ;;
  log_level <~ common_str (c_common c) "log_level" ;;
  log_dir <~ common_str (c_common c) "log_dir" ;;
  debug_errors <~ common_flag (c_common c) "debug_errors" ;;
  _ <~ keywords_once "inspect_ai._cli.eval.eval_exec" EVAL_KEYWORDS config ;;
  if existsb (fun key => str_in key EVAL_SET_KEYWORDS) (dict_keys config)
  then Unmodelled
  else Ok (
  {| tasks := c_tasks c;
     solver := c_solver c;
     log_level := log_level;
     log_level_transcript := c_log_level_transcript c;
     log_dir := log_dir;
     log_format := c_log_format c;
     model := c_model c;
     model_base_url := c_model_base_url c;
     m := c_m c;
     model_config := c_model_config c;
     model_role := c_model_role c;
     t := c_t c;
     task_config := c_task_config c;
     s := c_s c;
     solver_config := c_solver_config c;
     tags := c_tags c;
     metadata := c_metadata c;
     trace := c_trace c;
     approval := c_approval c;
     sandbox := c_sandbox c;
     no_sandbox_cleanup := c_no_sandbox_cleanup c;
     epochs := c_epochs c;
     epochs_reducer := c_epochs_reducer c;
     limit := c_limit c;
     sample_id := c_sample_id c;
     message_limit := c_message_limit c;
     token_limit := c_token_limit c;
     time_limit := c_time_limit c;
     working_limit := c_working_limit c;
     max_samples := c_max_samples c;
     max_tasks := c_max_tasks c;
     max_subprocesses := c_max_subprocesses c;
     max_sandboxes := c_max_sandboxes c;
     fail_on_error := c_fail_on_error c;
     no_fail_on_error := c_no_fail_on_error c;
     retry_on_error := c_retry_on_error c;
     debug_errors := debug_errors;
     no_log_samples := c_no_log_samples c;
     no_log_realtime := c_no_log_realtime c;
     log_images := c_log_images c;
     log_buffer := c_log_buffer c;
     log_shared := c_log_shared c;
     no_score := c_no_score c;
     no_score_display := c_no_score_display c;
     is_eval_set := false;
     retry_attempts := None;
     retry_wait := None;
     retry_connections := None;
     retry_cleanup := None;
     bundle_dir := None;
     bundle_overwrite := false |},
  config).

(** [eval_command] *)
Definition eval_command (c : command_args) : result unit :=
  call <~ eval_command_call c ;;
  _ <~ eval_exec (fst call) (snd call) ;;
  Ok tt.

(** [eval_set_command] up to the call of [eval_exec]. *)
Definition eval_set_command_call (c : command_args)
  : result (eval_exec_args * list (string * config_value)) :=
  config <~ config_of (eval_set_command_locals c) ;;
  _ <~ process_common_options (c_common c) ;;
  log_level <~ common_str (c_common c) "log_level" ;;
  log_dir <~ common_str (c_common c) "log_dir" ;;
  debug_errors <~ common_flag (c_common c) "debug_errors" ;;
  _ <~ keywords_once "inspect_ai._cli.eval.eval_exec" EVAL_SET_KEYWORDS
                     config ;;
  Ok (
  {| tasks := c_tasks c;
     solver := c_solver c;
     log_level := log_level;
     log_level_transcript := c_log_level_transcript c;
     log_dir := log_dir;
     log_format := c_log_format c;
     model := c_model c;
     model_base_url := c_model_base_url c;
     m := c_m c;
     model_config := c_model_config c;
     model_role := c_model_role c;
     t := c_t c;
     task_config := c_task_config c;
     s := c_s c;
     solver_config := c_solver_config c;
     tags := c_tags c;
     metadata := c_metadata c;
     trace := c_trace c;
     approval := c_approval c;
     sandbox := c_sandbox c;
     no_sandbox_cleanup := c_no_sandbox_cleanup c;
     epochs := c_epochs c;
     epochs_reducer := c_epochs_reducer c;
     limit := c_limit c;
     sample_id := c_sample_id c;
     message_limit := c_message_limit c;
     token_limit := c_token_limit c;
     time_limit := c_time_limit c;
     working_limit := c_working_limit c;
     max_samples := c_max_samples c;
     max_tasks := c_max_tasks c;
     max_subprocesses := c_max_subprocesses c;
     max_sandboxes := c_max_sandboxes c;
     fail_on_error := c_fail_on_error c;
     no_fail_on_error := c_no_fail_on_error c;
     retry_on_error := c_retry_on_error c;
     debug_errors := debug_errors;
     no_log_samples := c_no_log_samples c;
     no_log_realtime := c_no_log_realtime c;
     log_images := c_log_images c;
     log_buffer := c_log_buffer c;
     log_shared := c_log_shared c;
     no_score := c_no_score c;
     no_score_display := c_no_score_display c;
     is_eval_set := true;
     retry_attempts := c_retry_attempts c;
     retry_wait := c_retry_wait c;
     retry_connections := c_retry_connections c;
     retry_cleanup := Some (negb (flag_set (c_no_retry_cleanup c)));
     bundle_dir := c_bundle_dir c;
     bundle_overwrite := flag_set (c_bundle_overwrite c) |},
  config).

(** [eval_set_command] *)
Definition eval_set_command (c : command_args) : result unit :=
  call <~ eval_set_command_call c ;;
  success <~ eval_exec (fst call) (snd call) ;;
  ctx_exit (c_ctx c) (if success then 0 else 1).

End Commands.

End Cli.

Module CliNames.

(** The options [eval_exec] and [eval_retry_command] resolve before they
    pass them on. *)
Definition RESOLVED_KEYS : list string :=
  ["sandbox_cleanup"; "fail_on_error"; "retry_on_error"; "log_samples";
   "log_realtime"; "log_images"; "score"; "score_display"].

(** The switches [eval_exec] passes on as [False] or [None]. *)
Definition OFF_KEYS : list string :=
  ["sandbox_cleanup"; "log_samples"; "log_realtime"; "log_images";
   "score_display"].

(** The entries [eval_exec] sets after it has merged the generation
    options into [params]. *)
Definition EVAL_SET_KEYS : list string :=
  ["retry_attempts"; "retry_wait"; "retry_connections"; "retry_cleanup";
   "bundle_dir"; "bundle_overwrite"].

Definition LATE_KEYS : list string :=
  ("log_header_only" :: EVAL_SET_KEYS)%list.

(** [a] with another value for [epochs_reducer]. *)
Definition with_epochs_reducer (reducer : option string)
           (a : Cli.eval_exec_args) : Cli.eval_exec_args :=
  {| Cli.tasks := Cli.tasks a;
     Cli.solver := Cli.solver a;
     Cli.log_level := Cli.log_level a;
     Cli.log_level_transcript := Cli.log_level_transcript a;
     Cli.log_dir := Cli.log_dir a;
     Cli.log_format := Cli.log_format a;
     Cli.model := Cli.model a;
     Cli.model_base_url := Cli.model_base_url a;
     Cli.m := Cli.m a;
     Cli.model_config := Cli.model_config a;
     Cli.model_role := Cli.model_role a;
     Cli.t := Cli.t a;
     Cli.task_config := Cli.task_config a;
     Cli.s := Cli.s a;
     Cli.solver_config := Cli.solver_config a;
     Cli.tags := Cli.tags a;
     Cli.metadata := Cli.metadata a;
     Cli.trace := Cli.trace a;
     Cli.approval := Cli.approval a;
     Cli.sandbox := Cli.sandbox a;
     Cli.no_sandbox_cleanup := Cli.no_sandbox_cleanup a;
     Cli.epochs := Cli.epochs a;
     Cli.epochs_reducer := reducer;
     Cli.limit := Cli.limit a;
     Cli.sample_id := Cli.sample_id a;
     Cli.message_limit := Cli.message_limit a;
     Cli.token_limit := Cli.token_limit a;
     Cli.time_limit := Cli.time_limit a;
     Cli.working_limit := Cli.working_limit a;
     Cli.max_samples := Cli.max_samples a;
     Cli.max_tasks := Cli.max_tasks a;
     Cli.max_subprocesses := Cli.max_subprocesses a;
     Cli.max_sandboxes := Cli.max_sandboxes a;
     Cli.fail_on_error := Cli.fail_on_error a;
     Cli.no_fail_on_error := Cli.no_fail_on_error a;
     Cli.retry_on_error := Cli.retry_on_error a;
     Cli.debug_errors := Cli.debug_errors a;
     Cli.no_log_samples := Cli.no_log_samples a;
     Cli.no_log_realtime := Cli.no_log_realtime a;
     Cli.log_images := Cli.log_images a;
     Cli.log_buffer := Cli.log_buffer a;
     Cli.log_shared := Cli.log_shared a;
     Cli.no_score := Cli.no_score a;
     Cli.no_score_display := Cli.no_score_display a;
     Cli.is_eval_set := Cli.is_eval_set a;
     Cli.retry_attempts := Cli.retry_attempts a;
     Cli.retry_wait := Cli.retry_wait a;
     Cli.retry_connections := Cli.retry_connections a;
     Cli.retry_cleanup := Cli.retry_cleanup a;
     Cli.bundle_dir := Cli.bundle_dir a;
     Cli.bundle_overwrite := Cli.bundle_overwrite a |}.

End CliNames.

(** Sample surroundings for the commands: parsers that keep what they
    are given, reducers known by four names, and evaluations that
    succeed at once. *)
Module SampleCommands.

Definition parse_cli_args (args : option (list string)) (force_str : bool)
  : result pydict :=
  match args with
  | Some l => SampleCli.parse_cli_args l
  | None => Ok []
  end.

Definition parse_cli_config (args : option (list string))
           (config : option string) : result pyval :=
  result_map PyDict (parse_cli_args args false).

Definition create_reducers (names : option (list string)) : result pyval :=
  match names with
  | Some l =>
      if forallb (fun name => str_in name ["mean"; "median"; "mode"; "max"])
                 l
      then Ok (PyList (map PyStr l))
      else Raise (ValueError "unknown reducer")
  | None => Ok PyNone
  end.

Definition Epochs (n : Z) (reducers : pyval) : result pyval :=
  Ok (PyObj "Epochs" (str_of_Z n)).

Definition parse_samples_limit (limit : option string) : result pyval :=
  Ok (match limit with Some l => PyStr l | None => PyNone end).

Definition parse_sample_id (sample_id : option string) : result pyval :=
  Ok (match sample_id with Some i => PyStr i | None => PyNone end).

Definition SolverSpec (solver : string) (args : pyval) : result pyval :=
  Ok (PyObj "SolverSpec" solver).

Definition parse_sandbox (sandbox : option string) : result pyval :=
  Ok (match sandbox with
      | Some x => PyObj "SandboxEnvironmentSpec" x
      | None => PyNone
      end).

Definition eval (params : list (string * config_value)) : result pyval :=
  Ok (PyList []).

Definition eval_set (params : list (string * config_value))
  : result (bool * pyval) :=
  Ok (true, PyList []).

Definition process_common_options (common : pydict) : result unit :=
  Ok tt.

Definition ctx_exit (ctx : pyval) (code : Z) : result unit :=
  Raise (mkexn Exception "Exit" (str_of_Z code)).

Definition common : pydict :=
  [("log_level", PyStr "warning"); ("log_dir", PyStr "./logs");
   ("display", PyNone); ("debug_errors", PyBool false)].

Definition log_file_info (log_file : string) : result pyval :=
  Ok (PyObj "EvalLogInfo" log_file).

Definition eval_exec_params :=
  Cli.eval_exec_params parse_cli_config parse_cli_args create_reducers
                       Epochs parse_samples_limit parse_sample_id
                       SolverSpec parse_sandbox.

Definition eval_retry_params :=
  Cli.eval_retry_params process_common_options log_file_info.

(** [inspect eval arc.py --model openai/gpt-4o --no-fail-on-error
    --fail-on-error 0.5 --no-log-samples --epochs-reducer mean] *)
Definition args : Cli.eval_exec_args :=
  {| Cli.tasks := Some ["arc.py"];
     Cli.solver := None;
     Cli.log_level := "warning";
     Cli.log_level_transcript := "info";
     Cli.log_dir := "./logs";
     Cli.log_format := None;
     Cli.model := Some "openai/gpt-4o";
     Cli.model_base_url := None;
     Cli.m := Some [];
     Cli.model_config := None;
     Cli.model_role := Some [];
     Cli.t := Some [];
     Cli.task_config := None;
     Cli.s := Some [];
     Cli.solver_config := None;
     Cli.tags := None;
     Cli.metadata := Some [];
     Cli.trace := Some false;
     Cli.approval := None;
     Cli.sandbox := None;
     Cli.no_sandbox_cleanup := Some false;
     Cli.epochs := None;
     Cli.epochs_reducer := Some "mean";
     Cli.limit := None;
     Cli.sample_id := None;
     Cli.message_limit := None;
     Cli.token_limit := None;
     Cli.time_limit := None;
     Cli.working_limit := None;
     Cli.max_samples := None;
     Cli.max_tasks := None;
     Cli.max_subprocesses := None;
     Cli.max_sandboxes := None;
     Cli.fail_on_error := Some (inr (mkfloat 5 (-1)));
     Cli.no_fail_on_error := Some true;
     Cli.retry_on_error := Some 0;
     Cli.debug_errors := Some false;
     Cli.no_log_samples := Some true;
     Cli.no_log_realtime := Some false;
     Cli.log_images := Some true;
     Cli.log_buffer := None;
     Cli.log_shared := None;
     Cli.no_score := Some false;
     Cli.no_score_display := Some false;
     Cli.is_eval_set := false;
     Cli.retry_attempts := None;
     Cli.retry_wait := None;
     Cli.retry_connections := None;
     Cli.retry_cleanup := None;
     Cli.bundle_dir := None;
     Cli.bundle_overwrite := false |}.

(** [inspect eval-retry logs/a.eval] with the same options. *)
Definition retry_args : Cli.eval_retry_args :=
  {| Cli.r_log_files := ["logs/a.eval"];
     Cli.r_max_samples := None;
     Cli.r_max_tasks := None;
     Cli.r_max_subprocesses := None;
     Cli.r_max_sandboxes := None;
     Cli.r_no_sandbox_cleanup := Some false;
     Cli.r_trace := Some false;
     Cli.r_fail_on_error := Some (inr (mkfloat 5 (-1)));
     Cli.r_no_fail_on_error := Some true;
     Cli.r_retry_on_error := Some 0;
     Cli.r_no_log_samples := Some true;
     Cli.r_no_log_realtime := Some false;
     Cli.r_log_images := Some true;
     Cli.r_log_buffer := None;
     Cli.r_log_shared := None;
     Cli.r_no_score := Some false;
     Cli.r_no_score_display := Some false;
     Cli.r_max_connections := None;
     Cli.r_max_retries := None;
     Cli.r_timeout := None;
     Cli.r_log_level_transcript := "info";
     Cli.r_common := common |}.

(** The generation options of the sample configuration, and what the
    two commands pass on. *)
Definition kwargs : list (string * config_value) := SampleCli.config.

Definition params : list (string * config_value) :=
  match eval_exec_params args kwargs with
  | Ok params => params
  | _ => []
  end.

Definition retry_params : list (string * config_value) :=
  match eval_retry_params retry_args with
  | Ok (_, params) => params
  | _ => []
  end.

(** [inspect eval arc.py --model openai/gpt-4o --max-tokens 100
    --stop-seqs END,STOP --cache-prompt true --reasoning-history last];
    for [eval-set], the same. *)
Definition command : Cli.command_args :=
  {| Cli.c_ctx := PyObj "Context" "eval-set";
     Cli.c_tasks := Some ["arc.py"];
     Cli.c_retry_attempts := None;
     Cli.c_retry_wait := None;
     Cli.c_retry_connections := None;
     Cli.c_no_retry_cleanup := Some false;
     Cli.c_solver := None;
     Cli.c_trace := Some false;
     Cli.c_approval := None;
     Cli.c_model := Some "openai/gpt-4o";
     Cli.c_model_base_url := None;
     Cli.c_m := Some [];
     Cli.c_model_config := None;
     Cli.c_model_role := Some [];
     Cli.c_t := Some [];
     Cli.c_task_config := None;
     Cli.c_s := Some [];
     Cli.c_solver_config := None;
     Cli.c_tags := None;
     Cli.c_metadata := Some [];
     Cli.c_sandbox := None;
     Cli.c_no_sandbox_cleanup := Some false;
     Cli.c_epochs := None;
     Cli.c_epochs_reducer := None;
     Cli.c_limit := None;
     Cli.c_sample_id := None;
     Cli.c_max_retries := None;
     Cli.c_timeout := None;
     Cli.c_max_connections := None;
     Cli.c_max_tokens := Some 100;
     Cli.c_system_message := None;
     Cli.c_best_of := None;
     Cli.c_frequency_penalty := None;
     Cli.c_presence_penalty := None;
     Cli.c_logit_bias := None;
     Cli.c_seed := None;
     Cli.c_stop_seqs := Some "END,STOP";
     Cli.c_temperature := None;
     Cli.c_top_p := None;
     Cli.c_top_k := None;
     Cli.c_num_choices := None;
     Cli.c_logprobs := Some false;
     Cli.c_top_logprobs := None;
     Cli.c_parallel_tool_calls := Some true;
     Cli.c_internal_tools := Some true;
     Cli.c_max_tool_output := None;
     Cli.c_cache_prompt := Some "true";
     Cli.c_reasoning_effort := None;
     Cli.c_reasoning_tokens := None;
     Cli.c_reasoning_summary := None;
     Cli.c_reasoning_history := Some "last";
     Cli.c_response_schema := None;
     Cli.c_batch := None;
     Cli.c_message_limit := None;
     Cli.c_token_limit := None;
     Cli.c_time_limit := None;
     Cli.c_working_limit := None;
     Cli.c_max_samples := None;
     Cli.c_max_tasks := None;
     Cli.c_max_subprocesses := None;
     Cli.c_max_sandboxes := None;
     Cli.c_fail_on_error := None;
     Cli.c_no_fail_on_error := Some false;
     Cli.c_retry_on_error := None;
     Cli.c_no_log_samples := Some false;
     Cli.c_no_log_realtime := Some false;
     Cli.c_log_images := Some true;
     Cli.c_log_buffer := None;
     Cli.c_log_shared := None;
     Cli.c_no_score := Some false;
     Cli.c_no_score_display := Some false;
     Cli.c_bundle_dir := None;
     Cli.c_bundle_overwrite := None;
     Cli.c_log_format := None;
     Cli.c_log_level_transcript := "info";
     Cli.c_common := common |}.

Definition eval_command_call :=
  Cli.eval_command_call parse_cli_args process_common_options
                        SampleCli.config_keys SampleCli.int
                        SampleCli.model_validate_json SampleCli.batch_config.

Definition eval_set_command_call :=
  Cli.eval_set_command_call parse_cli_args process_common_options
                            SampleCli.config_keys SampleCli.int
                            SampleCli.model_validate_json
                            SampleCli.batch_config.

Definition eval_command :=
  Cli.eval_command parse_cli_config parse_cli_args create_reducers Epochs
                   parse_samples_limit parse_sample_id SolverSpec
                   parse_sandbox eval eval_set process_common_options
                   SampleCli.config_keys SampleCli.int
                   SampleCli.model_validate_json SampleCli.batch_config.

Definition eval_set_command :=
  Cli.eval_set_command parse_cli_config parse_cli_args create_reducers
                       Epochs parse_samples_limit parse_sample_id
                       SolverSpec parse_sandbox eval eval_set
                       process_common_options SampleCli.config_keys
                       SampleCli.int SampleCli.model_validate_json
                       SampleCli.batch_config ctx_exit.

End SampleCommands.

(** No string occurs twice in [l]. *)
Fixpoint distinct (l : list string) : bool :=
  match l with
  | [] => true
  | x :: rest => negb (str_in x rest) && distinct rest
  end.

(** The names [Logger.makeRecord] refuses as keys of [extra]: those of
    the standard attributes of a record ([taskName] since Python 3.12),
    [message] and [asctime]. *)
Definition RESERVED_KEYS : list string :=
  ("message" :: "taskName" :: EXCLUDED_KEYS)%list.

(* ================================================================= *)
(** * Properties of the action scope *)

Section ScopeFacts.

Variable uuid_src : nat -> string.
Variable monotonic_src : nat -> pyfloat.
Variable time_src : nat -> pyfloat.
Variable format_exc : exn -> string.
Variable TRACE : Z.

Local Abbreviation scope :=
  (trace_action uuid_src monotonic_src time_src format_exc TRACE).

Local Abbreviation elapsed := (elapsed monotonic_src).

Lemma scope_not_rendered action message args kwargs body w :
  (forall fm, render message args kwargs <> Ok fm) ->
  scope action message args kwargs body w
  = (result_bind (render message args kwargs) (fun _ => Ok tt),
     drawn w []).
Proof.
  intros H. unfold trace_action, bind, uuid, time_monotonic, time_time,
    lift, drawn. simpl.
  destruct (render message args kwargs) as [fm| e |]; simpl.
  - exfalso. apply (H fm). reflexivity.
  - rewrite app_nil_r. reflexivity.
  - rewrite app_nil_r. reflexivity.
Qed.

Lemma scope_rendered action message args kwargs body w fm :
  render message args kwargs = Ok fm ->
  scope action message args kwargs body w
  = let id := uuid_src (uuid_n w) in
    let w1 := drawn w [enter_call TRACE action fm id (time_src (time_n w))] in
    match body w1 with
    | (Ok _, w2) =>
        (Ok tt, closed w2 (exit_call TRACE action fm id (elapsed w w2)))
    | (Raise ex, w2) =>
        if isinstance ex [KeyboardInterrupt; CancelledError] then
          (Raise ex, closed w2 (cancel_call TRACE action fm id (elapsed w w2)))
        else if isinstance ex [Exception] then
          (Raise ex,
           closed w2 (error_call TRACE action fm id (elapsed w w2)
                                 (exc_str ex) (exc_type_name ex)
                                 (format_exc ex)))
        else (Raise ex, w2)
    | (Unmodelled, w2) => (Unmodelled, w2)
    end.
Proof.
  intros H. unfold trace_action, bind, try_except, uuid, time_monotonic,
    time_time, lift, Logger_log, raise. simpl. rewrite H. simpl.
  unfold drawn, enter_call, scope_message. simpl.
  match goal with |- context [body ?w1] => destruct (body w1) as [[[]|ex|] w2] end;
    simpl; try reflexivity.
  unfold isinstance. simpl. destruct (exc_class ex); reflexivity.
Qed.

End ScopeFacts.

(** *** Events per trace id *)

Lemma fsub_nonneg a b : fleb a b = true -> fnonneg (fsub b a) = true.
Proof.
  unfold fleb, fnonneg, fsub. simpl. rewrite (Z.min_comm (exponent10 b)).
  rewrite !Z.leb_le. lia.
Qed.





Lemma ids_within_weaken uuid_src lo hi lo' hi' l :
  (lo' <= lo)%nat -> (hi <= hi')%nat ->
  ids_within uuid_src lo hi l -> ids_within uuid_src lo' hi' l.
Proof.
  intros Hlo Hhi H c id Hin Hid.
  destruct (H c id Hin Hid) as [k [Hk ->]]. exists k. split; [lia|reflexivity].
Qed.




Section Runs.

Variable uuid_src : nat -> string.
Variable monotonic_src : nat -> pyfloat.
Variable time_src : nat -> pyfloat.
Variable format_exc : exn -> string.
Variable TRACE : Z.

Local Abbreviation scope :=
  (trace_action uuid_src monotonic_src time_src format_exc TRACE).
Local Abbreviation exec := (exec uuid_src monotonic_src time_src format_exc TRACE).
Local Abbreviation exec_block :=
  (exec_block uuid_src monotonic_src time_src format_exc TRACE).
Local Abbreviation elapsed := (elapsed monotonic_src).
Local Abbreviation emits := (emits uuid_src).


(** The scope hands on the outcome of its body and appends what
    [terminal_calls] says. *)
Lemma scope_run action message args kwargs body w fm r w2 :
  render message args kwargs = Ok fm ->
  body (drawn w [enter_call TRACE action fm (uuid_src (uuid_n w))
                            (time_src (time_n w))]) = (r, w2) ->
  let tail := terminal_calls format_exc TRACE action fm
                             (uuid_src (uuid_n w)) (elapsed w w2) r in
  scope action message args kwargs body w
  = (r, mkworld (uuid_n w2) (length tail + monotonic_n w2) (time_n w2)
                (sink w2 ++ tail)%list).
Proof.
  intros H Hbody tail. subst tail.
  rewrite (scope_rendered _ _ _ _ _ _ _ _ _ _ _ _ H). cbv zeta.
  rewrite Hbody. destruct w2 as [u m t s0].
  destruct r as [[]|ex|]; unfold terminal_calls.
  - reflexivity.
  - destruct (isinstance ex [KeyboardInterrupt; CancelledError]);
      [reflexivity|].
    destruct (isinstance ex [Exception]); simpl;
      [reflexivity | rewrite app_nil_r; reflexivity].
  - simpl. rewrite app_nil_r. reflexivity.
Qed.

(** What a terminal record is. *)
Lemma terminal_calls_shape action fm id d r :
  let tail := terminal_calls format_exc TRACE action fm id d r in
  (tail = [] /\ handled r = false)
  \/ (exists t, tail = [t] /\ handled r = true
                /\ is_terminal t = true /\ is_enter t = false
                /\ call_trace_id t = Some id
                /\ call_duration t = Some d).
Proof.
  destruct r as [[]|ex|]; simpl.
  - right. eexists. repeat split.
  - unfold isinstance. simpl.
    destruct (exc_class ex); simpl;
      solve [left; split; reflexivity | right; eexists; repeat split].
  - left. split; reflexivity.
Qed.



Lemma emits_extends w w' l : emits w w' l -> extends w w'.
Proof.
  intros (S1 & U1 & M1 & T1 & _). unfold extends.
  repeat split; try assumption. exists l. exact S1.
Qed.






End Runs.

Section ScopeClaims.

Variable uuid_src : nat -> string.
Variable monotonic_src : nat -> pyfloat.
Variable time_src : nat -> pyfloat.
Variable format_exc : exn -> string.
Variable TRACE : Z.

Local Abbreviation scope :=
  (trace_action uuid_src monotonic_src time_src format_exc TRACE).
Local Abbreviation elapsed := (elapsed monotonic_src).

(** C8.  When rendering the message template raises, the scope logs
    nothing, not even the [enter] record, and the exception of the
    rendering is what the caller gets; the body is not run. *)
Theorem render_failure_emits_nothing action message args kwargs body w e :
  render message args kwargs = Raise e ->
  scope action message args kwargs body w = (Raise e, drawn w [])
  /\ sink (snd (scope action message args kwargs body w)) = sink w.
Proof.
  intros H.
  rewrite scope_not_rendered by (intros fm E; congruence).
  rewrite H. simpl. split; [reflexivity | apply app_nil_r].
Qed.

(** C10.  A call with positional arguments, whatever keyword arguments
    come with them, logs the template rendered from the positional
    arguments.  When [message % args] raises, the call raises that
    exception and logs nothing, even where the keyword arguments would
    fit the template.  When it gives [fm], the call logs its [enter]
    record with the message [Action: action - fm (enter)], runs the body,
    and logs the terminal record of the outcome; every record it logs
    carries [fm] between the action name and the tag of its event.  The
    keyword arguments are ignored: the call does what the same call
    without keyword arguments does. *)
Theorem positional_arguments_take_precedence
        action message args kwargs body w :
  args <> [] ->
  match py_percent message (ArgsTuple args) with
  | Ok fm =>
      let id := uuid_src (uuid_n w) in
      let enter := enter_call TRACE action fm id (time_src (time_n w)) in
      let r := fst (body (drawn w [enter])) in
      let w2 := snd (body (drawn w [enter])) in
      let tail :=
        terminal_calls format_exc TRACE action fm id (elapsed w w2) r in
      scope action message args kwargs body w
      = (r, mkworld (uuid_n w2) (length tail + monotonic_n w2) (time_n w2)
                    (sink w2 ++ tail)%list)
      /\ lc_msg enter = "Action: " ++ action ++ " - " ++ fm ++ " (enter)"
      /\ Forall (fun c => exists tag,
                     call_event c = Some tag
                     /\ lc_msg c
                        = "Action: " ++ action ++ " - " ++ fm
                                     ++ " (" ++ tag ++ ")")
                (enter :: tail)
  | Raise e =>
      scope action message args kwargs body w = (Raise e, drawn w [])
  | Unmodelled => True
  end
  /\ scope action message args kwargs body w
     = scope action message args [] body w.
Proof.
  intros Hargs.
  assert (Hrender : render message args kwargs
                    = py_percent message (ArgsTuple args)).
  { destruct args as [|a args']; [congruence | reflexivity]. }
  split.
  - destruct (py_percent message (ArgsTuple args)) as [fm|e|] eqn:E;
      [| |exact I].
    + cbv zeta. split; [|split].
      * apply (scope_run uuid_src monotonic_src time_src format_exc TRACE);
          [exact Hrender|].
        apply surjective_pairing.
      * reflexivity.
      * constructor; [exists "enter"; split; reflexivity|].
        match goal with |- context [body ?w1] =>
          destruct (body w1) as [[[]|ex|] w2] end; cbn [fst snd].
        -- repeat constructor. exists "exit". split; reflexivity.
        -- unfold terminal_calls.
           destruct (isinstance ex [KeyboardInterrupt; CancelledError]).
           ++ repeat constructor. exists "cancel". split; reflexivity.
           ++ destruct (isinstance ex [Exception]); repeat constructor.
              exists "error". split; reflexivity.
        -- constructor.
    + rewrite scope_not_rendered by (intros fm E'; congruence).
      rewrite Hrender. cbn [result_bind]. reflexivity.
  - destruct args as [|a args']; [congruence | reflexivity].
Qed.

(** C7.  The template is rendered once, before the [enter] record: from
    the positional arguments when there are some, else from the keyword
    arguments when there are some, else it is taken verbatim.  The
    [enter] record and the terminal record both carry that one rendering
    between the action name and the tag of their event.  For the action
    [build] with template [compiling %s] and argument [mod.x] the
    messages are [Action: build - compiling mod.x (enter)] and, on normal
    completion, [Action: build - compiling mod.x (exit)]. *)
Theorem message_rendered_once action message args kwargs body w fm :
  render message args kwargs = Ok fm ->
  render message args kwargs
  = match args, kwargs with
    | _ :: _, _ => py_percent message (ArgsTuple args)
    | [], _ :: _ => py_percent message (ArgsDict kwargs)
    | [], [] => Ok message
    end
  /\ (let enter :=
        enter_call TRACE action fm (uuid_src (uuid_n w))
                   (time_src (time_n w)) in
      exists tail,
        sink (snd (scope action message args kwargs body w))
        = (sink (snd (body (drawn w [enter]))) ++ tail)%list
        /\ Forall (fun c => exists tag,
                       call_event c = Some tag
                       /\ lc_msg c = scope_message action fm tag)
                  (enter :: tail))
  /\ render "compiling %s" [PyStr "mod.x"] [] = Ok "compiling mod.x"
  /\ map lc_msg
         (sink (snd (scope "build" "compiling %s" [PyStr "mod.x"] []
                           (ret tt) w)))
     = (map lc_msg (sink w)
        ++ ["Action: build - compiling mod.x (enter)";
            "Action: build - compiling mod.x (exit)"])%list.
Proof.
  intros H. split; [|split; [|split]].
  - destruct args, kwargs; reflexivity.
  - cbv zeta. rewrite (scope_rendered _ _ _ _ _ _ _ _ _ _ _ _ H). cbv zeta.
    match goal with |- context [body ?w1] =>
      destruct (body w1) as [[[]|ex|] w2] end; simpl.
    + eexists [_]. split; [reflexivity|].
      repeat constructor; eexists; split; reflexivity.
    + unfold isinstance; simpl. destruct (exc_class ex); simpl.
      all: try (eexists [_]; split; [reflexivity|];
                repeat constructor; eexists; split; reflexivity).
      all: exists []; split; [symmetry; apply app_nil_r|];
        repeat constructor; eexists; split; reflexivity.
    + exists []. split; [symmetry; apply app_nil_r|].
      repeat constructor; eexists; split; reflexivity.
  - reflexivity.
  - rewrite (scope_rendered _ _ _ _ _ "build" "compiling %s"
               [PyStr "mod.x"] [] (ret tt) w "compiling mod.x" eq_refl).
    simpl. rewrite !map_app. simpl. rewrite <- app_assoc. reflexivity.
Qed.


(** C9.  The [duration] of a terminal record is the reading of the
    monotonic clock when the body has finished minus its reading at
    entry; the wall clock plays no part in it; and it is at least zero,
    since the monotonic clock never goes back. *)
Theorem duration_is_monotonic_elapsed
        action message args kwargs body w fm r w2 t :
  never_goes_back monotonic_src ->
  framed body ->
  render message args kwargs = Ok fm ->
  body (drawn w [enter_call TRACE action fm (uuid_src (uuid_n w))
                            (time_src (time_n w))]) = (r, w2) ->
  sink (snd (scope action message args kwargs body w))
  = (sink w2 ++ [t])%list ->
  call_duration t
  = Some (fsub (monotonic_src (monotonic_n w2))
               (monotonic_src (monotonic_n w)))
  /\ fnonneg (fsub (monotonic_src (monotonic_n w2))
                   (monotonic_src (monotonic_n w))) = true
  /\ is_terminal t = true.
Proof.
  intros Hmono Hframed H Hbody Hsink.
  rewrite (scope_run _ _ _ _ _ _ _ _ _ _ _ _ _ _ H Hbody) in Hsink.
  cbn [snd sink] in Hsink. apply app_inv_head in Hsink.
  destruct (terminal_calls_shape format_exc TRACE action fm
              (uuid_src (uuid_n w)) (elapsed w w2) r)
    as [[E _] | [t' (E & _ & Ht & _ & _ & Hd)]];
    rewrite E in Hsink; [discriminate|].
  injection Hsink as ->. repeat split.
  - exact Hd.
  - apply fsub_nonneg, Hmono.
    destruct (Hframed (drawn w [enter_call TRACE action fm
                                           (uuid_src (uuid_n w))
                                           (time_src (time_n w))]))
      as (_ & _ & Hm & _).
    rewrite Hbody in Hm. simpl in Hm. lia.
  - exact Ht.
Qed.

Local Abbreviation exec :=
  (exec uuid_src monotonic_src time_src format_exc TRACE).
Local Abbreviation exec_block :=
  (exec_block uuid_src monotonic_src time_src format_exc TRACE).


End ScopeClaims.

Lemma render_failure_emits_nothing_witness :
  render "%s and %s" [PyStr "one"] []
  = Raise (TypeError "not enough arguments for format string")
  /\ sink (snd (Sample.scope "build" "%s and %s" [PyStr "one"] []
                             (raise Sample.boom) Sample.start)) = [].
Proof.
  split; [reflexivity|].
  apply (render_failure_emits_nothing
           Sample.uuid_src Sample.monotonic_src Sample.time_src
           Sample.format_exc Sample.TRACE
           "build" "%s and %s" [PyStr "one"] [] (raise Sample.boom)
           Sample.start (TypeError "not enough arguments for format string")).
  reflexivity.
Defined.

Lemma positional_arguments_take_precedence_witness :
  map lc_msg
      (sink (snd (Sample.scope "build" "compiling %s" [PyStr "mod.x"]
                               [("name", PyStr "other")] (ret tt)
                               Sample.start)))
  = ["Action: build - compiling mod.x (enter)";
     "Action: build - compiling mod.x (exit)"]
  /\ Sample.scope "build" "compiling %(name)s" [PyStr "mod.x"]
                  [("name", PyStr "other")] (ret tt) Sample.start
     = (Raise (TypeError "format requires a mapping"),
        drawn Sample.start []).
Proof.
  split.
  - pose proof (positional_arguments_take_precedence
                  Sample.uuid_src Sample.monotonic_src Sample.time_src
                  Sample.format_exc Sample.TRACE
                  "build" "compiling %s" [PyStr "mod.x"]
                  [("name", PyStr "other")] (ret tt) Sample.start) as H.
    destruct H as [[H _] _]; [discriminate|].
    unfold Sample.scope. rewrite H. reflexivity.
  - pose proof (positional_arguments_take_precedence
                  Sample.uuid_src Sample.monotonic_src Sample.time_src
                  Sample.format_exc Sample.TRACE
                  "build" "compiling %(name)s" [PyStr "mod.x"]
                  [("name", PyStr "other")] (ret tt) Sample.start) as H.
    destruct H as [H _]; [discriminate|].
    exact H.
Defined.

(** *** The operator [%] on sample operands *)

Example percent_positional :
  py_percent "%s of %s" (ArgsTuple [PyInt 3; PyStr "five"]) = Ok "3 of five".
Proof. reflexivity. Qed.

Example percent_mapping :
  py_percent "%(done)s of %(total)s (100%%)"
             (ArgsDict [("total", PyInt 5); ("done", PyInt 3)])
  = Ok "3 of 5 (100%)".
Proof. reflexivity. Qed.

Example percent_too_few :
  py_percent "%s of %s" (ArgsTuple [PyInt 3])
  = Raise (TypeError "not enough arguments for format string").
Proof. reflexivity. Qed.

Example percent_too_many :
  py_percent "done" (ArgsTuple [PyInt 3])
  = Raise (TypeError
             "not all arguments converted during string formatting").
Proof. reflexivity. Qed.

Example percent_needs_mapping :
  py_percent "%(done)s" (ArgsTuple [PyInt 3])
  = Raise (TypeError "format requires a mapping").
Proof. reflexivity. Qed.

Example percent_missing_key :
  py_percent "%(done)s" (ArgsDict [("total", PyInt 5)])
  = Raise (KeyError "done")
  /\ exc_str (KeyError "done") = "'done'".
Proof. split; reflexivity. Qed.

(** The message of a [KeyError] is the [repr] of the key: in double
    quotes when the key holds a single quote, with escapes for a
    backslash and for a line feed. *)
Example percent_missing_key_repr :
  py_percent "%(it's)s" (ArgsDict [("total", PyInt 5)])
  = Raise (mkexn Exception "KeyError"
                 (String dquote ("it's" ++ String dquote "")))
  /\ exc_str (KeyError ("a\b" ++ String "010" "c")) = "'a\\b\nc'".
Proof. split; reflexivity. Qed.

(** After a mapping key, [%] is no conversion. *)
Example percent_after_key :
  py_percent "%(done)%" (ArgsDict [("done", PyInt 3)])
  = Raise (ValueError
             "unsupported format character '%' (0x25) at index 7")
  /\ py_percent "100%% %(done)s" (ArgsDict [("done", PyInt 3)])
     = Ok "100% 3".
Proof. split; reflexivity. Qed.

(** An argument whose [__str__] raises. *)
Example percent_faulty_argument :
  py_percent "loading %s" (ArgsTuple [PyFaulty "Task" "RuntimeError" "no name"])
  = Raise (mkexn Exception "RuntimeError" "no name").
Proof. reflexivity. Qed.

Example percent_incomplete :
  py_percent "100%" (ArgsTuple [PyInt 3])
  = Raise (ValueError "incomplete format").
Proof. reflexivity. Qed.

Example percent_other_conversion :
  py_percent "%5.2f" (ArgsTuple [PyInt 3]) = Unmodelled.
Proof. reflexivity. Qed.

(** *** The sample environment satisfies the assumptions *)


Lemma sample_clock_never_goes_back : never_goes_back Sample.monotonic_src.
Proof.
  intros i j H. unfold fleb, Sample.monotonic_src, rescale. simpl.
  apply Z.leb_le. lia.
Qed.

Lemma framed_ret : framed (ret tt).
Proof.
  intros w. unfold extends. simpl. repeat split; try lia.
  exists []. symmetry. apply app_nil_r.
Qed.

Lemma framed_raise ex : framed (@raise unit ex).
Proof.
  intros w. unfold extends. simpl. repeat split; try lia.
  exists []. symmetry. apply app_nil_r.
Qed.

(** *** Instances and counterexamples *)

Lemma message_rendered_once_witness :
  render "compiling %(name)s" [] [("name", PyStr "mod.x")]
  = Ok "compiling mod.x"
  /\ render "compiling %(name)s" [] [("name", PyStr "mod.x")]
     = py_percent "compiling %(name)s" (ArgsDict [("name", PyStr "mod.x")]).
Proof.
  split; [reflexivity|].
  apply (message_rendered_once
           Sample.uuid_src Sample.monotonic_src Sample.time_src
           Sample.format_exc Sample.TRACE
           "build" "compiling %(name)s" [] [("name", PyStr "mod.x")]
           (ret tt) Sample.start "compiling mod.x").
  reflexivity.
Defined.



Lemma duration_is_monotonic_elapsed_witness :
  call_duration
    (cancel_call Sample.TRACE "build" "compiling" "u" (mkfloat 1 (-3)))
  = Some (mkfloat 1 (-3))
  /\ fnonneg (mkfloat 1 (-3)) = true.
Proof.
  pose proof (duration_is_monotonic_elapsed
                Sample.uuid_src Sample.monotonic_src Sample.time_src
                Sample.format_exc Sample.TRACE
                "build" "compiling" [] [] (raise Sample.cancelled)
                Sample.start "compiling" (Raise Sample.cancelled)
                (drawn Sample.start
                       [enter_call Sample.TRACE "build" "compiling" "u"
                                   (mkfloat 1700000000 0)])
                (cancel_call Sample.TRACE "build" "compiling" "u"
                             (mkfloat 1 (-3)))
                sample_clock_never_goes_back
                (framed_raise Sample.cancelled)
                eq_refl eq_refl eq_refl) as (Hd & Hn & _).
  split; [exact Hd | exact Hn].
Defined.



(* ================================================================= *)
(** * Properties of the formatter *)

Section DictFacts.
Context {V : Type}.
Implicit Types (d : list (string * V)) (k : string).

Lemma dict_get_set_same k (v : V) d : dict_get k (dict_set k v d) = Some v.
Proof.
  induction d as [|[k' v'] d IH]; simpl.
  - rewrite String.eqb_refl. reflexivity.
  - destruct (String.eqb k k') eqn:E; simpl; rewrite E; [reflexivity|exact IH].
Qed.

Lemma dict_get_set_other k k' (v : V) d :
  k <> k' -> dict_get k (dict_set k' v d) = dict_get k d.
Proof.
  intros Hne. induction d as [|[k0 v0] d IH]; simpl.
  - destruct (String.eqb_spec k k'); [contradiction|reflexivity].
  - destruct (String.eqb_spec k' k0) as [->|Hk]; simpl.
    + destruct (String.eqb_spec k k0); [contradiction|reflexivity].
    + destruct (String.eqb k k0); [reflexivity|exact IH].
Qed.

Lemma dict_get_app k d1 d2 :
  dict_get k (d1 ++ d2)
  = match dict_get k d1 with
    | Some v => Some v
    | None => dict_get k d2
    end.
Proof.
  induction d1 as [|[k' v'] d1 IH]; simpl; [reflexivity|].
  destruct (String.eqb k k'); [reflexivity|exact IH].
Qed.

Lemma dict_get_map {W : Type} (f : V -> W) k d :
  dict_get k (map (fun kv => (fst kv, f (snd kv))) d)
  = option_map f (dict_get k d).
Proof.
  induction d as [|[k' v'] d IH]; simpl; [reflexivity|].
  destruct (String.eqb k k'); [reflexivity|exact IH].
Qed.

Lemma dict_mem_get k d :
  dict_mem k d = match dict_get k d with Some _ => true | None => false end.
Proof. reflexivity. Qed.

End DictFacts.

(** The loop over [record.__dict__]: an entry already in [output] stays,
    and any other key that is not excluded gets the record's value. *)
Lemma copy_extra_get items : forall output k,
  dict_get k (fold_left copy_extra items output)
  = match dict_get k output with
    | Some v => Some v
    | None => if str_in k EXCLUDED_KEYS then None else dict_get k items
    end.
Proof.
  induction items as [|[key value] items IH]; intros output k.
  - cbn [fold_left dict_get]. destruct (dict_get k output); [reflexivity|].
    destruct (str_in k EXCLUDED_KEYS); reflexivity.
  - cbn [fold_left]. rewrite IH. unfold copy_extra.
    cbn [dict_get]. rewrite dict_mem_get.
    destruct (String.eqb_spec k key) as [->|Hne].
    + destruct (dict_get key output) as [v|] eqn:E; cbn [negb andb].
      * rewrite E. reflexivity.
      * destruct (str_in key EXCLUDED_KEYS) eqn:X; cbn [negb].
        -- rewrite E. reflexivity.
        -- rewrite dict_get_set_same. reflexivity.
    + destruct (negb match dict_get key output with
                     | Some _ => true | None => false end
                && negb (str_in key EXCLUDED_KEYS)); [|reflexivity].
      rewrite dict_get_set_other by exact Hne. reflexivity.
Qed.

(** The loop over [ACTION_KEYS]. *)
Lemma copy_attrs_get record keys : forall output k,
  dict_get k (fold_left (fun out key => copy_attr record key key out)
                        keys output)
  = if str_in k keys then
      match getattr record k with
      | Some v => Some v
      | None => dict_get k output
      end
    else dict_get k output.
Proof.
  induction keys as [|key keys IH]; intros output k; [reflexivity|].
  cbn [fold_left]. rewrite IH. unfold str_in. cbn [existsb].
  fold (str_in k keys). unfold copy_attr.
  destruct (String.eqb_spec k key) as [->|Hne]; cbn [orb].
  - destruct (getattr record key) as [v|] eqn:E.
    + rewrite dict_get_set_same. destruct (str_in key keys); reflexivity.
    + destruct (str_in key keys); reflexivity.
  - destruct (getattr record key) as [v|]; [|reflexivity].
    rewrite dict_get_set_other by exact Hne. reflexivity.
Qed.

Lemma copy_attr_get record key target output k :
  dict_get k (copy_attr record key target output)
  = if String.eqb k target then
      match getattr record key with
      | Some v => Some v
      | None => dict_get k output
      end
    else dict_get k output.
Proof.
  unfold copy_attr. destruct (String.eqb_spec k target) as [->|Hne].
  - destruct (getattr record key); [apply dict_get_set_same | reflexivity].
  - destruct (getattr record key); [|reflexivity].
    apply dict_get_set_other. exact Hne.
Qed.

Lemma action_key_free k :
  str_in k ACTION_KEYS = true ->
  str_in k EXCLUDED_KEYS = false
  /\ str_in k ["timestamp"; "level"; "message"] = false
  /\ str_in k ["module"; "function"; "line"] = false.
Proof.
  unfold str_in, ACTION_KEYS. cbn [existsb]. intros H.
  repeat (apply orb_true_iff in H as [H|H];
          [apply String.eqb_eq in H; subst k; repeat split|]).
  discriminate.
Qed.

(** *** The encoder *)

(** An induction principle for Python values that reaches the elements of
    lists and the values of dictionaries. *)
Lemma pyval_nested_ind (P : pyval -> Prop) :
  P PyNone ->
  (forall b, P (PyBool b)) ->
  (forall z, P (PyInt z)) ->
  (forall f, P (PyFloat f)) ->
  (forall s, P (PyStr s)) ->
  (forall l, Forall P l -> P (PyList l)) ->
  (forall d, Forall (fun kv => P (snd kv)) d -> P (PyDict d)) ->
  (forall cls text, P (PyObj cls text)) ->
  (forall d, Forall (fun kv => P (snd kv)) d -> P (PyMapping d)) ->
  (forall cls error_type error, P (PyFaulty cls error_type error)) ->
  (forall up, P (PyRef up)) ->
  forall v, P v.
Proof.
  intros Hnone Hbool Hint Hfloat Hstr Hlist Hdict Hobj Hmap Hfaulty Href.
  fix IH 1. intros [ | b | z | f | s | l | d | cls text | d | cls et e | up ].
  - exact Hnone.
  - apply Hbool.
  - apply Hint.
  - apply Hfloat.
  - apply Hstr.
  - apply Hlist. induction l as [|v l IHl]; constructor; [apply IH | exact IHl].
  - apply Hdict. induction d as [|[k v] d IHd]; constructor;
      [apply IH | exact IHd].
  - apply Hobj.
  - apply Hmap. induction d as [|[k v] d IHd]; constructor;
      [apply IH | exact IHd].
  - apply Hfaulty.
  - apply Href.
Qed.

Lemma json_key_plain key :
  plain_key key = true -> json_key key = Ok (key_name key).
Proof. destruct key as [ | [] | | | ]; try discriminate; reflexivity. Qed.

Lemma json_key_returns key name :
  json_key key = Ok name -> plain_key key = true.
Proof. destruct key as [ | [] | | | ]; try discriminate; reflexivity. Qed.

(** An encodable value is encoded. *)
Lemma json_encode_encodable v :
  encodable v = true -> json_encode v = Ok (default_str v).
Proof.
  induction v as [ | b | z | f | s | l IH | d IH | cls text | d IH
                 | cls et e | up ] using pyval_nested_ind;
    intros H; try reflexivity; try discriminate.
  - cbn [json_encode default_str]. cbn [encodable] in H.
    match goal with |- result_map JList (?F l) = _ =>
      assert (E : F l = Ok (map default_str l)) end.
    { induction l as [|x l IHl]; [reflexivity|].
      cbn [forallb] in H. apply andb_prop in H as [Hx Hl].
      inversion IH as [|? ? IHx IHrest]; subst.
      cbn [map]. rewrite (IHx Hx). cbn [result_bind].
      rewrite (IHl IHrest Hl). reflexivity. }
    rewrite E. reflexivity.
  - cbn [json_encode default_str]. cbn [encodable] in H.
    match goal with |- result_map JObject (?F d) = _ =>
      assert (E : F d = Ok (map (fun kv => (fst kv, default_str (snd kv))) d))
    end.
    { induction d as [|[k x] d IHd]; [reflexivity|].
      cbn [forallb snd] in H. apply andb_prop in H as [Hx Hd].
      inversion IH as [|? ? IHx IHrest]; subst. cbn [snd] in IHx.
      cbn [map fst snd]. rewrite (IHx Hx). cbn [result_bind].
      rewrite (IHd IHrest Hd). reflexivity. }
    rewrite E. reflexivity.
  - cbn [json_encode default_str]. cbn [encodable] in H.
    match goal with |- result_map JObject (?F d) = _ =>
      assert (E : F d = Ok (map (fun kv => (key_name (fst kv),
                                            default_str (snd kv))) d))
    end.
    { induction d as [|[k x] d IHd]; [reflexivity|].
      cbn [forallb fst snd] in H. apply andb_prop in H as [Hx Hd].
      apply andb_prop in Hx as [Hk Hx].
      inversion IH as [|? ? IHx IHrest]; subst. cbn [snd] in IHx.
      cbn [map fst snd]. rewrite (json_key_plain k Hk). cbn [result_bind].
      rewrite (IHx Hx). cbn [result_bind].
      rewrite (IHd IHrest Hd). reflexivity. }
    rewrite E. reflexivity.
Qed.

Lemma result_map_returns {A B : Type} (f : A -> B) r b :
  result_map f r = Ok b -> exists a, r = Ok a /\ b = f a.
Proof.
  destruct r as [a| |]; try discriminate. intros H. injection H as <-. eauto.
Qed.

Lemma result_bind_returns {A B : Type} r (f : A -> result B) b :
  result_bind r f = Ok b -> exists a, r = Ok a /\ f a = Ok b.
Proof. destruct r as [a| |]; try discriminate. intros H. eauto. Qed.

(** Only an encodable value is encoded. *)
Lemma json_encode_returns v :
  forall j, json_encode v = Ok j -> encodable v = true.
Proof.
  induction v as [ | b | z | f | s | l IH | d IH | cls text | d IH
                 | cls et e | up ] using pyval_nested_ind;
    intros j H; try reflexivity; try discriminate.
  - cbn [json_encode] in H. cbn [encodable].
    apply result_map_returns in H as (js & H & _). clear j.
    revert js H. induction l as [|x l IHl]; intros js H; [reflexivity|].
    inversion IH as [|? ? IHx IHrest]; subst.
    apply result_bind_returns in H as (j & Hx & H).
    apply result_map_returns in H as (js' & H & _).
    cbn [forallb]. rewrite (IHx _ Hx), (IHl IHrest _ H). reflexivity.
  - cbn [json_encode] in H. cbn [encodable].
    apply result_map_returns in H as (js & H & _). clear j.
    revert js H. induction d as [|[k x] d IHd]; intros js H; [reflexivity|].
    inversion IH as [|? ? IHx IHrest]; subst. cbn [snd] in IHx.
    apply result_bind_returns in H as (j & Hx & H).
    apply result_map_returns in H as (js' & H & _).
    cbn [forallb snd]. rewrite (IHx _ Hx), (IHd IHrest _ H). reflexivity.
  - cbn [json_encode] in H. cbn [encodable].
    apply result_map_returns in H as (js & H & _). clear j.
    revert js H. induction d as [|[k x] d IHd]; intros js H; [reflexivity|].
    inversion IH as [|? ? IHx IHrest]; subst. cbn [snd] in IHx.
    apply result_bind_returns in H as (name & Hk & H).
    apply result_bind_returns in H as (j & Hx & H).
    apply result_map_returns in H as (js' & H & _).
    cbn [forallb fst snd].
    rewrite (json_key_returns _ _ Hk), (IHx _ Hx), (IHd IHrest _ H).
    reflexivity.
Qed.





(** *** The values of the output are attributes of the record *)

Lemma dict_set_values {V : Type} (P : V -> bool) k v (d : list (string * V)) :
  forallb (fun kv => P (snd kv)) d = true -> P v = true ->
  forallb (fun kv => P (snd kv)) (dict_set k v d) = true.
Proof.
  intros Hd Hv. induction d as [|[k' v'] d IH]; cbn [dict_set].
  - cbn [forallb snd]. rewrite Hv. reflexivity.
  - cbn [forallb snd] in Hd. apply andb_prop in Hd as [Hv' Hd].
    destruct (String.eqb k k'); cbn [forallb snd].
    + rewrite Hv, Hd. reflexivity.
    + rewrite Hv', (IH Hd). reflexivity.
Qed.

Lemma dict_get_In {V : Type} k (v : V) d :
  dict_get k d = Some v -> In (k, v) d.
Proof.
  induction d as [|[k' v'] d IH]; cbn [dict_get]; [discriminate|].
  destruct (String.eqb_spec k k') as [->|_].
  - intros H. injection H as ->. left. reflexivity.
  - intros H. right. apply IH. exact H.
Qed.

(** Every entry of [record.__dict__] but [args] is a string, a number,
    or one of the further attributes of the record. *)
Lemma record_dict_encodable record :
  forallb (fun kv => encodable (snd kv)) (extra record) = true ->
  forall k v, In (k, v) (record_dict record) ->
              k = "args" \/ encodable v = true.
Proof.
  intros H k v Hin. unfold record_dict in Hin.
  repeat (apply in_app_or in Hin as [Hin|Hin]).
  - cbn [In] in Hin.
    destruct Hin as [E|[E|[E|[]]]]; injection E as <- <-;
      [right | left | right]; reflexivity.
  - destruct (module record); cbn [option_map opt_entry In] in Hin;
      [|contradiction].
    destruct Hin as [E|[]]. injection E as <- <-. right. reflexivity.
  - destruct (lineno record); cbn [option_map opt_entry In] in Hin;
      [|contradiction].
    destruct Hin as [E|[]]. injection E as <- <-. right. reflexivity.
  - destruct (funcName record); cbn [option_map opt_entry In] in Hin;
      [|contradiction].
    destruct Hin as [E|[]]. injection E as <- <-. right. reflexivity.
  - destruct Hin as [E|[]]. injection E as <- <-. right. reflexivity.
  - right. rewrite forallb_forall in H. apply (H (k, v) Hin).
Qed.

Section OutputValues.

Variable isoformat : pyfloat -> string.
Variable record : LogRecord.
Hypothesis Hextra :
  forallb (fun kv => encodable (snd kv)) (extra record) = true.

Local Abbreviation good :=
  (fun output : pydict => forallb (fun kv => encodable (snd kv)) output = true).

Lemma copy_attr_encodable key target output :
  key <> "args" -> good output -> good (copy_attr record key target output).
Proof.
  intros Hkey Hout. unfold copy_attr, getattr.
  destruct (dict_get key (record_dict record)) as [v|] eqn:E; [|exact Hout].
  apply dict_set_values; [exact Hout|].
  apply dict_get_In in E.
  destruct (record_dict_encodable record Hextra key v E); [contradiction|].
  assumption.
Qed.

Lemma copy_attrs_encodable keys : forall output,
  ~ In "args" keys -> good output ->
  good (fold_left (fun out key => copy_attr record key key out) keys output).
Proof.
  induction keys as [|key keys IH]; intros output Hno Hout; [exact Hout|].
  cbn [fold_left]. apply IH.
  - intros Hin. apply Hno. right. exact Hin.
  - apply copy_attr_encodable; [|exact Hout].
    intros ->. apply Hno. left. reflexivity.
Qed.

Lemma copy_extra_encodable items : forall output,
  (forall k v, In (k, v) items -> k = "args" \/ encodable v = true) ->
  good output -> good (fold_left copy_extra items output).
Proof.
  induction items as [|[key value] items IH]; intros output Hitems Hout;
    [exact Hout|].
  cbn [fold_left]. apply IH.
  - intros k v Hin. apply Hitems. right. exact Hin.
  - unfold copy_extra.
    destruct (negb (dict_mem key output)); [|exact Hout]. cbn [andb].
    destruct (str_in key EXCLUDED_KEYS) eqn:Hx; [exact Hout|]. cbn [negb].
    apply dict_set_values; [exact Hout|].
    destruct (Hitems key value (or_introl eq_refl)) as [->|H];
      [discriminate Hx | exact H].
Qed.

(** When the further attributes of a record are encodable, so is the
    dictionary [format] builds. *)
Lemma format_output_encodable message :
  encodable (PyDict (format_output isoformat record message)) = true.
Proof.
  cbn [encodable]. unfold format_output.
  apply copy_extra_encodable; [apply record_dict_encodable; exact Hextra|].
  destruct (negb (levelname record =? "TRACE")%string).
  - repeat (apply copy_attr_encodable; [discriminate|]). reflexivity.
  - destruct (hasattr record "action"); [|reflexivity].
    apply copy_attrs_encodable; [|reflexivity].
    unfold ACTION_KEYS. cbn [In].
    intros H. repeat (destruct H as [H|H]; [discriminate H|]). exact H.
Qed.

End OutputValues.

Section FormatFacts.

Variable isoformat : pyfloat -> string.
Variable json_dumps : json -> string.

Local Abbreviation base_output := (base_output isoformat).
Local Abbreviation attribute_entry := (attribute_entry isoformat).

Lemma base_output_get record message k :
  str_in k ["timestamp"; "level"; "message"] = false ->
  dict_get k (base_output record message) = None.
Proof.
  unfold str_in, base_output. cbn [existsb dict_get]. intros H.
  apply orb_false_iff in H as [H1 H]. apply orb_false_iff in H as [H2 H].
  apply orb_false_iff in H as [H3 _]. rewrite H1, H2, H3. reflexivity.
Qed.

(** For a record at level [TRACE], every key. *)
Lemma format_output_trace record message k :
  levelname record = "TRACE" ->
  dict_get k (format_output isoformat record message)
  = attribute_entry record message k.
Proof.
  intros Hlevel. unfold format_output, attribute_entry.
  assert (negb (levelname record =? "TRACE")%string = false) as ->
      by (rewrite Hlevel; reflexivity).
  fold (base_output record message).
  destruct (hasattr record "action").
  - rewrite copy_extra_get, copy_attrs_get.
    destruct (str_in k ACTION_KEYS) eqn:E; [|reflexivity].
    apply action_key_free in E as (Hx & Hb & _).
    rewrite (base_output_get _ _ _ Hb), Hx. unfold getattr.
    destruct (dict_get k (record_dict record)); reflexivity.
  - apply copy_extra_get.
Qed.

(** For a record at any level, every key but the three that [format]
    adds for a record which is not at level [TRACE]. *)
Lemma format_output_any record message k :
  str_in k ["module"; "function"; "line"] = false ->
  dict_get k (format_output isoformat record message)
  = attribute_entry record message k.
Proof.
  intros Hk. destruct (String.eqb_spec (levelname record) "TRACE") as [E|E].
  - apply format_output_trace. exact E.
  - unfold format_output, attribute_entry.
    apply String.eqb_neq in E. rewrite E. cbn [negb].
    fold (base_output record message).
    rewrite copy_extra_get, !copy_attr_get.
    unfold str_in in Hk. cbn [existsb] in Hk.
    apply orb_false_iff in Hk as [H1 Hk].
    apply orb_false_iff in Hk as [H2 Hk].
    apply orb_false_iff in Hk as [H3 _].
    rewrite H1, H2, H3. reflexivity.
Qed.

(** When the message renders and the output is encodable, [format]
    returns the text of its encoding. *)
Lemma format_message record message :
  getMessage record = Ok message ->
  encodable (PyDict (format_output isoformat record message)) = true ->
  TraceFormatter_format isoformat json_dumps record
  = Ok (json_dumps
          (JObject (map (fun kv => (fst kv, default_str (snd kv)))
                        (format_output isoformat record message)))).
Proof.
  intros H He. unfold TraceFormatter_format, dumps_default_str.
  rewrite H. cbn [result_bind].
  rewrite (json_encode_encodable _ He). reflexivity.
Qed.

(** [format] raises what [getMessage] raises. *)
Lemma format_raises record e :
  getMessage record = Raise e ->
  TraceFormatter_format isoformat json_dumps record = Raise e.
Proof.
  intros H. unfold TraceFormatter_format. rewrite H. reflexivity.
Qed.


(** [format] returns a line only when the message renders and the output
    is encodable. *)
Lemma format_returns record line :
  TraceFormatter_format isoformat json_dumps record = Ok line ->
  exists message,
    getMessage record = Ok message
    /\ encodable (PyDict (format_output isoformat record message)) = true
    /\ line = json_dumps
                (JObject (map (fun kv => (fst kv, default_str (snd kv)))
                              (format_output isoformat record message))).
Proof.
  unfold TraceFormatter_format, dumps_default_str. intros H.
  apply result_bind_returns in H as (message & Hmsg & H).
  apply result_map_returns in H as (j & H & ->).
  pose proof (json_encode_returns _ _ H) as He.
  rewrite (json_encode_encodable _ He) in H. injection H as <-.
  exists message. split; [exact Hmsg|]. split; [exact He | reflexivity].
Qed.

End FormatFacts.

(* ================================================================= *)
(** * The JSON text codec decodes what it encodes *)

Lemma append_assoc (a b c : string) : ((a ++ b) ++ c = a ++ (b ++ c))%string.
Proof. induction a as [|x a IH]; simpl; [reflexivity | rewrite IH; reflexivity]. Qed.

Lemma append_empty_r (a : string) : (a ++ "" = a)%string.
Proof. induction a as [|x a IH]; simpl; [reflexivity | rewrite IH; reflexivity]. Qed.

Lemma length_append (a b : string) :
  String.length (a ++ b) = (String.length a + String.length b)%nat.
Proof. induction a as [|x a IH]; simpl; [reflexivity | rewrite IH; reflexivity]. Qed.

(** An induction principle for JSON values that reaches the elements of
    arrays and the members of objects. *)
Lemma json_nested_ind (P : json -> Prop) :
  P JNull ->
  (forall b, P (JBool b)) ->
  (forall z, P (JInt z)) ->
  (forall f, P (JFloat f)) ->
  (forall s, P (JStr s)) ->
  (forall l, Forall P l -> P (JList l)) ->
  (forall d, Forall (fun kv => P (snd kv)) d -> P (JObject d)) ->
  forall j, P j.
Proof.
  intros Hnull Hbool Hint Hfloat Hstr Hlist Hobj.
  fix IH 1. intros [ | b | z | f | s | l | d ].
  - exact Hnull.
  - apply Hbool.
  - apply Hint.
  - apply Hfloat.
  - apply Hstr.
  - apply Hlist. induction l as [|j l IHl]; constructor; [apply IH | exact IHl].
  - apply Hobj. induction d as [|[k j] d IHd]; constructor;
      [apply IH | exact IHd].
Qed.

Module JsonTextFacts.
Import JsonText.

(** *** Strings *)

Lemma parse_chars_escape_char c tail :
  parse_chars (escape_char c ++ tail) = cons_char c (parse_chars tail).
Proof.
  destruct c as [[] [] [] [] [] [] [] []]; reflexivity.
Qed.

Lemma parse_chars_escape s rest :
  parse_chars (escape s ++ String dquote rest) = Some (s, rest).
Proof.
  induction s as [|c s IH]; [reflexivity|].
  cbn [escape]. rewrite append_assoc, parse_chars_escape_char, IH.
  reflexivity.
Qed.

Lemma parse_chars_quote s rest :
  exists body, (quote s ++ rest)%string = String dquote body
               /\ parse_chars body = Some (s, rest).
Proof.
  exists (escape s ++ String dquote rest)%string. split.
  - unfold quote. cbn [append]. rewrite append_assoc. reflexivity.
  - apply parse_chars_escape.
Qed.

(** *** Numbers *)

Lemma parse_digits_uint d rest :
  no_digit rest = true ->
  parse_digits (NilEmpty.string_of_uint d ++ rest) = (d, rest).
Proof.
  intros H. induction d; cbn [NilEmpty.string_of_uint append parse_digits];
    try (change (digit_of "0") with (Some Decimal.D0);
         change (digit_of "1") with (Some Decimal.D1);
         change (digit_of "2") with (Some Decimal.D2);
         change (digit_of "3") with (Some Decimal.D3);
         change (digit_of "4") with (Some Decimal.D4);
         change (digit_of "5") with (Some Decimal.D5);
         change (digit_of "6") with (Some Decimal.D6);
         change (digit_of "7") with (Some Decimal.D7);
         change (digit_of "8") with (Some Decimal.D8);
         change (digit_of "9") with (Some Decimal.D9);
         cbv iota; rewrite IHd; reflexivity).
  destruct rest as [|c rest]; [reflexivity|].
  cbn [parse_digits]. simpl in H. destruct (digit_of c); [discriminate|reflexivity].
Qed.

Lemma parse_int_str z rest :
  no_digit rest = true ->
  parse_int (str_of_Z z ++ rest) = Some (z, rest).
Proof.
  intros H. unfold str_of_Z.
  rewrite <- (DecimalZ.of_to z) at 2.
  destruct z as [|p|p]; cbn [Z.to_int NilZero.string_of_int].
  - simpl. destruct rest as [|c rest]; [reflexivity|].
    simpl in H. simpl. destruct (digit_of c); [discriminate|reflexivity].
  - pose proof (Unsigned.to_uint_nonnil p) as Hnil.
    destruct (Pos.to_uint p) as [|d|d|d|d|d|d|d|d|d|d] eqn:E;
      [contradiction|..];
      unfold parse_int; cbn [NilZero.string_of_uint NilEmpty.string_of_uint append];
      cbn [parse_digits];
      match goal with |- context [digit_of ?c] =>
        let v := eval vm_compute in (digit_of c) in
        change (digit_of c) with v end;
      cbv iota; rewrite (parse_digits_uint d rest H); reflexivity.
  - pose proof (Unsigned.to_uint_nonnil p) as Hnil.
    destruct (Pos.to_uint p) as [|d|d|d|d|d|d|d|d|d|d] eqn:E;
      [contradiction|..];
      unfold parse_int; cbn [NilZero.string_of_uint NilEmpty.string_of_uint append];
      cbn [parse_digits];
      match goal with |- context [digit_of ?c] =>
        let v := eval vm_compute in (digit_of c) in
        change (digit_of c) with v end;
      cbv iota; rewrite (parse_digits_uint d rest H); reflexivity.
Qed.

Lemma sep_head_no_digit rest : sep_head rest = true -> no_digit rest = true.
Proof.
  destruct rest as [|c rest]; [reflexivity|]. simpl.
  intros H. apply orb_true_iff in H as [H|H];
    [apply orb_true_iff in H as [H|H]|];
    apply Ascii.eqb_eq in H; subst c; reflexivity.
Qed.

Lemma parse_number_int z rest :
  sep_head rest = true ->
  parse_number (str_of_Z z ++ rest) = Some (JInt z, rest).
Proof.
  intros H. unfold parse_number.
  rewrite (parse_int_str z rest (sep_head_no_digit rest H)).
  destruct rest as [|c rest]; [reflexivity|]. simpl in H.
  apply orb_true_iff in H as [H|H];
    [apply orb_true_iff in H as [H|H]|];
    apply Ascii.eqb_eq in H; subst c; reflexivity.
Qed.

Lemma parse_number_float f rest :
  sep_head rest = true ->
  parse_number (dumps_float f ++ rest) = Some (JFloat f, rest).
Proof.
  intros H. unfold parse_number, dumps_float.
  rewrite append_assoc. rewrite parse_int_str by reflexivity.
  cbn [append]. rewrite (parse_int_str _ rest (sep_head_no_digit rest H)).
  destruct f. reflexivity.
Qed.

(** *** Values *)

Lemma skip_no_ws s rest : no_ws s = true -> skip_ws (s ++ rest) = (s ++ rest)%string.
Proof.
  destruct s as [|c s]; [discriminate|]. simpl. intros H.
  apply andb_true_iff in H as [H _]. apply andb_true_iff in H as [H _].
  apply negb_true_iff in H. rewrite H. reflexivity.
Qed.

Lemma skip_sep rest : sep_head rest = true -> skip_ws rest = rest.
Proof.
  destruct rest as [|c rest]; [reflexivity|]. simpl. intros H.
  apply orb_true_iff in H as [H|H];
    [apply orb_true_iff in H as [H|H]|];
    apply Ascii.eqb_eq in H; subst c; reflexivity.
Qed.

Lemma uint_head d rest :
  d <> Decimal.Nil ->
  number_head (NilEmpty.string_of_uint d ++ rest) = true.
Proof. destruct d; [contradiction|..]; reflexivity. Qed.

Lemma str_of_Z_head z rest : number_head (str_of_Z z ++ rest) = true.
Proof.
  unfold str_of_Z. destruct z as [|p|p]; [reflexivity| |reflexivity].
  cbn [Z.to_int NilZero.string_of_int].
  pose proof (Unsigned.to_uint_nonnil p) as Hnil.
  destruct (Pos.to_uint p); [contradiction|..]; reflexivity.
Qed.

Lemma parse_value_number fuel s :
  number_head s = true -> parse_value (S fuel) s = parse_number s.
Proof.
  destruct s as [|c s]; [discriminate|]. unfold number_head, digit_of.
  repeat match goal with
         | |- context [Ascii.eqb c ?x] =>
             destruct (Ascii.eqb_spec c x) as [->|?]; [reflexivity|]
         end.
  discriminate.
Qed.

Lemma parse_value_space fuel s :
  parse_value fuel (String " " s) = parse_value fuel s.
Proof. destruct fuel; reflexivity. Qed.

Lemma dumps_no_ws j rest : no_ws (dumps j ++ rest) = true.
Proof.
  destruct j as [ | [] | z | f | s | l | d ]; try reflexivity.
  - pose proof (str_of_Z_head z rest) as H. cbn [dumps].
    revert H. destruct (str_of_Z z ++ rest)%string as [|c s]; intros H;
      [discriminate|].
    unfold number_head in H. unfold no_ws, is_ws.
    unfold digit_of in H.
    repeat match type of H with
           | context [Ascii.eqb c ?x] =>
               destruct (Ascii.eqb_spec c x) as [->|?]; [reflexivity|]
           end.
    discriminate.
  - unfold dumps, dumps_float. rewrite !append_assoc.
    pose proof (str_of_Z_head (mantissa f)
                  ("e" ++ str_of_Z (exponent10 f) ++ rest)) as H.
    revert H.
    destruct (str_of_Z (mantissa f) ++ "e" ++ str_of_Z (exponent10 f) ++ rest)%string
      as [|c s]; intros H; [discriminate|].
    unfold number_head in H. unfold no_ws, is_ws.
    unfold digit_of in H.
    repeat match type of H with
           | context [Ascii.eqb c ?x] =>
               destruct (Ascii.eqb_spec c x) as [->|?]; [reflexivity|]
           end.
    discriminate.
Qed.

(** *** Arrays and objects *)

Lemma dumps_nonempty j : (1 <= String.length (dumps j))%nat.
Proof.
  pose proof (dumps_no_ws j "") as H. rewrite append_empty_r in H.
  destruct (dumps j); [discriminate | simpl; lia].
Qed.

Lemma join_count (sep : string) (l : list string) :
  Forall (fun x => (1 <= String.length x)%nat) l ->
  (length l <= String.length (join sep l) + 1)%nat.
Proof.
  induction 1 as [|x l Hx Hl IH]; [simpl; lia|].
  destruct l as [|y l]; [simpl; lia|].
  change (join sep (x :: y :: l)) with (x ++ sep ++ join sep (y :: l))%string.
  rewrite !length_append. simpl length in *. lia.
Qed.

Lemma join_size (sep : string) (l : list string) x :
  In x l -> (String.length x <= String.length (join sep l))%nat.
Proof.
  induction l as [|y l IH]; intros []; subst.
  - destruct l as [|z l]; [simpl; lia|].
    change (join sep (x :: z :: l)) with (x ++ sep ++ join sep (z :: l))%string.
    rewrite length_append. lia.
  - destruct l as [|z l]; [contradiction|].
    change (join sep (y :: z :: l)) with (y ++ sep ++ join sep (z :: l))%string.
    rewrite !length_append. specialize (IH H). lia.
Qed.

Section ContainerFacts.
Variable value : string -> option (json * string).
Hypothesis value_space : forall s, value (String " " s) = value s.

Local Abbreviation decodes := (decodes value).

Lemma parse_elems_space n s :
  parse_elems value n (String " " s) = parse_elems value n s.
Proof. destruct n; [reflexivity|]. simpl. rewrite value_space. reflexivity. Qed.

Lemma parse_members_space n s :
  parse_members value n (String " " s) = parse_members value n s.
Proof. destruct n; reflexivity. Qed.

Lemma parse_elems_join l : forall n rest,
  Forall decodes l -> l <> [] -> (length l <= n)%nat ->
  parse_elems value n (join ", " (map dumps l) ++ "]" ++ rest)
  = Some (l, rest).
Proof.
  induction l as [|j l IH]; intros n rest Hall Hne Hn; [contradiction|].
  destruct n as [|n]; [simpl in Hn; lia|].
  inversion Hall as [|? ? Hj Hl]; subst.
  destruct l as [|j2 l].
  - cbn [map join parse_elems].
    rewrite (Hj ("]" ++ rest)%string) by reflexivity. reflexivity.
  - change (join ", " (map dumps (j :: j2 :: l)))
      with (dumps j ++ ", " ++ join ", " (map dumps (j2 :: l)))%string.
    rewrite !append_assoc. cbn [parse_elems].
    rewrite Hj by reflexivity.
    change (skip_ws (", " ++ join ", " (map dumps (j2 :: l)) ++ "]" ++ rest))
      with (String "," (String " " (join ", " (map dumps (j2 :: l))
                                        ++ "]" ++ rest))).
    cbv iota. change (Ascii.eqb "," ",") with true. cbv iota.
    rewrite parse_elems_space.
    rewrite (IH n rest Hl); [reflexivity | discriminate | simpl in *; lia].
Qed.

Lemma parse_members_join d : forall n rest,
  Forall (fun kv => decodes (snd kv)) d -> d <> [] -> (length d <= n)%nat ->
  parse_members value n (join ", " (map member d) ++ "}" ++ rest)
  = Some (d, rest).
Proof.
  induction d as [|[k j] d IH]; intros n rest Hall Hne Hn; [contradiction|].
  destruct n as [|n]; [simpl in Hn; lia|].
  inversion Hall as [|? ? Hj Hd]; subst. cbn [snd] in Hj.
  assert (Hone : forall tail,
             sep_head tail = true ->
             parse_members value (S n) (member (k, j) ++ tail)
             = match skip_ws tail with
               | String c r3 =>
                   if Ascii.eqb c "," then
                     match parse_members value n r3 with
                     | Some (l, r4) => Some ((k, j) :: l, r4)
                     | None => None
                     end
                   else if Ascii.eqb c "}" then Some ([(k, j)], r3)
                   else None
               | EmptyString => None
               end).
  { intros tail Htail. unfold member, quote. cbn [fst snd].
    rewrite !append_assoc. cbn [append].
    rewrite !append_assoc. cbn [append parse_members].
    change (skip_ws (String dquote ?x)) with (String dquote x).
    cbn [skip_ws]. change (is_ws dquote) with false. cbv iota.
    change (Ascii.eqb dquote dquote) with true. cbv iota.
    rewrite parse_chars_escape.
    cbn [skip_ws]. change (is_ws ":") with false. cbv iota.
    rewrite value_space, (Hj tail Htail). reflexivity. }
  destruct d as [|kv2 d].
  - cbn [map join]. rewrite Hone by reflexivity. reflexivity.
  - change (join ", " (map member ((k, j) :: kv2 :: d)))
      with (member (k, j) ++ ", " ++ join ", " (map member (kv2 :: d)))%string.
    rewrite !append_assoc. rewrite Hone by reflexivity.
    change (skip_ws (", " ++ join ", " (map member (kv2 :: d)) ++ "}" ++ rest))
      with (String "," (String " " (join ", " (map member (kv2 :: d))
                                        ++ "}" ++ rest))).
    cbv iota. change (Ascii.eqb "," ",") with true. cbv iota.
    rewrite parse_members_space.
    rewrite (IH n rest Hd); [reflexivity | discriminate | simpl in *; lia].
Qed.
End ContainerFacts.

(** *** The decoder inverts the encoder *)

Lemma parse_list_values value n s :
  no_ws s = true -> parse_list value n s = parse_elems value n s.
Proof.
  intros H. unfold parse_list.
  destruct s as [|c s]; [discriminate|].
  rewrite <- (append_empty_r (String c s)) at 1.
  rewrite (skip_no_ws _ _ H), append_empty_r.
  simpl in H. apply andb_true_iff in H as [H _].
  apply andb_true_iff in H as [_ H]. apply negb_true_iff in H.
  destruct (Ascii.eqb_spec c "]") as [->|Hne]; [discriminate|].
  destruct c as [[] [] [] [] [] [] [] []]; try reflexivity.
  contradiction Hne. reflexivity.
Qed.

Lemma depth_elements l n :
  (list_max (map depth l) < n)%nat ->
  Forall (fun j => (depth j < n)%nat) l.
Proof.
  intros H. apply Forall_forall. intros j Hj.
  pose proof (proj1 (list_max_le (map depth l) (list_max (map depth l)))
                    (le_n _)) as Hall.
  rewrite Forall_forall in Hall.
  specialize (Hall (depth j) (in_map depth l j Hj)). lia.
Qed.

Lemma depth_members (d : list (string * json)) n :
  (list_max (map (fun kv => depth (snd kv)) d) < n)%nat ->
  Forall (fun kv => (depth (snd kv) < n)%nat) d.
Proof.
  intros H. apply Forall_forall. intros kv Hkv.
  pose proof (proj1 (list_max_le _ (list_max (map (fun kv => depth (snd kv)) d)))
                    (le_n _)) as Hall.
  rewrite Forall_forall in Hall.
  specialize (Hall (depth (snd kv))
                   (in_map (fun kv => depth (snd kv)) d kv Hkv)).
  lia.
Qed.

Theorem parse_value_dumps j : forall fuel rest,
  (depth j < fuel)%nat -> sep_head rest = true ->
  parse_value fuel (dumps j ++ rest) = Some (j, rest).
Proof.
  induction j as [ | b | z | f | s | l IH | d IH ] using json_nested_ind;
    intros fuel rest Hfuel Hrest;
    (destruct fuel as [|fuel]; [simpl in Hfuel; lia|]).
  - reflexivity.
  - destruct b; reflexivity.
  - cbn [dumps]. rewrite parse_value_number by apply str_of_Z_head.
    apply parse_number_int. exact Hrest.
  - cbn [dumps]. rewrite parse_value_number.
    + apply parse_number_float. exact Hrest.
    + unfold dumps_float. rewrite append_assoc. apply str_of_Z_head.
  - cbn [dumps]. unfold quote. cbn [append]. rewrite append_assoc.
    cbn [append parse_value skip_ws]. change (is_ws dquote) with false.
    cbv iota. change (Ascii.eqb dquote "n") with false.
    change (Ascii.eqb dquote "t") with false.
    change (Ascii.eqb dquote "f") with false.
    change (Ascii.eqb dquote dquote) with true. cbv iota.
    rewrite parse_chars_escape. reflexivity.
  - cbn [dumps]. cbn [append]. rewrite append_assoc.
    cbn [parse_value skip_ws]. change (is_ws "[") with false. cbv iota.
    change (Ascii.eqb "[" "n") with false.
    change (Ascii.eqb "[" "t") with false.
    change (Ascii.eqb "[" "f") with false.
    change (Ascii.eqb "[" dquote) with false.
    change (Ascii.eqb "[" "[") with true. cbv iota.
    destruct l as [|j l]; [reflexivity|].
    rewrite parse_list_values.
    + rewrite parse_elems_join; [reflexivity| | | discriminate |].
      * intros s0. apply parse_value_space.
      * simpl in Hfuel. apply Nat.succ_lt_mono in Hfuel.
        pose proof (depth_elements (j :: l) fuel Hfuel) as Hd.
        rewrite Forall_forall in *. intros x Hx rest0 Hr.
        apply (IH x Hx); [apply Hd; exact Hx | exact Hr].
      * rewrite length_append.
        pose proof (join_count ", " (map dumps (j :: l))) as Hc.
        rewrite length_map in Hc.
        assert (Forall (fun x => (1 <= String.length x)%nat)
                       (map dumps (j :: l))) as Hall.
        { apply Forall_forall. intros x Hx. apply in_map_iff in Hx
            as [y [<- _]]. apply dumps_nonempty. }
        specialize (Hc Hall). simpl String.length at 2. lia.
    + change (join ", " (map dumps (j :: l)))
        with (join ", " (dumps j :: map dumps l)).
      destruct (map dumps l) as [|y ys].
      * apply dumps_no_ws.
      * change (join ", " (dumps j :: y :: ys))
          with (dumps j ++ ", " ++ join ", " (y :: ys))%string.
        rewrite append_assoc. apply dumps_no_ws.
  - cbn [dumps]. cbn [append]. rewrite append_assoc.
    cbn [parse_value skip_ws]. change (is_ws "{") with false. cbv iota.
    change (Ascii.eqb "{" "n") with false.
    change (Ascii.eqb "{" "t") with false.
    change (Ascii.eqb "{" "f") with false.
    change (Ascii.eqb "{" dquote) with false.
    change (Ascii.eqb "{" "[") with false.
    change (Ascii.eqb "{" "{") with true. cbv iota.
    destruct d as [|[k j] d]; [reflexivity|].
    fold member.
    assert (Hobj : forall n s,
               parse_object (parse_value fuel) n (member (k, j) ++ s)
               = parse_members (parse_value fuel) n (member (k, j) ++ s)).
    { intros n s0. unfold parse_object, member, quote. reflexivity. }
    change (fun kv : string * json =>
              (quote (fst kv) ++ String ":" (String " " (dumps (snd kv))))%string)
      with member.
    assert (Hshape : exists s0,
               (join ", " (map member ((k, j) :: d)) ++ "}" ++ rest)%string
               = (member (k, j) ++ s0)%string).
    { destruct d as [|kv2 d].
      - eexists. reflexivity.
      - eexists. change (join ", " (map member ((k, j) :: kv2 :: d)))
          with (member (k, j) ++ ", " ++ join ", " (map member (kv2 :: d)))%string.
        rewrite append_assoc. reflexivity. }
    destruct Hshape as [s0 Hs0]. rewrite Hs0, Hobj, <- Hs0.
    rewrite parse_members_join; [reflexivity| | | discriminate |].
    + intros s1. apply parse_value_space.
    + simpl in Hfuel. apply Nat.succ_lt_mono in Hfuel.
      pose proof (depth_members ((k, j) :: d) fuel Hfuel) as Hd.
      rewrite Forall_forall in *. intros x Hx rest0 Hr.
      apply (IH x Hx); [apply Hd; exact Hx | exact Hr].
    + rewrite length_append.
      pose proof (join_count ", " (map member ((k, j) :: d))) as Hc.
      rewrite length_map in Hc.
      assert (Forall (fun x => (1 <= String.length x)%nat)
                     (map member ((k, j) :: d))) as Hall.
      { apply Forall_forall. intros x Hx. apply in_map_iff in Hx
          as [y [<- _]]. unfold member, quote. simpl. lia. }
      specialize (Hc Hall). simpl String.length at 2. lia.
Qed.

Lemma depth_le_length j : (depth j <= String.length (dumps j))%nat.
Proof.
  induction j as [ | b | z | f | s | l IH | d IH ] using json_nested_ind;
    try (simpl; lia).
  - cbn [depth dumps]. cbn [append String.length]. rewrite length_append.
    assert (list_max (map depth l)
            <= String.length (join ", " (map dumps l)))%nat; [|lia].
    apply list_max_le. apply Forall_forall. intros n Hn.
    apply in_map_iff in Hn as [j [<- Hj]].
    rewrite Forall_forall in IH. specialize (IH j Hj).
    pose proof (join_size ", " (map dumps l) (dumps j) (in_map dumps l j Hj)).
    lia.
  - cbn [depth dumps]. cbn [append String.length]. rewrite length_append.
    change (fun kv : string * json =>
              (quote (fst kv) ++ String ":" (String " " (dumps (snd kv))))%string)
      with member.
    assert (list_max (map (fun kv => depth (snd kv)) d)
            <= String.length (join ", " (map member d)))%nat; [|lia].
    apply list_max_le. apply Forall_forall. intros n Hn.
    apply in_map_iff in Hn as [kv [<- Hkv]].
    rewrite Forall_forall in IH. specialize (IH kv Hkv).
    pose proof (join_size ", " (map member d) (member kv)
                          (in_map member d kv Hkv)) as Hsz.
    unfold member at 1 in Hsz. rewrite !length_append in Hsz. lia.
Qed.

(** Decoding the encoding of [j] gives [j]. *)
Theorem loads_dumps j : loads (dumps j) = Some j.
Proof.
  unfold loads.
  rewrite <- (append_empty_r (dumps j)) at 2.
  rewrite parse_value_dumps; [reflexivity| |reflexivity].
  pose proof (depth_le_length j). lia.
Qed.

End JsonTextFacts.

(* ================================================================= *)
(** * Claims about the formatter *)


Section FormatClaims.

Variable isoformat : pyfloat -> string.
Variable json_dumps : json -> string.
Variable json_loads : string -> option json.

Local Abbreviation format := (TraceFormatter_format isoformat json_dumps).
Local Abbreviation output_of := (format_output isoformat).
Local Abbreviation attribute_entry := (attribute_entry isoformat).

(** C6, as the code has it.  For a record at level [TRACE] that has an
    [action] attribute, the object [format] writes holds, beside
    [timestamp], [level] and [message]: under each of the keys [action],
    [event], [trace_id], [start_time], [duration], [error], [error_type]
    and [stacktrace] the attribute of that name when the record has it and
    nothing at all when it has not (never a null placeholder); and also
    every further attribute of the record whose name is not on the list of
    excluded names.  When the record has no such further attribute, the
    keys are exactly the three base keys and the fixed keys present on the
    record.  (The object is written when [json.dumps] encodes its
    values.) *)
Theorem trace_record_fields record message :
  levelname record = "TRACE" ->
  hasattr record "action" = true ->
  getMessage record = Ok message ->
  (encodable (PyDict (output_of record message)) = true ->
   format record
   = Ok (json_dumps (JObject (encoded (output_of record message)))))
  /\ (forall k, dict_get k (encoded (output_of record message))
                = option_map default_str (attribute_entry record message k))
  /\ (forall k, str_in k ACTION_KEYS = true ->
                dict_get k (encoded (output_of record message))
                = option_map default_str (getattr record k))
  /\ ((forall k, hasattr record k = true ->
                 str_in k EXCLUDED_KEYS || str_in k ACTION_KEYS
                 || str_in k ["timestamp"; "level"; "message"] = true) ->
      forall k, dict_mem k (encoded (output_of record message))
                = str_in k ["timestamp"; "level"; "message"]
                  || (str_in k ACTION_KEYS && hasattr record k)).
Proof.
  intros Hlevel Haction Hmsg.
  assert (Hget : forall k, dict_get k (encoded (output_of record message))
                           = option_map default_str
                               (attribute_entry record message k)).
  { intros k. unfold encoded. rewrite dict_get_map.
    rewrite (format_output_trace isoformat record message k Hlevel).
    reflexivity. }
  split; [|split; [|split]].
  - intros Henc. apply format_message; assumption.
  - exact Hget.
  - intros k Hk. rewrite Hget.
    apply action_key_free in Hk as (Hx & Hb & _).
    unfold attribute_entry.
    rewrite (base_output_get isoformat record message k Hb), Hx.
    reflexivity.
  - intros Honly k. rewrite dict_mem_get, Hget.
    unfold attribute_entry.
    destruct (str_in k ["timestamp"; "level"; "message"]) eqn:Hb.
    + unfold str_in in Hb. cbn [existsb] in Hb. unfold base_output.
      cbn [dict_get].
      destruct (String.eqb k "timestamp"); [reflexivity|].
      destruct (String.eqb k "level"); [reflexivity|].
      destruct (String.eqb k "message"); [reflexivity|discriminate].
    + rewrite (base_output_get isoformat record message k Hb).
      cbn [orb]. specialize (Honly k). unfold hasattr in *.
      rewrite dict_mem_get in *. unfold getattr.
      destruct (str_in k EXCLUDED_KEYS) eqn:Hx.
      * destruct (str_in k ACTION_KEYS) eqn:Ha; [|reflexivity].
        apply action_key_free in Ha as (Hx' & _). congruence.
      * destruct (dict_get k (record_dict record)) as [v|] eqn:E.
        -- specialize (Honly eq_refl). rewrite Hb in Honly.
           cbn [orb] in Honly. rewrite orb_false_r in Honly.
           rewrite Honly. reflexivity.
        -- rewrite andb_false_r. reflexivity.
Qed.


End FormatClaims.

Lemma trace_record_fields_witness :
  Sample.format Sample.enter_record
  = Ok (JsonText.dumps
          (JObject
             [("timestamp", JStr "T1700000000e0");
              ("level", JStr "TRACE");
              ("message", JStr "Action: build - compiling mod.x (enter)");
              ("action", JStr "build");
              ("event", JStr "enter");
              ("trace_id", JStr "u");
              ("start_time", JFloat (mkfloat 1700000000 0))])).
Proof.
  pose proof (trace_record_fields
                Sample.isoformat JsonText.dumps Sample.enter_record
                "Action: build - compiling mod.x (enter)"
                eq_refl eq_refl eq_refl) as (H & _).
  exact (H eq_refl).
Defined.

(** C6, a counterexample.  A record at level [TRACE] with an [action]
    attribute and a further attribute [worker]: the output holds the key
    [worker], which is neither a base key nor one of the fixed set. *)
Lemma further_attribute_is_copied :
  levelname Sample.tagged_record = "TRACE"
  /\ hasattr Sample.tagged_record "action" = true
  /\ dict_get "worker"
       (format_output Sample.isoformat Sample.tagged_record
                      "Action: build - compiling mod.x (enter)")
     = Some (PyInt 7)
  /\ str_in "worker" (["timestamp"; "level"; "message"] ++ ACTION_KEYS)%list
     = false.
Proof. repeat split. Qed.



(* ================================================================= *)
(** * Claims about the reader *)

(** *** Validation of fields *)

Lemma ap_returned {A B : Type} (f : validated (A -> B)) (a : validated A) b :
  ap f a = Returned b ->
  exists g x, f = Returned g /\ a = Returned x /\ b = g x.
Proof.
  destruct f as [g|e], a as [x|e']; simpl; intros H; try discriminate.
  injection H as <-. exists g, x. repeat split.
Qed.

Lemma str_field_returned data name s :
  Pydantic.str_field data name = Returned s <->
  dict_get name data = Some (JStr s).
Proof.
  unfold Pydantic.str_field.
  destruct (dict_get name data) as [[]|]; split; intros H;
    try discriminate; congruence.
Qed.

Lemma event_field_returned data name e :
  Pydantic.event_field data name = Returned e <->
  dict_get name data = Some (JStr (event_name e)).
Proof.
  unfold Pydantic.event_field.
  destruct (dict_get name data) as [[ | b | z | f | s | l | d ]|]; split; intros H;
    try discriminate; try (destruct e; discriminate).
  - destruct (String.eqb s "enter") eqn:E1;
      [apply String.eqb_eq in E1; subst s; injection H as <-; reflexivity|].
    destruct (String.eqb s "cancel") eqn:E2;
      [apply String.eqb_eq in E2; subst s; injection H as <-; reflexivity|].
    destruct (String.eqb s "error") eqn:E3;
      [apply String.eqb_eq in E3; subst s; injection H as <-; reflexivity|].
    destruct (String.eqb s "exit") eqn:E4;
      [apply String.eqb_eq in E4; subst s; injection H as <-; reflexivity
      |discriminate].
  - injection H as ->. destruct e; reflexivity.
Qed.

Lemma opt_str_field_attr data name record field :
  dict_get name data = option_map default_str (getattr record name) ->
  opt_attr PyStr record name field ->
  Pydantic.opt_str_field data name = Returned field.
Proof.
  unfold Pydantic.opt_str_field, opt_attr. intros ->.
  destruct field as [x|]; [intros ->; reflexivity|].
  intros [-> | ->]; reflexivity.
Qed.

Lemma opt_float_field_attr str_to_float data name record field :
  dict_get name data = option_map default_str (getattr record name) ->
  opt_attr PyFloat record name field ->
  Pydantic.opt_float_field str_to_float data name = Returned field.
Proof.
  unfold Pydantic.opt_float_field, opt_attr. intros ->.
  destruct field as [x|]; [intros ->; reflexivity|].
  intros [-> | ->]; reflexivity.
Qed.

Lemma reports_errors data {A : Type} (v : validated A) :
  reports data v -> Forall (points_into data) (errors_of v).
Proof. destruct v; simpl; [constructor | intros [_ H]; exact H]. Qed.

Lemma reports_ap data {A B : Type} (f : validated (A -> B)) (a : validated A) :
  reports data f -> reports data a -> reports data (ap f a).
Proof.
  intros Hf Ha. pose proof (reports_errors data f Hf) as Ef.
  pose proof (reports_errors data a Ha) as Ea.
  destruct f as [g|e], a as [x|e']; simpl in *; try exact I.
  - split; [apply Ha | exact Ea].
  - rewrite app_nil_r. exact Hf.
  - split; [|apply Forall_app; split; [apply Hf | apply Ha]].
    destruct Hf as [Hne _]. destruct e; [contradiction|discriminate].
Qed.

Lemma reports_one data name kind v {A : Type} :
  (v = JObject data \/ dict_get name data = Some v) ->
  reports data (@Failed _ A [mkerr name kind v]).
Proof.
  intros H. split; [discriminate|]. constructor; [|constructor].
  exact H.
Qed.

Lemma reports_str_field data name : reports data (Pydantic.str_field data name).
Proof.
  unfold Pydantic.str_field.
  destruct (dict_get name data) as [[]|] eqn:E; try exact I;
    apply reports_one; auto.
Qed.

Lemma reports_opt_str_field data name :
  reports data (Pydantic.opt_str_field data name).
Proof.
  unfold Pydantic.opt_str_field.
  destruct (dict_get name data) as [[]|] eqn:E; try exact I;
    apply reports_one; auto.
Qed.

Lemma reports_none_field data name :
  reports data (Pydantic.none_field data name).
Proof.
  unfold Pydantic.none_field.
  destruct (dict_get name data) as [[]|] eqn:E; try exact I;
    apply reports_one; auto.
Qed.

Lemma reports_event_field data name :
  reports data (Pydantic.event_field data name).
Proof.
  unfold Pydantic.event_field.
  destruct (dict_get name data) as [[ | b | z | f | s | l | d ]|] eqn:E;
    try (apply reports_one; auto).
  repeat match goal with
         | |- context [String.eqb s ?x] => destruct (String.eqb s x)
         end; try exact I.
  apply reports_one; auto.
Qed.

Lemma reports_opt_float_field str_to_float data name :
  reports data (Pydantic.opt_float_field str_to_float data name).
Proof.
  unfold Pydantic.opt_float_field.
  destruct (dict_get name data) as [[ | b | z | f | s | l | d ]|] eqn:E; try exact I;
    try (apply reports_one; auto).
  destruct (str_to_float s); [exact I | apply reports_one; auto].
Qed.

(** The further attributes of the record of a call are the entries of
    its [extra]. *)
Lemma makeRecord_encodable getLevelName now caller c :
  forallb (fun kv => encodable (snd kv)) (lc_extra c) = true ->
  encodable_extra (makeRecord getLevelName now caller c) = true.
Proof. destruct caller as [[m f] l]. intros H. exact H. Qed.

Section ReaderClaims.

Variable isoformat : pyfloat -> string.
Variable json_dumps : json -> string.
Variable json_loads : string -> option json.
Variable str_to_float : string -> option pyfloat.

Local Abbreviation format := (TraceFormatter_format isoformat json_dumps).
Local Abbreviation output_of := (format_output isoformat).
Local Abbreviation read_trace_file :=
  (read_trace_file json_loads str_to_float).
Local Abbreviation read_lines := (read_lines json_loads str_to_float).
Local Abbreviation line_record := (line_record json_loads str_to_float).
Local Abbreviation carries := (carries isoformat).

(** *** From a log record to its typed record *)

Lemma encoded_base record message :
  dict_get "timestamp" (encoded (output_of record message))
  = Some (JStr (formatTime isoformat record))
  /\ dict_get "level" (encoded (output_of record message))
     = Some (JStr (levelname record))
  /\ dict_get "message" (encoded (output_of record message))
     = Some (JStr message).
Proof.
  unfold encoded. rewrite !dict_get_map.
  rewrite !(format_output_any isoformat record message) by reflexivity.
  repeat split.
Qed.

Lemma encoded_attr record message k :
  str_in k ACTION_KEYS = true ->
  dict_get k (encoded (output_of record message))
  = option_map default_str (getattr record k).
Proof.
  intros Hk. apply action_key_free in Hk as (Hx & Hb & Hm).
  unfold encoded. rewrite dict_get_map.
  rewrite (format_output_any isoformat record message k Hm).
  unfold attribute_entry.
  rewrite (base_output_get isoformat record message k Hb), Hx. reflexivity.
Qed.

Lemma carried_record record t text :
  carries record t ->
  getMessage record = Ok text ->
  trace_record str_to_float (encoded (output_of record text)) = Returned t.
Proof.
  intros Hc Hmsg. set (data := encoded (output_of record text)).
  destruct (encoded_base record text) as (Hts & Hlv & Hms).
  fold data in Hts, Hlv, Hms.
  apply str_field_returned in Hts, Hlv, Hms.
  unfold trace_record. rewrite dict_mem_get.
  unfold data at 1. rewrite (encoded_attr record text "action" eq_refl).
  fold data.
  destruct t as [[[ts lv ms]] | [[ts lv ms] ac ev ti st du er et sk]];
    cbn [carries carries_base simple_base action_base timestamp level
         SimpleTraceRecord_init action event trace_id start_time duration
         error error_type stacktrace] in Hc.
  - destruct Hc as ((Ets & Elv & Ems) & Hno).
    unfold hasattr in Hno. rewrite dict_mem_get in Hno. unfold getattr.
    destruct (dict_get "action" (record_dict record)) eqn:E; [discriminate|].
    cbn [option_map]. unfold SimpleTraceRecord_init.
    rewrite Hts, Hlv, Hms. unfold Pydantic.none_field.
    unfold data at 1. rewrite (encoded_attr record text "action" eq_refl).
    unfold getattr. rewrite E. cbn [option_map ap model].
    simpl in Ets, Elv, Ems. rewrite Hmsg in Ems. injection Ems as ->.
    subst ts lv. reflexivity.
  - destruct Hc as ((Ets & Elv & Ems) & Hac & Hev & Hti & Hst & Hdu
                    & Her & Het & Hsk).
    rewrite Hac. cbn [option_map default_str].
    unfold ActionTraceRecord_init.
    rewrite Hts, Hlv, Hms.
    assert (Pydantic.str_field data "action" = Returned ac) as ->.
    { apply str_field_returned. unfold data.
      rewrite (encoded_attr record text "action" eq_refl), Hac.
      reflexivity. }
    assert (Pydantic.event_field data "event" = Returned ev) as ->.
    { apply event_field_returned. unfold data.
      rewrite (encoded_attr record text "event" eq_refl), Hev.
      reflexivity. }
    assert (Pydantic.str_field data "trace_id" = Returned ti) as ->.
    { apply str_field_returned. unfold data.
      rewrite (encoded_attr record text "trace_id" eq_refl), Hti.
      reflexivity. }
    rewrite (opt_float_field_attr str_to_float data "start_time" record st
               (encoded_attr record text "start_time" eq_refl) Hst).
    rewrite (opt_float_field_attr str_to_float data "duration" record du
               (encoded_attr record text "duration" eq_refl) Hdu).
    rewrite (opt_str_field_attr data "error" record er
               (encoded_attr record text "error" eq_refl) Her).
    rewrite (opt_str_field_attr data "error_type" record et
               (encoded_attr record text "error_type" eq_refl) Het).
    rewrite (opt_str_field_attr data "stacktrace" record sk
               (encoded_attr record text "stacktrace" eq_refl) Hsk).
    cbn [ap model].
    simpl in Ets, Elv, Ems. rewrite Hmsg in Ems. injection Ems as ->.
    subst ts lv. reflexivity.
Qed.

Lemma carried_line record t :
  (forall j, json_loads (json_dumps j) = Some j) ->
  carries record t ->
  encodable_extra record = true ->
  exists line, format record = Ok line
               /\ forall k, line_record line k = Returned t.
Proof.
  intros Hcodec Hc Henc.
  assert (exists text, getMessage record = Ok text) as [text Hmsg].
  { destruct t as [r | r]; destruct Hc as ((_ & _ & Hm) & _);
      eexists; exact Hm. }
  exists (json_dumps (JObject (encoded (output_of record text)))). split.
  - apply format_message; [exact Hmsg|].
    apply format_output_encodable. exact Henc.
  - intros k. unfold line_record, reader_read. rewrite Hcodec.
    apply carried_record; assumption.
Qed.

(** Any line [format] returns for the log record of a typed record reads
    back as that typed record. *)
Lemma carried_format record t line :
  (forall j, json_loads (json_dumps j) = Some j) ->
  carries record t ->
  format record = Ok line ->
  forall k, line_record line k = Returned t.
Proof.
  intros Hcodec Hc Hline k.
  apply format_returns in Hline as (text & Hmsg & _ & ->).
  unfold line_record, reader_read. rewrite Hcodec.
  apply carried_record; assumption.
Qed.

(** *** The loop *)

Lemma read_lines_step line rest n acc :
  read_lines (line :: rest) n acc
  = match line_record line n with
    | Failed e => Failed e
    | Returned r => read_lines rest (S n) (acc ++ [r])
    end.
Proof.
  cbn [read_lines]. unfold line_record.
  destruct (reader_read json_loads line n); [|reflexivity].
  destruct (trace_record str_to_float a); reflexivity.
Qed.

Lemma line_record_lineno line n r :
  line_record line n = Returned r -> forall k, line_record line k = Returned r.
Proof.
  unfold line_record, reader_read. intros H k.
  destruct (json_loads line) as [[]|]; try discriminate; exact H.
Qed.

Lemma init_action_reports trace e :
  ActionTraceRecord_init str_to_float trace = Failed e ->
  exists errors, e = ValidationError "ActionTraceRecord" errors
                 /\ errors <> [] /\ Forall (points_into trace) errors.
Proof.
  unfold ActionTraceRecord_init.
  match goal with |- model _ ?v = _ -> _ =>
    assert (reports trace v) as Hr
      by (repeat apply reports_ap;
          first [ exact I | apply reports_str_field
                | apply reports_event_field | apply reports_opt_str_field
                | apply reports_opt_float_field ]);
    destruct v as [a | errors]
  end; [discriminate|].
  intros H. injection H as <-. exists errors. split; [reflexivity|exact Hr].
Qed.

Lemma init_simple_reports trace e :
  SimpleTraceRecord_init trace = Failed e ->
  exists errors, e = ValidationError "SimpleTraceRecord" errors
                 /\ errors <> [] /\ Forall (points_into trace) errors.
Proof.
  unfold SimpleTraceRecord_init.
  match goal with |- model _ ?v = _ -> _ =>
    assert (reports trace v) as Hr
      by (repeat apply reports_ap;
          first [ exact I | apply reports_str_field
                | apply reports_none_field ]);
    destruct v as [a | errors]
  end; [discriminate|].
  intros H. injection H as <-. exists errors. split; [reflexivity|exact Hr].
Qed.

Lemma line_record_identifies line n e :
  line_record line n = Failed e -> identifies json_loads e line n.
Proof.
  unfold line_record, reader_read, trace_record.
  destruct (json_loads line) as [[ | b | z | f | s0 | l | trace ]|] eqn:E;
    try (intros H; injection H as <-; split; reflexivity).
  destruct (dict_mem "action" trace).
  - destruct (ActionTraceRecord_init str_to_float trace) eqn:Ei;
      [discriminate|].
    intros H. injection H as <-.
    apply init_action_reports in Ei as (errors & -> & Hne & Hall).
    split; [exact Hne|]. exists trace. split; [exact E | exact Hall].
  - destruct (SimpleTraceRecord_init trace) eqn:Ei; [discriminate|].
    intros H. injection H as <-.
    apply init_simple_reports in Ei as (errors & -> & Hne & Hall).
    split; [exact Hne|]. exists trace. split; [exact E | exact Hall].
Qed.

Lemma read_lines_spec lines : forall n acc,
  match read_lines lines n acc with
  | Returned records =>
      exists rs, records = (acc ++ rs)%list
                 /\ Forall2 (fun line r =>
                               forall k, line_record line k = Returned r)
                            lines rs
  | Failed e =>
      exists before line after,
        lines = (before ++ line :: after)%list
        /\ Forall (fun l => exists r, forall k, line_record l k = Returned r)
                  before
        /\ line_record line (n + length before) = Failed e
        /\ identifies json_loads e line (n + length before)
  end.
Proof.
  induction lines as [|line rest IH]; intros n acc.
  - cbn [read_lines]. exists []. split; [symmetry; apply app_nil_r|].
    constructor.
  - rewrite read_lines_step.
    destruct (line_record line n) as [r|e] eqn:E.
    + specialize (IH (S n) (acc ++ [r])%list).
      destruct (read_lines rest (S n) (acc ++ [r])) as [records|e].
      * destruct IH as (rs & -> & Hall). exists (r :: rs). split.
        -- rewrite <- app_assoc. reflexivity.
        -- constructor; [|exact Hall]. apply (line_record_lineno line n r E).
      * destruct IH as (before & bad & after & -> & Hbefore & Hbad & Hid).
        exists (line :: before), bad, after. cbn [length].
        rewrite Nat.add_succ_r. repeat split; try assumption.
        constructor; [|exact Hbefore].
        exists r. apply (line_record_lineno line n r E).
    + exists [], line, rest. cbn [length]. rewrite Nat.add_0_r.
      repeat split; try assumption; [constructor|].
      apply line_record_identifies. exact E.
Qed.

(** *** What a validated record says about its line *)

Lemma model_returned {A : Type} name (v : validated A) a :
  model name v = Returned a -> v = Returned a.
Proof. destruct v; simpl; congruence. Qed.

Lemma init_action_fields trace a :
  ActionTraceRecord_init str_to_float trace = Returned a ->
  dict_get "timestamp" trace = Some (JStr (timestamp (action_base a)))
  /\ dict_get "level" trace = Some (JStr (level (action_base a)))
  /\ dict_get "message" trace = Some (JStr (message (action_base a)))
  /\ dict_get "action" trace = Some (JStr (action a))
  /\ dict_get "event" trace = Some (JStr (event_name (event a)))
  /\ dict_get "trace_id" trace = Some (JStr (trace_id a)).
Proof.
  unfold ActionTraceRecord_init. intros H. apply model_returned in H.
  apply ap_returned in H as (g11 & sk & H & _ & ->).
  apply ap_returned in H as (g10 & et & H & _ & ->).
  apply ap_returned in H as (g9 & er & H & _ & ->).
  apply ap_returned in H as (g8 & du & H & _ & ->).
  apply ap_returned in H as (g7 & st & H & _ & ->).
  apply ap_returned in H as (g6 & ti & H & Hti & ->).
  apply ap_returned in H as (g5 & ev & H & Hev & ->).
  apply ap_returned in H as (g4 & ac & H & Hac & ->).
  apply ap_returned in H as (g3 & ms & H & Hms & ->).
  apply ap_returned in H as (g2 & lv & H & Hlv & ->).
  apply ap_returned in H as (g1 & ts & H & Hts & ->).
  injection H as <-. cbn [action_base action event trace_id timestamp level
                          message].
  apply str_field_returned in Hti, Hac, Hms, Hlv, Hts.
  apply event_field_returned in Hev. repeat split; assumption.
Qed.

Lemma init_simple_fields trace r :
  SimpleTraceRecord_init trace = Returned r ->
  dict_get "timestamp" trace = Some (JStr (timestamp (simple_base r)))
  /\ dict_get "level" trace = Some (JStr (level (simple_base r)))
  /\ dict_get "message" trace = Some (JStr (message (simple_base r))).
Proof.
  unfold SimpleTraceRecord_init. intros H. apply model_returned in H.
  apply ap_returned in H as (g4 & u & H & _ & ->).
  apply ap_returned in H as (g3 & ms & H & Hms & ->).
  apply ap_returned in H as (g2 & lv & H & Hlv & ->).
  apply ap_returned in H as (g1 & ts & H & Hts & ->).
  injection H as <-. cbn [simple_base timestamp level message].
  apply str_field_returned in Hms, Hlv, Hts. repeat split; assumption.
Qed.

(** C4.  Each decoded line becomes an [ActionTraceRecord] when it has the
    key [action], and then it has string fields [timestamp], [level],
    [message], [action] and [trace_id] and an [event] among [enter],
    [exit], [cancel] and [error]; otherwise it becomes a
    [SimpleTraceRecord].  The read returns one record per line, in the
    order of the lines, when every line decodes and validates; and
    otherwise it fails as a whole, with the error of the first line that
    does not, which names that line or its content. *)
Theorem read_is_all_or_nothing file :
  (forall trace r,
      trace_record str_to_float trace = Returned r ->
      if dict_mem "action" trace then
        exists a, r = Action a
                  /\ ActionTraceRecord_init str_to_float trace = Returned a
                  /\ dict_get "action" trace = Some (JStr (action a))
                  /\ dict_get "event" trace
                     = Some (JStr (event_name (event a)))
                  /\ dict_get "trace_id" trace = Some (JStr (trace_id a))
                  /\ dict_get "timestamp" trace
                     = Some (JStr (timestamp (action_base a)))
                  /\ dict_get "level" trace
                     = Some (JStr (level (action_base a)))
                  /\ dict_get "message" trace
                     = Some (JStr (message (action_base a)))
      else
        exists s, r = Simple s
                  /\ SimpleTraceRecord_init trace = Returned s)
  /\ match read_trace_file file with
     | Returned records =>
         Forall2 (fun line r => forall k, line_record line k = Returned r)
                 file records
         /\ length records = length file
     | Failed e =>
         exists before line after,
           file = (before ++ line :: after)%list
           /\ Forall (fun l => exists r,
                          forall k, line_record l k = Returned r) before
           /\ line_record line (S (length before)) = Failed e
           /\ identifies json_loads e line (S (length before))
     end.
Proof.
  split.
  - intros trace r. unfold trace_record.
    destruct (dict_mem "action" trace).
    + destruct (ActionTraceRecord_init str_to_float trace) as [a|e] eqn:E;
        [|discriminate].
      intros H. injection H as <-. exists a.
      destruct (init_action_fields trace a E) as (Hts & Hlv & Hms & Hac & Hev & Hti).
      repeat split; assumption.
    + destruct (SimpleTraceRecord_init trace) as [s0|e] eqn:E; [|discriminate].
      intros H. injection H as <-. exists s0. split; reflexivity.
  - unfold read_trace_file.
    pose proof (read_lines_spec file 1 []) as H.
    destruct (read_lines file 1 []) as [records|e].
    + destruct H as (rs & -> & Hall). cbn [app]. split; [exact Hall|].
      symmetry. apply (Forall2_length Hall).
    + exact H.
Qed.

(** C3.  Take any sequence of typed records, simple and action ones in any
    mix, and for each of them a log record that carries it.  Whatever
    lines [format] returns for the log records, [read_trace_file] on these
    lines returns the typed records themselves: as many, with the same
    fields, in the same order.  And [format] does return a line for every
    log record when [json.dumps] encodes their further attributes. *)
Theorem round_trip records originals :
  (forall j, json_loads (json_dumps j) = Some j) ->
  Forall2 carries records originals ->
  (forall lines,
      Forall2 (fun record line => format record = Ok line) records lines ->
      read_trace_file lines = Returned originals)
  /\ (Forall (fun record => encodable_extra record = true) records ->
      exists lines,
        Forall2 (fun record line => format record = Ok line) records lines
        /\ read_trace_file lines = Returned originals)
  /\ length originals = length records.
Proof.
  intros Hcodec Hall.
  assert (Hback : forall lines,
             Forall2 (fun record line => format record = Ok line)
                     records lines ->
             read_trace_file lines = Returned originals).
  { intros lines Hfmt.
    assert (Hread : Forall2 (fun line r =>
                               forall k, line_record line k = Returned r)
                            lines originals).
    { revert lines Hfmt.
      induction Hall as [|record t records originals Hc _ IH];
        intros lines Hfmt; inversion Hfmt as [|? line ? rest Hline Hrest];
        subst; constructor.
      - apply (carried_format record t line Hcodec Hc Hline).
      - apply IH. exact Hrest. }
    unfold read_trace_file.
    assert (forall n acc,
               read_lines lines n acc = Returned (acc ++ originals)%list)
      as Hgen.
    { clear Hfmt Hall. induction Hread as [|line r lines originals Hr _ IH];
        intros n acc.
      - cbn [read_lines]. rewrite app_nil_r. reflexivity.
      - rewrite read_lines_step, (Hr n), IH, <- app_assoc. reflexivity. }
    apply (Hgen 1%nat []). }
  split; [exact Hback|]. split.
  - intros Henc.
    assert (exists lines,
               Forall2 (fun record line => format record = Ok line)
                       records lines) as (lines & Hfmt).
    { clear Hback.
      induction Hall as [|record t records originals Hc Hall IH].
      - exists []. constructor.
      - inversion Henc as [|? ? Henc1 Henc2]; subst.
        destruct (IH Henc2) as (lines & Hfmt).
        destruct (carried_line record t Hcodec Hc Henc1)
          as (line & Hline & _).
        exists (line :: lines). constructor; assumption. }
    exists lines. split; [exact Hfmt | apply Hback; exact Hfmt].
  - symmetry. apply (Forall2_length Hall).
Qed.

(** *** From a scope to the trace file and back *)

Section ScopeRecords.

Variable getLevelName : Z -> string.
Variable TRACE : Z.
Variable now : pyfloat.
Variable caller : option string * option string * option Z.
Variables action text id : string.

Local Abbreviation record_of := (makeRecord getLevelName now caller).
Local Abbreviation trace_of :=
  (scope_trace (isoformat now) (getLevelName TRACE) action text).

Ltac carried :=
  destruct caller as [[[m|] [f|]] [l|]];
  repeat split; try reflexivity; left; reflexivity.

Lemma enter_call_carried t :
  carries (record_of (enter_call TRACE action text id t))
          (trace_of "enter" Enter id (Some t) None None None None).
Proof. carried. Qed.

Lemma exit_call_carried d :
  carries (record_of (exit_call TRACE action text id d))
          (trace_of "exit" Exit id None (Some d) None None None).
Proof. carried. Qed.



(** The two records of a scope that completed, formatted and read back:
    an [enter] record with the start time and an [exit] record with the
    duration, under one trace id. *)
Lemma completed_scope_reads_back t d :
  (forall j, json_loads (json_dumps j) = Some j) ->
  exists lines,
    Forall2 (fun record line => format record = Ok line)
            [record_of (enter_call TRACE action text id t);
             record_of (exit_call TRACE action text id d)]
            lines
    /\ read_trace_file lines
       = Returned [trace_of "enter" Enter id (Some t) None None None None;
                   trace_of "exit" Exit id None (Some d) None None None].
Proof.
  intros Hcodec.
  destruct (carried_line _ _ Hcodec (enter_call_carried t)
              (makeRecord_encodable
                 _ _ _ (enter_call TRACE action text id t) eq_refl))
    as (line1 & Hfmt1 & Hread1).
  destruct (carried_line _ _ Hcodec (exit_call_carried d)
              (makeRecord_encodable
                 _ _ _ (exit_call TRACE action text id d) eq_refl))
    as (line2 & Hfmt2 & Hread2).
  exists [line1; line2]. split.
  - repeat constructor; assumption.
  - unfold read_trace_file.
    rewrite read_lines_step, Hread1, read_lines_step, Hread2. reflexivity.
Qed.

End ScopeRecords.

End ReaderClaims.

Lemma read_is_all_or_nothing_witness :
  exists a,
    trace_record Sample.str_to_float Sample.exit_mapping = Returned (Action a)
    /\ dict_get "event" Sample.exit_mapping
       = Some (JStr (event_name (event a))).
Proof.
  destruct (read_is_all_or_nothing JsonText.loads Sample.str_to_float [])
    as [H _].
  specialize (H Sample.exit_mapping
                (Action (mkaction
                           (mkbase "T1700000003e0" "TRACE"
                                   "Action: build - compiling mod.x (exit)")
                           "build" Exit "u" None (Some (mkfloat 3 (-3)))
                           None None None))
                eq_refl).
  cbv beta iota delta [dict_mem dict_get Sample.exit_mapping] in H.
  simpl in H. destruct H as (a & Ha & _ & _ & Hev & _).
  exists a. split; [rewrite <- Ha; reflexivity | exact Hev].
Defined.

Lemma round_trip_witness :
  exists lines,
    Forall2 (fun record line => Sample.format record = Ok line)
            [Sample.enter_record; Sample.object_record] lines
    /\ Sample.read lines
       = Returned [Sample.enter_trace; Sample.object_trace].
Proof.
  destruct (round_trip Sample.isoformat JsonText.dumps JsonText.loads
                       Sample.str_to_float
                       [Sample.enter_record; Sample.object_record]
                       [Sample.enter_trace; Sample.object_trace]
                       JsonTextFacts.loads_dumps)
    as (_ & H & _).
  - repeat constructor; try reflexivity; left; reflexivity.
  - apply H. repeat constructor.
Defined.

(** *** The reader on sample files *)

(** A line whose [event] is not one of the four names fails the read. *)
Example unknown_event_is_rejected :
  Sample.read
    [JsonText.dumps
       (JObject [("timestamp", JStr "T1700000003e0"); ("level", JStr "TRACE");
                 ("message", JStr "paused"); ("action", JStr "build");
                 ("event", JStr "pause"); ("trace_id", JStr "u")])]
  = Failed (ValidationError "ActionTraceRecord"
              [mkerr "event" "literal_error" (JStr "pause")]).
Proof. reflexivity. Qed.

(** A good line followed by a line that is not JSON: the read fails on
    line 2 and returns nothing of line 1. *)
Example second_line_fails_the_read :
  Sample.read
    [JsonText.dumps
       (JObject [("timestamp", JStr "T1700000003e0"); ("level", JStr "INFO");
                 ("message", JStr "started")]);
     "{not json"]
  = Failed (InvalidLineError "line contains invalid json" "{not json" 2).
Proof. reflexivity. Qed.

(** An attribute [action] that is [None] makes the line an action record,
    which then fails validation. *)
Example null_action_is_not_simple :
  Sample.read
    [JsonText.dumps
       (JObject [("timestamp", JStr "T1700000003e0"); ("level", JStr "INFO");
                 ("message", JStr "started"); ("action", JNull)])]
  = Failed (ValidationError "ActionTraceRecord"
              [mkerr "action" "string_type" JNull;
               mkerr "event" "missing"
                     (JObject [("timestamp", JStr "T1700000003e0");
                               ("level", JStr "INFO");
                               ("message", JStr "started");
                               ("action", JNull)]);
               mkerr "trace_id" "missing"
                     (JObject [("timestamp", JStr "T1700000003e0");
                               ("level", JStr "INFO");
                               ("message", JStr "started");
                               ("action", JNull)])]).
Proof. reflexivity. Qed.

(* ================================================================= *)
(** * Further properties of the action scope *)




Section NestedScopes.

Variable uuid_src : nat -> string.
Variable monotonic_src : nat -> pyfloat.
Variable time_src : nat -> pyfloat.
Variable format_exc : exn -> string.
Variable TRACE : Z.

Local Abbreviation scope :=
  (trace_action uuid_src monotonic_src time_src format_exc TRACE).
Local Abbreviation elapsed := (elapsed monotonic_src).


End NestedScopes.

(** Comparing and subtracting floats at any common smaller exponent. *)
Lemma rescale_down f e e0 :
  e0 <= e <= exponent10 f -> rescale f e0 = rescale f e * 10 ^ (e - e0).
Proof.
  intros H. unfold rescale. rewrite <- Z.mul_assoc, <- Z.pow_add_r by lia.
  do 2 f_equal. lia.
Qed.

Lemma fleb_at a b e0 :
  e0 <= exponent10 a -> e0 <= exponent10 b ->
  fleb a b = (rescale a e0 <=? rescale b e0).
Proof.
  intros Ha Hb. unfold fleb. cbv zeta.
  set (e := Z.min (exponent10 a) (exponent10 b)).
  rewrite (rescale_down a e e0), (rescale_down b e e0) by (subst e; lia).
  assert (0 < 10 ^ (e - e0)) by (apply Z.pow_pos_nonneg; subst e; lia).
  destruct (Z.leb_spec (rescale a e) (rescale b e));
    symmetry; [apply Z.leb_le | apply Z.leb_gt]; nia.
Qed.

Lemma rescale_fsub a b e0 :
  e0 <= exponent10 a -> e0 <= exponent10 b ->
  rescale (fsub a b) e0 = rescale a e0 - rescale b e0.
Proof.
  intros Ha Hb. unfold fsub. cbv zeta.
  set (e := Z.min (exponent10 a) (exponent10 b)).
  rewrite (rescale_down a e e0), (rescale_down b e e0) by (subst e; lia).
  unfold rescale at 1. cbn [mantissa exponent10]. ring.
Qed.

Lemma fsub_exponent a b :
  exponent10 (fsub a b) = Z.min (exponent10 a) (exponent10 b).
Proof. reflexivity. Qed.

(** A longer interval has the larger difference. *)
Lemma fsub_mono a b c d :
  fleb a c = true -> fleb d b = true -> fleb (fsub a b) (fsub c d) = true.
Proof.
  intros Hac Hdb.
  set (e0 := Z.min (Z.min (exponent10 a) (exponent10 b))
                   (Z.min (exponent10 c) (exponent10 d))).
  rewrite (fleb_at a c e0) in Hac by (subst e0; lia).
  rewrite (fleb_at d b e0) in Hdb by (subst e0; lia).
  rewrite (fleb_at _ _ e0) by (rewrite fsub_exponent; subst e0; lia).
  rewrite !rescale_fsub by (subst e0; lia).
  apply Z.leb_le in Hac, Hdb. apply Z.leb_le. lia.
Qed.

Section NestedRuns.

Variable uuid_src : nat -> string.
Variable monotonic_src : nat -> pyfloat.
Variable time_src : nat -> pyfloat.
Variable format_exc : exn -> string.
Variable TRACE : Z.

Local Abbreviation exec_block :=
  (exec_block uuid_src monotonic_src time_src format_exc TRACE).
Local Abbreviation enters_from := (enters_from uuid_src time_src TRACE).
Local Abbreviation terminals_from :=
  (terminals_from uuid_src monotonic_src format_exc TRACE).
Local Abbreviation entered := (entered uuid_src time_src TRACE).

Lemma terminal_calls_unhandled action fm id d d' r :
  handled r = false ->
  terminal_calls format_exc TRACE action fm id d r
  = terminal_calls format_exc TRACE action fm id d' r.
Proof.
  destruct r as [[]|ex|]; simpl; try discriminate; [|reflexivity].
  unfold isinstance. simpl. destruct (exc_class ex); simpl;
    try discriminate; reflexivity.
Qed.

Lemma terminal_calls_length action fm id d r :
  length (terminal_calls format_exc TRACE action fm id d r)
  = if handled r then 1%nat else 0%nat.
Proof.
  destruct r as [[]|ex|]; simpl; try reflexivity.
  unfold isinstance. simpl. destruct (exc_class ex); reflexivity.
Qed.

Lemma terminals_from_length scopes : forall u n e r,
  length (terminals_from scopes u n e r)
  = if handled r then length scopes else 0%nat.
Proof.
  induction scopes as [|[a m] rest IH]; intros u n e r; simpl.
  - destruct (handled r); reflexivity.
  - rewrite length_app, IH, terminal_calls_length.
    destruct (handled r); lia.
Qed.

Lemma entered_cons a m rest w :
  entered ((a, m) :: rest) w
  = entered rest (drawn w [enter_call TRACE a m (uuid_src (uuid_n w))
                                      (time_src (time_n w))]).
Proof.
  unfold entered, drawn.
  cbn [uuid_n monotonic_n time_n sink length enters_from].
  rewrite <- !app_assoc, !Nat.add_succ_r. reflexivity.
Qed.

(** The run of nested scopes around a block that finishes with [r]. *)
Lemma nested_run inner r scopes : forall w w2,
  exec_block inner (entered scopes w) = (r, w2) ->
  let tail := terminals_from scopes (uuid_n w) (monotonic_n w)
                             (monotonic_n w2) r in
  exec_block (nested scopes inner) w
  = (r, mkworld (uuid_n w2) (monotonic_n w2 + length tail) (time_n w2)
                (sink w2 ++ tail)%list).
Proof.
  induction scopes as [|[a m] rest IH]; intros w w2 Hin tail; subst tail.
  - cbn [nested terminals_from length].
    rewrite Nat.add_0_r, app_nil_r.
    destruct w as [u n t s0], w2 as [u2 n2 t2 s2]. unfold entered in Hin.
    cbn [uuid_n monotonic_n time_n sink length enters_from] in Hin |- *.
    rewrite !Nat.add_0_r, app_nil_r in Hin. exact Hin.
  - rewrite entered_cons in Hin. specialize (IH _ _ Hin). cbv zeta in IH.
    cbn [nested exec_block]. unfold bind at 1.
    change (exec uuid_src monotonic_src time_src format_exc TRACE
                 (SWith a m [] [] (nested rest inner)))
      with (trace_action uuid_src monotonic_src time_src format_exc TRACE
                         a m [] [] (exec_block (nested rest inner))).
    rewrite (scope_run uuid_src monotonic_src time_src format_exc TRACE
               a m [] [] _ w m r _ eq_refl IH).
    cbv zeta. unfold elapsed.
    cbn [uuid_n monotonic_n time_n sink drawn terminals_from].
    rewrite !length_app, !terminals_from_length, !terminal_calls_length.
    assert (forall W, (match r with
                       | Ok a0 => (fun _ : unit => ret tt) a0 W
                       | Raise e => (Raise e, W)
                       | Unmodelled => (Unmodelled, W)
                       end) = (r, W)) as Hr
      by (intros W; destruct r as [[]|ex|]; reflexivity).
    rewrite Hr.
    destruct (handled r) eqn:Hh.
    + f_equal. f_equal; try lia.
      replace (length rest + monotonic_n w2)%nat
        with (monotonic_n w2 + length rest)%nat by lia.
      rewrite <- !app_assoc. reflexivity.
    + rewrite (terminal_calls_unhandled a m (uuid_src (uuid_n w))
                 _ (fsub (monotonic_src (monotonic_n w2 + length rest)%nat)
                         (monotonic_src (monotonic_n w)))
                 r Hh).
      f_equal. f_equal; try lia.
      rewrite <- !app_assoc. reflexivity.
Qed.


Lemma enters_from_ids scopes : forall u t,
  map call_trace_id (enters_from scopes u t)
  = map (fun i => Some (uuid_src (u + i)%nat)) (seq 0 (length scopes)).
Proof.
  induction scopes as [|[a m] rest IH]; intros u t; [reflexivity|].
  cbn [length seq map enters_from]. rewrite IH, <- seq_shift, map_map.
  rewrite Nat.add_0_r. f_equal.
  apply map_ext. intros i. rewrite Nat.add_succ_r. reflexivity.
Qed.


Lemma terminals_from_ids r scopes : forall u n e t,
  handled r = true ->
  map call_trace_id (terminals_from scopes u n e r)
  = rev (map call_trace_id (enters_from scopes u t)).
Proof.
  induction scopes as [|[a m] rest IH]; intros u n e t Hh; [reflexivity|].
  cbn [terminals_from enters_from map rev].
  rewrite map_app, (IH _ _ _ (S t) Hh).
  destruct (terminal_calls_shape format_exc TRACE a m (uuid_src u)
              (fsub (monotonic_src (e + length rest)%nat) (monotonic_src n))
              r) as [[_ Hn]|(c & -> & _ & _ & _ & Hid & _)];
    [congruence|].
  cbn [map]. rewrite Hid. reflexivity.
Qed.


Lemma call_duration_terminal action fm id d r t :
  terminal_calls format_exc TRACE action fm id d r = [t] ->
  call_duration t = Some d.
Proof.
  intros H.
  destruct (terminal_calls_shape format_exc TRACE action fm id d r)
    as [[Hn _]|(c & Hc & _ & _ & _ & _ & Hd)]; cbv zeta in *.
  - rewrite Hn in H. discriminate.
  - rewrite Hc in H. injection H as <-. exact Hd.
Qed.

(** The durations of the terminal records of nested scopes are differences
    of clock readings: no scope started before the outermost one did, and
    none ended after it; an enclosing scope lasted at least as long as
    the scopes inside it. *)
Lemma terminals_from_durations r scopes :
  never_goes_back monotonic_src ->
  handled r = true ->
  forall u n e,
  exists ds,
    map call_duration (terminals_from scopes u n e r) = map Some ds
    /\ Forall (fun d => exists i j,
                  d = fsub (monotonic_src j) (monotonic_src i)
                  /\ (n <= i)%nat /\ (j < e + length scopes)%nat) ds
    /\ StronglySorted (fun d d' => fleb d d' = true) ds.
Proof.
  intros Hclock Hh.
  induction scopes as [|[a m] rest IH]; intros u n e.
  - exists []. repeat split; constructor.
  - destruct (IH (S u) (S n) e) as (ds & Hmap & Hall & Hsorted).
    cbn [terminals_from].
    destruct (terminal_calls_shape format_exc TRACE a m (uuid_src u)
                (fsub (monotonic_src (e + length rest)%nat)
                      (monotonic_src n)) r)
      as [[_ Hn]|(c & Hc & _ & _ & _ & _ & Hd)]; [congruence|].
    cbv zeta in Hc. rewrite Hc.
    exists (ds ++ [fsub (monotonic_src (e + length rest)%nat)
                        (monotonic_src n)])%list.
    split; [|split].
    + rewrite !map_app, Hmap. cbn [map]. rewrite Hd. reflexivity.
    + apply Forall_app. split.
      * eapply Forall_impl; [|exact Hall].
        intros d (i & j & -> & Hi & Hj). exists i, j.
        cbn [length]. repeat split; lia.
      * constructor; [|constructor].
        exists n, (e + length rest)%nat. cbn [length].
        repeat split; lia.
    + clear Hmap Hc Hd c. induction Hsorted as [|d ds' Hs IHs Hd].
      * repeat constructor.
      * cbn [app]. inversion Hall as [|? ? Hd0 Hall']; subst.
        constructor.
        -- apply IHs. exact Hall'.
        -- apply Forall_app. split; [exact Hd|].
           constructor; [|constructor].
           destruct Hd0 as (i & j & -> & Hi & Hj).
           apply fsub_mono; apply Hclock; lia.
Qed.


(** X3.  An exception outside the three handled classes crosses nested
    scopes without any terminal record: when it reaches the caller, the
    scopes have logged their [enter] records and nothing else, and the
    monotonic clock has not been read again. *)
Theorem unhandled_exception_leaves_enters_only ex scopes w :
  handled (Raise ex) = false ->
  exec_block (nested scopes [SRaise ex]) w = (Raise ex, entered scopes w).
Proof.
  intros Hh.
  rewrite (nested_run [SRaise ex] (Raise ex) scopes w (entered scopes w)
                      eq_refl).
  cbv zeta.
  assert (terminals_from scopes (uuid_n w) (monotonic_n w)
                         (monotonic_n (entered scopes w)) (Raise ex) = [])
    as ->.
  { apply length_zero_iff_nil. rewrite terminals_from_length, Hh.
    reflexivity. }
  cbn [length]. rewrite Nat.add_0_r, app_nil_r. reflexivity.
Qed.

(** X4.  When the monotonic clock never goes back and the block inside
    nested scopes finishes with an outcome the scopes handle, the scopes
    log their terminal records innermost first, and the durations in
    these records never decrease from one record to the next: an
    enclosing scope lasted at least as long as every scope inside it. *)
Theorem enclosing_scope_lasts_longer inner r scopes w w2 :
  never_goes_back monotonic_src ->
  handled r = true ->
  exec_block inner (entered scopes w) = (r, w2) ->
  exists w' terminals durations,
    exec_block (nested scopes inner) w = (r, w')
    /\ sink w' = (sink w2 ++ terminals)%list
    /\ map call_trace_id terminals
       = rev (map (fun i => Some (uuid_src (uuid_n w + i)%nat))
                  (seq 0 (length scopes)))
    /\ map call_duration terminals = map Some durations
    /\ StronglySorted (fun d d' => fleb d d' = true) durations.
Proof.
  intros Hclock Hh Hin. rewrite (nested_run inner r scopes w w2 Hin).
  cbv zeta.
  destruct (terminals_from_durations r scopes Hclock Hh
              (uuid_n w) (monotonic_n w) (monotonic_n w2))
    as (ds & Hmap & _ & Hsorted).
  eexists _, _, ds.
  split; [reflexivity|]. split; [reflexivity|].
  split; [|split; [exact Hmap | exact Hsorted]].
  rewrite (terminals_from_ids r scopes _ _ _ (time_n w) Hh), enters_from_ids.
  reflexivity.
Qed.

End NestedRuns.



Lemma unhandled_exception_leaves_enters_only_witness :
  map call_event
      (sink (snd (exec_block Sample.uuid_src Sample.monotonic_src
                             Sample.time_src Sample.format_exc Sample.TRACE
                             (nested [("build", "compiling");
                                      ("link", "linking")]
                                     [SRaise Sample.system_exit])
                             Sample.start)))
  = [Some "enter"; Some "enter"].
Proof.
  rewrite (unhandled_exception_leaves_enters_only
             Sample.uuid_src Sample.monotonic_src Sample.time_src
             Sample.format_exc Sample.TRACE Sample.system_exit
             [("build", "compiling"); ("link", "linking")] Sample.start
             eq_refl).
  reflexivity.
Defined.

Lemma enclosing_scope_lasts_longer_witness :
  exists w' terminals durations,
    exec_block Sample.uuid_src Sample.monotonic_src Sample.time_src
               Sample.format_exc Sample.TRACE
               (nested [("build", "compiling"); ("link", "linking")]
                       [STraceMessage "link" "pass %s" [PyInt 1]])
               Sample.start
    = (Ok tt, w')
    /\ length (sink w') = (3 + length terminals)%nat
    /\ map call_trace_id terminals = [Some "xu"; Some "u"]
    /\ map call_duration terminals = map Some durations
    /\ StronglySorted (fun d d' => fleb d d' = true) durations.
Proof.
  destruct (enclosing_scope_lasts_longer
              Sample.uuid_src Sample.monotonic_src Sample.time_src
              Sample.format_exc Sample.TRACE
              [STraceMessage "link" "pass %s" [PyInt 1]] (Ok tt)
              [("build", "compiling"); ("link", "linking")] Sample.start _
              sample_clock_never_goes_back eq_refl eq_refl)
    as (w' & terminals & durations & Hrun & Hsink & Hids & Hd & Hs).
  exists w', terminals, durations.
  split; [exact Hrun|]. split; [rewrite Hsink, length_app; reflexivity|].
  split; [exact Hids|]. split; [exact Hd | exact Hs].
Defined.

(* ================================================================= *)
(** * From the scope to the trace file and back *)

Section ScopeToFile.

Variable uuid_src : nat -> string.
Variable monotonic_src : nat -> pyfloat.
Variable time_src : nat -> pyfloat.
Variable format_exc : exn -> string.
Variable TRACE : Z.
Variable isoformat : pyfloat -> string.
Variable json_dumps : json -> string.
Variable json_loads : string -> option json.
Variable str_to_float : string -> option pyfloat.
Variable getLevelName : Z -> string.
Variable caller : option string * option string * option Z.

Local Abbreviation scope :=
  (trace_action uuid_src monotonic_src time_src format_exc TRACE).
Local Abbreviation format := (TraceFormatter_format isoformat json_dumps).
Local Abbreviation read_trace_file :=
  (read_trace_file json_loads str_to_float).
Local Abbreviation record_of := (makeRecord getLevelName).


End ScopeToFile.


(* ================================================================= *)
(** * Plain trace messages and ordinary records *)

Lemma makeRecord_attr getLevelName now caller c k :
  str_in k ["msg"; "args"; "levelname"; "module"; "lineno"; "funcName";
            "created"] = false ->
  getattr (makeRecord getLevelName now caller c) k
  = dict_get k (lc_extra c).
Proof.
  intros Hk. unfold str_in in Hk. cbn [existsb] in Hk.
  repeat (apply orb_false_iff in Hk as [? Hk]).
  destruct caller as [[[m|] [f|]] [l|]];
    unfold getattr, record_dict, makeRecord, opt_entry;
    cbn [msg args levelname module lineno funcName created extra option_map
         app dict_get];
    repeat match goal with
           | H : String.eqb k _ = false |- _ => rewrite H; clear H
           end; reflexivity.
Qed.

Section PlainMessages.

Variable TRACE : Z.
Variable isoformat : pyfloat -> string.
Variable json_dumps : json -> string.
Variable json_loads : string -> option json.
Variable str_to_float : string -> option pyfloat.
Variable getLevelName : Z -> string.
Variable caller : option string * option string * option Z.

Local Abbreviation trace_message := (trace_message TRACE).
Local Abbreviation format := (TraceFormatter_format isoformat json_dumps).
Local Abbreviation read_trace_file :=
  (read_trace_file json_loads str_to_float).
Local Abbreviation record_of := (makeRecord getLevelName).

(** X6.  [trace_message] does not render its message: it hands the
    logger the template, with the category in brackets put before it,
    and the arguments as they are, so that a template that does not fit
    its arguments raises nothing at the call.  The message is rendered
    when the record is formatted: [format] raises what the rendering
    raises, and when the rendering succeeds and [json.dumps] encodes the
    entries of [extra], the line reads back as a [SimpleTraceRecord] with
    the rendered message.  (The entries of [extra] have names the logger
    accepts, and none is named [action].) *)
Theorem trace_message_renders_when_formatted
        category text args extra w now :
  (forall j, json_loads (json_dumps j) = Some j) ->
  (forall k, str_in k RESERVED_KEYS = true -> dict_mem k extra = false) ->
  dict_mem "action" extra = false ->
  let c := mklog TRACE ("[" ++ category ++ "] " ++ text) args extra in
  trace_message category text args extra w
  = (Ok tt, mkworld (uuid_n w) (monotonic_n w) (time_n w)
                    (sink w ++ [c])%list)
  /\ match getMessage (record_of now caller c) with
     | Ok rendered =>
         forallb (fun kv => encodable (snd kv)) extra = true ->
         exists line,
           format (record_of now caller c) = Ok line
           /\ read_trace_file [line]
              = Returned [Simple (mksimple (mkbase (isoformat now)
                                                   (getLevelName TRACE)
                                                   rendered))]
     | Raise e => format (record_of now caller c) = Raise e
     | Unmodelled => True
     end.
Proof.
  intros Hcodec _ Hextra c. split; [reflexivity|].
  destruct (getMessage (record_of now caller c)) as [rendered|e|] eqn:Hmsg;
    [| apply format_raises; exact Hmsg | exact I].
  intros Henc.
  destruct (fun H =>
              carried_line isoformat json_dumps json_loads str_to_float
                (record_of now caller c)
                (Simple (mksimple (mkbase (isoformat now)
                                          (getLevelName TRACE) rendered)))
                Hcodec H
                (makeRecord_encodable getLevelName now caller c Henc))
    as (line & Hfmt & Hread).
  { split; [split; [|split]|].
    - destruct caller as [[? ?] ?]. reflexivity.
    - destruct caller as [[? ?] ?]. reflexivity.
    - exact Hmsg.
    - unfold hasattr. rewrite dict_mem_get.
      change (dict_get "action" (record_dict (record_of now caller c)))
        with (getattr (record_of now caller c) "action").
      rewrite makeRecord_attr by reflexivity.
      rewrite dict_mem_get in Hextra. exact Hextra. }
  exists line. split; [exact Hfmt|].
  unfold read_trace_file. rewrite read_lines_step, Hread. reflexivity.
Qed.

End PlainMessages.

Section OrdinaryRecords.

Variable isoformat : pyfloat -> string.
Variable json_dumps : json -> string.

Local Abbreviation format := (TraceFormatter_format isoformat json_dumps).
Local Abbreviation output_of := (format_output isoformat).
Local Abbreviation attribute_entry := (attribute_entry isoformat).

(** X7.  For a record that is not at level [TRACE] and knows the module,
    the function and the line of its call, the object [format] writes
    holds them under the keys [module], [function] and [line], whatever
    further attributes the record has under these names.  Under every
    other key it holds the base entry or the attribute of that name, and
    no standard attribute on the list of excluded names other than
    [module] is ever written.  (The object is written when [json.dumps]
    encodes its values.) *)
Theorem ordinary_record_fields record message m f l :
  levelname record <> "TRACE" ->
  module record = Some m ->
  funcName record = Some f ->
  lineno record = Some l ->
  getMessage record = Ok message ->
  (encodable (PyDict (output_of record message)) = true ->
   format record
   = Ok (json_dumps (JObject (encoded (output_of record message)))))
  /\ dict_get "module" (output_of record message) = Some (PyStr m)
  /\ dict_get "function" (output_of record message) = Some (PyStr f)
  /\ dict_get "line" (output_of record message) = Some (PyInt l)
  /\ (forall k, str_in k ["module"; "function"; "line"] = false ->
                dict_get k (output_of record message)
                = attribute_entry record message k)
  /\ (forall k, str_in k EXCLUDED_KEYS = true -> k <> "module" ->
                dict_get k (output_of record message) = None).
Proof.
  intros Hlevel Hm Hf Hl Hmsg.
  assert (Hout : forall k,
             dict_get k (output_of record message)
             = if String.eqb k "line" then Some (PyInt l)
               else if String.eqb k "function" then Some (PyStr f)
               else if String.eqb k "module" then Some (PyStr m)
               else attribute_entry record message k).
  { intros k. unfold format_output, attribute_entry.
    apply String.eqb_neq in Hlevel. rewrite Hlevel. cbn [negb].
    fold (base_output isoformat record message).
    rewrite copy_extra_get, !copy_attr_get.
    assert (getattr record "lineno" = Some (PyInt l)) as ->
        by (destruct record; cbn in *; subst; reflexivity).
    assert (getattr record "funcName" = Some (PyStr f)) as ->
        by (destruct record; cbn in *; subst; reflexivity).
    assert (getattr record "module" = Some (PyStr m)) as ->
        by (destruct record; cbn in *; subst; reflexivity).
    destruct (String.eqb k "line"); [reflexivity|].
    destruct (String.eqb k "function"); [reflexivity|].
    destruct (String.eqb k "module"); reflexivity. }
  split; [intros Henc; apply format_message; assumption|].
  split; [rewrite Hout; reflexivity|].
  split; [rewrite Hout; reflexivity|].
  split; [rewrite Hout; reflexivity|].
  split.
  - intros k Hk. apply format_output_any. exact Hk.
  - intros k Hx Hne.
    assert (str_in k ["module"; "function"; "line"] = false) as Hk.
    { unfold str_in in *. cbn [existsb EXCLUDED_KEYS] in *.
      apply String.eqb_neq in Hne. rewrite Hne. cbn [orb].
      destruct (String.eqb_spec k "function") as [->|];
        [discriminate Hx|].
      destruct (String.eqb_spec k "line") as [->|]; [discriminate Hx|].
      reflexivity. }
    rewrite (format_output_any isoformat record message k Hk).
    unfold attribute_entry. rewrite Hx.
    rewrite base_output_get; [reflexivity|].
    unfold str_in in *. cbn [existsb EXCLUDED_KEYS] in *.
    destruct (String.eqb_spec k "timestamp") as [->|]; [discriminate Hx|].
    destruct (String.eqb_spec k "level") as [->|]; [discriminate Hx|].
    destruct (String.eqb_spec k "message") as [->|]; [discriminate Hx|].
    reflexivity.
Qed.

End OrdinaryRecords.

Lemma trace_message_renders_when_formatted_witness :
  exists line,
    Sample.format
      (makeRecord Sample.getLevelName (mkfloat 1700000004 0)
                  (Some "cache", Some "lookup", Some 12)
                  (mklog Sample.TRACE "[cache] hit %s" [PyStr "k"] []))
    = Ok line
    /\ Sample.read [line]
       = Returned [Simple (mksimple (mkbase "T1700000004e0" "TRACE"
                                            "[cache] hit k"))].
Proof.
  destruct (trace_message_renders_when_formatted
              Sample.TRACE Sample.isoformat JsonText.dumps JsonText.loads
              Sample.str_to_float Sample.getLevelName
              (Some "cache", Some "lookup", Some 12)
              "cache" "hit %s" [PyStr "k"] [] Sample.start
              (mkfloat 1700000004 0)
              JsonTextFacts.loads_dumps (fun _ _ => eq_refl) eq_refl)
    as [_ H].
  exact (H eq_refl).
Defined.

Lemma ordinary_record_fields_witness :
  dict_get "module"
           (format_output Sample.isoformat Sample.object_record "loaded task")
  = Some (PyStr "eval")
  /\ dict_get "line"
              (format_output Sample.isoformat Sample.object_record
                             "loaded task")
     = Some (PyInt 120)
  /\ dict_get "levelname"
              (format_output Sample.isoformat Sample.object_record
                             "loaded task")
     = None.
Proof.
  destruct (ordinary_record_fields
              Sample.isoformat JsonText.dumps Sample.object_record
              "loaded task" "eval" "run" 120) as (_ & Hm & _ & Hl & _ & Hx).
  - discriminate.
  - reflexivity.
  - reflexivity.
  - reflexivity.
  - reflexivity.
  - split; [exact Hm|]. split; [exact Hl|].
    apply Hx; [reflexivity | discriminate].
Defined.

(* ================================================================= *)
(** * Further properties of the reader *)

Lemma errors_of_ap {A B : Type} (f : validated (A -> B)) (a : validated A) :
  errors_of (ap f a) = (errors_of f ++ errors_of a)%list.
Proof. destruct f, a; reflexivity. Qed.

Lemma model_failed {A : Type} name (v : validated A) :
  errors_of v <> [] ->
  model name v = Failed (ValidationError name (errors_of v)).
Proof. destruct v; simpl; [contradiction | reflexivity]. Qed.

Section ReaderFacts.

Variable json_loads : string -> option json.
Variable str_to_float : string -> option pyfloat.

Local Abbreviation read_trace_file :=
  (read_trace_file json_loads str_to_float).
Local Abbreviation read_lines := (read_lines json_loads str_to_float).
Local Abbreviation line_record := (line_record json_loads str_to_float).
Local Abbreviation trace_record := (trace_record str_to_float).

Lemma line_record_renumber line n e k :
  line_record line n = Failed e ->
  line_record line (k + n) = Failed (renumber k e).
Proof.
  unfold line_record, reader_read, trace_record.
  destruct (json_loads line) as [[ | b | z | f | s0 | l | trace ]|];
    try (intros H; injection H as <-; reflexivity).
  destruct (dict_mem "action" trace).
  - destruct (ActionTraceRecord_init str_to_float trace) eqn:Ei;
      [discriminate|].
    apply init_action_reports in Ei as (errors & -> & _).
    intros H. injection H as <-. reflexivity.
  - destruct (SimpleTraceRecord_init trace) eqn:Ei; [discriminate|].
    apply init_simple_reports in Ei as (errors & -> & _).
    intros H. injection H as <-. reflexivity.
Qed.

(** The loop from another line number and another list built so far. *)
Lemma read_lines_moved lines k acc' : forall n acc,
  match read_lines lines n acc with
  | Returned records =>
      exists rs, records = (acc ++ rs)%list
                 /\ read_lines lines (k + n) acc' = Returned (acc' ++ rs)%list
  | Failed e => read_lines lines (k + n) acc' = Failed (renumber k e)
  end.
Proof.
  revert acc'. induction lines as [|line rest IH]; intros acc' n acc.
  - cbn [read_lines]. exists []. rewrite !app_nil_r. split; reflexivity.
  - rewrite !read_lines_step.
    destruct (line_record line n) as [r|e] eqn:E.
    + rewrite (line_record_lineno json_loads str_to_float line n r E (k + n)%nat).
      specialize (IH (acc' ++ [r])%list (S n) (acc ++ [r])%list).
      rewrite Nat.add_succ_r in IH.
      destruct (read_lines rest (S n) (acc ++ [r])) as [records|e].
      * destruct IH as (rs & -> & Hrs). exists (r :: rs).
        rewrite Hrs, <- !app_assoc. split; reflexivity.
      * exact IH.
    + rewrite (line_record_renumber line n e k E). reflexivity.
Qed.

Lemma read_lines_app l1 l2 : forall n acc,
  read_lines (l1 ++ l2) n acc
  = match read_lines l1 n acc with
    | Returned records => read_lines l2 (length l1 + n) records
    | Failed e => Failed e
    end.
Proof.
  induction l1 as [|line rest IH]; intros n acc.
  - reflexivity.
  - cbn [app length]. rewrite !read_lines_step.
    destruct (line_record line n) as [r|e]; [|reflexivity].
    rewrite IH, Nat.add_succ_r. reflexivity.
Qed.

(** X8.  Reading a file that has grown.  When the lines read so far
    failed, the longer file fails with the same error.  When they gave
    records and the added lines, read on their own, give records, the
    whole file gives the first records followed by the others.  When the
    added lines fail on their own, the whole file fails with the same
    error, in which only the number of the line has moved. *)
Theorem read_of_a_grown_file file added :
  match read_trace_file file with
  | Failed e => read_trace_file (file ++ added) = Failed e
  | Returned records =>
      match read_trace_file added with
      | Returned others =>
          read_trace_file (file ++ added)
          = Returned (records ++ others)%list
      | Failed e =>
          read_trace_file (file ++ added)
          = Failed (renumber (length file) e)
      end
  end.
Proof.
  unfold read_trace_file. rewrite read_lines_app.
  destruct (read_lines file 1 []) as [records|e]; [|reflexivity].
  pose proof (read_lines_moved added (length file) records 1%nat []) as H.
  destruct (read_lines added 1 []) as [others|e].
  - destruct H as (rs & -> & H). exact H.
  - exact H.
Qed.

(** X9.  A line that has the key [action] with a value which is not a
    string is never read: the validation of an [ActionTraceRecord] fails,
    and its error has an entry for the field [action].  So it is for the
    value [null], the only value a [SimpleTraceRecord] has for its field
    [action]. *)
Theorem action_must_be_a_string trace v :
  dict_get "action" trace = Some v ->
  not_a_string v ->
  exists errors,
    trace_record trace = Failed (ValidationError "ActionTraceRecord" errors)
    /\ In (mkerr "action" "string_type" v) errors.
Proof.
  intros Hget Hv. unfold trace_record. rewrite dict_mem_get, Hget.
  unfold ActionTraceRecord_init.
  match goal with |- context [model _ ?chain] => set (fields := chain) end.
  assert (In (mkerr "action" "string_type" v) (errors_of fields)) as Hin.
  { unfold fields. rewrite !errors_of_ap.
    do 7 (apply in_or_app; left).
    apply in_or_app. right.
    unfold Pydantic.str_field. rewrite Hget.
    destruct v; simpl in Hv; try contradiction; left; reflexivity. }
  exists (errors_of fields). split; [|exact Hin].
  rewrite model_failed; [reflexivity|].
  intros E. rewrite E in Hin. contradiction.
Qed.

Lemma str_field_agrees data data' name s :
  dict_get name data = dict_get name data' ->
  Pydantic.str_field data name = Returned s ->
  Pydantic.str_field data' name = Returned s.
Proof.
  unfold Pydantic.str_field. intros <-.
  destruct (dict_get name data) as [[]|]; intros H;
    try discriminate; exact H.
Qed.

Lemma none_field_agrees data data' name u :
  dict_get name data = dict_get name data' ->
  Pydantic.none_field data name = Returned u ->
  Pydantic.none_field data' name = Returned u.
Proof.
  unfold Pydantic.none_field. intros <-.
  destruct (dict_get name data) as [[]|]; intros H;
    try discriminate; exact H.
Qed.

Lemma event_field_agrees data data' name e :
  dict_get name data = dict_get name data' ->
  Pydantic.event_field data name = Returned e ->
  Pydantic.event_field data' name = Returned e.
Proof.
  intros Heq H. apply event_field_returned in H.
  apply event_field_returned. rewrite <- Heq. exact H.
Qed.

Lemma opt_str_field_agrees data data' name s :
  dict_get name data = dict_get name data' ->
  Pydantic.opt_str_field data name = Returned s ->
  Pydantic.opt_str_field data' name = Returned s.
Proof.
  unfold Pydantic.opt_str_field. intros <-.
  destruct (dict_get name data) as [[]|]; intros H;
    try discriminate; exact H.
Qed.

Lemma opt_float_field_agrees data data' name f :
  dict_get name data = dict_get name data' ->
  Pydantic.opt_float_field str_to_float data name = Returned f ->
  Pydantic.opt_float_field str_to_float data' name = Returned f.
Proof.
  unfold Pydantic.opt_float_field. intros <-. intros H. exact H.
Qed.

Lemma action_init_agrees trace trace' a :
  (forall k, str_in k FIELD_KEYS = true ->
             dict_get k trace = dict_get k trace') ->
  ActionTraceRecord_init str_to_float trace = Returned a ->
  ActionTraceRecord_init str_to_float trace' = Returned a.
Proof.
  intros Hagree. unfold ActionTraceRecord_init. intros E.
  apply model_returned in E.
  apply ap_returned in E as (g11 & sk & E & Hsk & ->).
  apply ap_returned in E as (g10 & et & E & Het & ->).
  apply ap_returned in E as (g9 & er & E & Her & ->).
  apply ap_returned in E as (g8 & du & E & Hdu & ->).
  apply ap_returned in E as (g7 & st & E & Hst & ->).
  apply ap_returned in E as (g6 & ti & E & Hti & ->).
  apply ap_returned in E as (g5 & ev & E & Hev & ->).
  apply ap_returned in E as (g4 & ac & E & Hac & ->).
  apply ap_returned in E as (g3 & ms & E & Hms & ->).
  apply ap_returned in E as (g2 & lv & E & Hlv & ->).
  apply ap_returned in E as (g1 & ts & E & Hts & ->).
  injection E as <-.
  rewrite (str_field_agrees trace trace' "timestamp" ts
             (Hagree "timestamp" eq_refl) Hts),
    (str_field_agrees trace trace' "level" lv (Hagree "level" eq_refl) Hlv),
    (str_field_agrees trace trace' "message" ms
       (Hagree "message" eq_refl) Hms),
    (str_field_agrees trace trace' "action" ac (Hagree "action" eq_refl) Hac),
    (event_field_agrees trace trace' "event" ev (Hagree "event" eq_refl) Hev),
    (str_field_agrees trace trace' "trace_id" ti
       (Hagree "trace_id" eq_refl) Hti),
    (opt_float_field_agrees trace trace' "start_time" st
       (Hagree "start_time" eq_refl) Hst),
    (opt_float_field_agrees trace trace' "duration" du
       (Hagree "duration" eq_refl) Hdu),
    (opt_str_field_agrees trace trace' "error" er
       (Hagree "error" eq_refl) Her),
    (opt_str_field_agrees trace trace' "error_type" et
       (Hagree "error_type" eq_refl) Het),
    (opt_str_field_agrees trace trace' "stacktrace" sk
       (Hagree "stacktrace" eq_refl) Hsk).
  reflexivity.
Qed.

Lemma simple_init_agrees trace trace' r :
  (forall k, str_in k FIELD_KEYS = true ->
             dict_get k trace = dict_get k trace') ->
  SimpleTraceRecord_init trace = Returned r ->
  SimpleTraceRecord_init trace' = Returned r.
Proof.
  intros Hagree. unfold SimpleTraceRecord_init. intros E.
  apply model_returned in E.
  apply ap_returned in E as (g4 & u & E & Hu & ->).
  apply ap_returned in E as (g3 & ms & E & Hms & ->).
  apply ap_returned in E as (g2 & lv & E & Hlv & ->).
  apply ap_returned in E as (g1 & ts & E & Hts & ->).
  injection E as <-.
  rewrite (str_field_agrees trace trace' "timestamp" ts
             (Hagree "timestamp" eq_refl) Hts),
    (str_field_agrees trace trace' "level" lv (Hagree "level" eq_refl) Hlv),
    (str_field_agrees trace trace' "message" ms
       (Hagree "message" eq_refl) Hms),
    (none_field_agrees trace trace' "action" u (Hagree "action" eq_refl) Hu).
  reflexivity.
Qed.

(** X10.  The reader looks at the fields of the record models and at
    nothing else: two decoded lines that agree on these keys give the
    same record, whatever other keys they hold. *)
Theorem other_keys_are_ignored trace trace' r :
  (forall k, str_in k FIELD_KEYS = true ->
             dict_get k trace = dict_get k trace') ->
  trace_record trace = Returned r ->
  trace_record trace' = Returned r.
Proof.
  intros Hagree. unfold trace_record. rewrite !dict_mem_get.
  rewrite <- (Hagree "action" eq_refl).
  destruct (dict_get "action" trace) as [v|].
  - destruct (ActionTraceRecord_init str_to_float trace) as [a|e] eqn:E;
      [|discriminate].
    intros H. injection H as <-.
    rewrite (action_init_agrees trace trace' a Hagree E). reflexivity.
  - destruct (SimpleTraceRecord_init trace) as [s0|e] eqn:E; [|discriminate].
    intros H. injection H as <-.
    rewrite (simple_init_agrees trace trace' s0 Hagree E). reflexivity.
Qed.

End ReaderFacts.

Lemma action_must_be_a_string_witness :
  exists errors,
    trace_record Sample.str_to_float
                 [("timestamp", JStr "T1700000003e0"); ("level", JStr "INFO");
                  ("message", JStr "started"); ("action", JNull)]
    = Failed (ValidationError "ActionTraceRecord" errors)
    /\ In (mkerr "action" "string_type" JNull) errors.
Proof.
  apply (action_must_be_a_string Sample.str_to_float
           [("timestamp", JStr "T1700000003e0"); ("level", JStr "INFO");
            ("message", JStr "started"); ("action", JNull)] JNull).
  - reflexivity.
  - exact I.
Defined.


Lemma other_keys_are_ignored_witness :
  trace_record Sample.str_to_float
               (("worker", JInt 7) :: Sample.exit_mapping
                  ++ [("module", JStr "trace")])%list
  = trace_record Sample.str_to_float Sample.exit_mapping.
Proof.
  apply (other_keys_are_ignored Sample.str_to_float Sample.exit_mapping).
  - intros k Hk. unfold FIELD_KEYS, str_in in Hk.
    cbn [existsb app ACTION_KEYS] in Hk.
    repeat match type of Hk with
           | (String.eqb k ?s || _) = true =>
               revert Hk; destruct (String.eqb k s) eqn:E; intros Hk;
               [apply String.eqb_eq in E; subst k; reflexivity
               | clear E; cbn [orb] in Hk]
           end.
    discriminate.
  - reflexivity.
Defined.

(* ================================================================= *)
(** * Properties of the generation options of the command line *)

Lemma split_not_empty sep s : split sep s <> [].
Proof.
  destruct s as [|c rest]; cbn [split]; [discriminate|].
  destruct (Ascii.eqb c sep); [discriminate|].
  destruct (split sep rest); discriminate.
Qed.

Lemma join_cons sep part parts :
  parts <> [] ->
  join sep (part :: parts) = (part ++ String sep (join sep parts))%string.
Proof. destruct parts; [contradiction | reflexivity]. Qed.

Lemma join_split sep s : join sep (split sep s) = s.
Proof.
  induction s as [|c rest IH]; [reflexivity|].
  cbn [split]. destruct (Ascii.eqb_spec c sep) as [->|Hne].
  - rewrite join_cons by apply split_not_empty. rewrite IH. reflexivity.
  - pose proof (split_not_empty sep rest) as Hs.
    destruct (split sep rest) as [|part parts]; [contradiction|].
    destruct parts as [|part' parts].
    + cbn [join] in *. rewrite IH. reflexivity.
    + rewrite join_cons in * by discriminate.
      cbn [append]. rewrite IH. reflexivity.
Qed.

Lemma split_parts sep s :
  Forall (fun part => contains sep part = false) (split sep s).
Proof.
  induction s as [|c rest IH]; [repeat constructor|].
  cbn [split]. destruct (Ascii.eqb c sep) eqn:E.
  - constructor; [reflexivity | exact IH].
  - destruct (split sep rest) as [|part parts]; [repeat constructor|].
    + cbn [contains]. rewrite E. reflexivity.
    + inversion IH as [|? ? Hp Hps]; subst.
      constructor; [|exact Hps]. cbn [contains]. rewrite E, Hp. reflexivity.
Qed.

Lemma split_free sep s : contains sep s = false -> split sep s = [s].
Proof.
  induction s as [|c rest IH]; [reflexivity|].
  cbn [contains split]. intros H. apply orb_false_iff in H as [Hc Hrest].
  rewrite Hc, (IH Hrest). reflexivity.
Qed.

Lemma split_append sep part s :
  contains sep part = false ->
  split sep (part ++ String sep s) = part :: split sep s.
Proof.
  induction part as [|c rest IH]; intros H.
  - cbn [append split]. rewrite Ascii.eqb_refl. reflexivity.
  - cbn [contains] in H. apply orb_false_iff in H as [Hc Hrest].
    cbn [append split]. rewrite Hc, (IH Hrest). reflexivity.
Qed.

Lemma split_join sep parts :
  parts <> [] ->
  Forall (fun part => contains sep part = false) parts ->
  split sep (join sep parts) = parts.
Proof.
  induction parts as [|part parts IH]; [contradiction|].
  intros _ Hall. inversion Hall as [|? ? Hp Hps]; subst.
  destruct parts as [|part' parts].
  - apply split_free. exact Hp.
  - rewrite join_cons by discriminate.
    rewrite (split_append sep part _ Hp), IH by (discriminate || exact Hps).
    reflexivity.
Qed.

(** X11.  [parse_comma_separated] gives nothing for no value.  For a
    string it gives a list that is never empty (the empty string gives
    one empty part); no part holds a comma, and the parts joined by
    commas are the string.  The other way round, every such list of
    parts is what the function gives for the parts joined by commas. *)
Theorem parse_comma_separated_inverts_join :
  parse_comma_separated None = None
  /\ (forall value,
         exists part parts,
           parse_comma_separated (Some value) = Some (part :: parts)
           /\ join "," (part :: parts) = value
           /\ Forall (fun p => contains "," p = false) (part :: parts))
  /\ (forall part parts,
         Forall (fun p => contains "," p = false) (part :: parts) ->
         parse_comma_separated (Some (join "," (part :: parts)))
         = Some (part :: parts)).
Proof.
  split; [reflexivity|]. split.
  - intros value. unfold parse_comma_separated.
    pose proof (split_not_empty "," value) as Hne.
    pose proof (join_split "," value) as Hjoin.
    pose proof (split_parts "," value) as Hparts.
    destruct (split "," value) as [|part parts]; [contradiction|].
    exists part, parts. repeat split; assumption.
  - intros part parts Hall. unfold parse_comma_separated.
    rewrite split_join; [reflexivity | discriminate | exact Hall].
Qed.

Lemma parse_comma_separated_inverts_join_witness :
  parse_comma_separated (Some (join "," ["safety"; ""; "v2"]))
  = Some ["safety"; ""; "v2"].
Proof.
  destruct parse_comma_separated_inverts_join as (_ & _ & H).
  apply H. repeat constructor.
Defined.

Lemma dict_set_fresh {V : Type} k (v : V) d :
  dict_get k d = None -> dict_set k v d = (d ++ [(k, v)])%list.
Proof.
  induction d as [|[k' v'] d IH]; [reflexivity|].
  cbn [dict_get dict_set app].
  destruct (String.eqb k k'); [discriminate|].
  intros H. rewrite (IH H). reflexivity.
Qed.

Lemma dict_get_not_key {V : Type} k (d : list (string * V)) :
  ~ In k (dict_keys d) -> dict_get k d = None.
Proof.
  induction d as [|[k' v'] d IH]; [reflexivity|].
  cbn [dict_keys map fst In dict_get]. intros H.
  destruct (String.eqb_spec k k') as [->|]; [exfalso; apply H; left; reflexivity|].
  apply IH. intros Hin. apply H. right. exact Hin.
Qed.

Lemma In_dict_get {V : Type} k (v : V) d :
  NoDup (dict_keys d) -> In (k, v) d -> dict_get k d = Some v.
Proof.
  induction d as [|[k' v'] d IH]; [contradiction|].
  cbn [dict_keys map fst]. intros Hnd Hin.
  inversion Hnd as [|? ? Hnot Hnd']; subst.
  cbn [dict_get]. destruct Hin as [E|Hin].
  - injection E as -> ->. rewrite String.eqb_refl. reflexivity.
  - destruct (String.eqb_spec k k') as [->|]; [|apply IH; assumption].
    exfalso. apply Hnot. apply (in_map fst) in Hin. exact Hin.
Qed.

Section ConfigFacts.

Variable config_keys : list string.
Variable parse_cli_args : list string -> result pydict.
Variable int : string -> result Z.
Variable model_validate_json : pyval -> result pyval.
Variable batch_config : string -> result pyval.

Local Abbreviation parse_logit_bias := (parse_logit_bias parse_cli_args int).
Local Abbreviation converted :=
  (converted parse_cli_args int model_validate_json batch_config).
Local Abbreviation config_item :=
  (config_item config_keys parse_cli_args int model_validate_json
               batch_config).
Local Abbreviation config_from_locals :=
  (config_from_locals config_keys parse_cli_args int model_validate_json
                      batch_config).
Local Abbreviation taken := (taken config_keys).

Local Abbreviation made_of :=
  (made_of parse_cli_args int model_validate_json batch_config).

Lemma fold_raise items : forall e,
  fold_left (fun config item =>
               result_bind config (fun config => config_item config item))
            items (Raise e) = Raise e.
Proof. induction items as [|item items IH]; intros e; [reflexivity | apply IH]. Qed.

Lemma fold_unmodelled items :
  fold_left (fun config item =>
               result_bind config (fun config => config_item config item))
            items Unmodelled = Unmodelled.
Proof. induction items as [|item items IH]; [reflexivity | apply IH]. Qed.

(** The loop: the items taken, converted, in their order. *)
Lemma config_loop items : forall acc config,
  NoDup (dict_keys acc ++ dict_keys items) ->
  fold_left (fun config item =>
               result_bind config (fun config => config_item config item))
            items (Ok acc) = Ok config ->
  exists made, config = (acc ++ made)%list
               /\ Forall2 made_of (filter taken items) made.
Proof.
  induction items as [|[key value] items IH]; intros acc config Hnd Hfold.
  - cbn [fold_left] in Hfold. injection Hfold as <-. exists [].
    rewrite app_nil_r. split; [reflexivity | constructor].
  - cbn [fold_left result_bind] in Hfold.
    cbn [filter]. unfold config_item in Hfold.
    change (str_in key config_keys && negb (is_None (Plain value)))
      with (taken (key, value)) in Hfold.
    assert (Hfresh : dict_get key acc = None).
    { apply dict_get_not_key. intros Hin.
      apply NoDup_remove_2 in Hnd. apply Hnd.
      apply in_or_app. left. exact Hin. }
    destruct (taken (key, value)).
    + destruct (converted key value) as [v|e|] eqn:Hconv;
        cbn [result_map] in Hfold;
        [| rewrite fold_raise in Hfold; discriminate
         | rewrite fold_unmodelled in Hfold; discriminate].
      rewrite (dict_set_fresh key v acc Hfresh) in Hfold.
      apply IH in Hfold as (made & -> & Hmade).
      * exists ((key, v) :: made). rewrite <- app_assoc. split; [reflexivity|].
        constructor; [split; [reflexivity | exact Hconv] | exact Hmade].
      * unfold dict_keys in *. rewrite map_app, <- app_assoc. exact Hnd.
    + apply IH in Hfold as (made & -> & Hmade).
      * exists made. split; [reflexivity | exact Hmade].
      * apply NoDup_remove_1 in Hnd. exact Hnd.
Qed.

Lemma made_of_keys kept made :
  Forall2 made_of kept made -> dict_keys made = dict_keys kept.
Proof.
  induction 1 as [|item m kept made [Hk _] _ IH]; [reflexivity|].
  unfold dict_keys in *. cbn [map]. rewrite Hk, IH. reflexivity.
Qed.

Lemma made_of_In kept made key value :
  Forall2 made_of kept made -> In (key, value) kept ->
  exists v, converted key value = Ok v /\ In (key, v) made.
Proof.
  induction 1 as [|item [k v] kept made [Hk Hv] _ IH]; [contradiction|].
  intros [->|Hin].
  - cbn [fst snd] in Hk, Hv. subst k. exists v. split; [exact Hv|].
    left. reflexivity.
  - destruct (IH Hin) as (v' & Hc & Hin'). exists v'. split; [exact Hc|].
    right. exact Hin'.
Qed.

Lemma made_of_In_back kept made key v :
  Forall2 made_of kept made -> In (key, v) made ->
  exists value, converted key value = Ok v /\ In (key, value) kept.
Proof.
  induction 1 as [|[k value] m kept made [Hk Hv] _ IH]; [contradiction|].
  intros [->|Hin].
  - cbn [fst snd] in Hk, Hv. subst k. exists value. split; [exact Hv|].
    left. reflexivity.
  - destruct (IH Hin) as (value' & Hc & Hin'). exists value'.
    split; [exact Hc|]. right. exact Hin'.
Qed.

Lemma NoDup_filter_keys (p : string * pyval -> bool) items :
  NoDup (dict_keys items) -> NoDup (dict_keys (filter p items)).
Proof.
  induction items as [|[k v] items IH]; [constructor|].
  cbn [dict_keys map fst filter]. intros Hnd.
  inversion Hnd as [|? ? Hnot Hnd']; subst.
  destruct (p (k, v)); [|apply IH; exact Hnd'].
  cbn [dict_keys map fst]. constructor; [|apply IH; exact Hnd'].
  intros Hin. apply Hnot. apply in_map_iff in Hin as ([k' v'] & <- & Hin).
  apply filter_In in Hin as [Hin _]. apply (in_map fst) in Hin. exact Hin.
Qed.

(** What [config_from_locals] returns. *)
Lemma config_from_locals_spec locals config :
  NoDup (dict_keys locals) ->
  config_from_locals locals = Ok config ->
  dict_keys config = dict_keys (filter taken locals)
  /\ (forall key value,
         dict_get key locals = Some value ->
         taken (key, value) = true ->
         exists v, converted key value = Ok v
                   /\ dict_get key config = Some v)
  /\ (forall key v,
         dict_get key config = Some v ->
         exists value, dict_get key locals = Some value
                       /\ taken (key, value) = true
                       /\ converted key value = Ok v).
Proof.
  intros Hnd Hrun. unfold config_from_locals in Hrun.
  apply config_loop in Hrun as (made & -> & Hmade); [|exact Hnd].
  cbn [app]. pose proof (made_of_keys _ _ Hmade) as Hkeys.
  assert (NoDup (dict_keys made)) as Hnd'
      by (rewrite Hkeys; apply NoDup_filter_keys; exact Hnd).
  split; [exact Hkeys|]. split.
  - intros key value Hget Htaken.
    apply dict_get_In in Hget.
    assert (In (key, value) (filter taken locals)) as Hin
        by (apply filter_In; split; assumption).
    destruct (made_of_In _ _ _ _ Hmade Hin) as (v & Hc & Hin').
    exists v. split; [exact Hc|]. apply In_dict_get; assumption.
  - intros key v Hget. apply dict_get_In in Hget.
    destruct (made_of_In_back _ _ _ _ Hmade Hget) as (value & Hc & Hin).
    apply filter_In in Hin as [Hin Htaken].
    exists value. split; [apply In_dict_get; assumption|].
    split; assumption.
Qed.

Lemma taken_iff key value :
  taken (key, value) = true
  <-> str_in key config_keys = true /\ value <> PyNone.
Proof.
  unfold taken. cbn [fst snd]. rewrite andb_true_iff.
  destruct value; cbn [is_None negb]; split; intros [H1 H2];
    split; try assumption; try reflexivity; try discriminate.
  contradiction.
Qed.

Lemma converted_plain key value :
  str_in key CONVERTED_KEYS = false ->
  converted key value = Ok (Plain value).
Proof.
  unfold str_in, CONVERTED_KEYS. cbn [existsb]. intros H.
  repeat (apply orb_false_iff in H as [? H]).
  unfold converted.
  repeat match goal with
         | E : String.eqb key _ = false |- _ => rewrite E; clear E
         end.
  reflexivity.
Qed.

(** X12.  [config_from_locals] keeps the local variables that are named
    as a generation option and are not [None], and nothing else, in
    their order: a name outside the generation options never gets into
    the configuration, and an option left unset never does. *)
Theorem config_keeps_the_set_options locals config :
  NoDup (dict_keys locals) ->
  config_from_locals locals = Ok config ->
  dict_keys config = dict_keys (filter taken locals)
  /\ (forall key,
         dict_mem key config = true
         <-> str_in key config_keys = true
             /\ exists value, dict_get key locals = Some value
                              /\ value <> PyNone).
Proof.
  intros Hnd Hrun.
  destruct (config_from_locals_spec locals config Hnd Hrun)
    as (Hkeys & Hto & Hback).
  split; [exact Hkeys|]. intros key. rewrite dict_mem_get. split.
  - destruct (dict_get key config) as [v|] eqn:E; [|discriminate].
    intros _. destruct (Hback key v E) as (value & Hget & Htaken & _).
    apply taken_iff in Htaken as [Hk Hv].
    split; [exact Hk|]. exists value. split; assumption.
  - intros (Hk & value & Hget & Hv).
    destruct (Hto key value Hget) as (v & _ & ->); [|reflexivity].
    apply taken_iff. split; assumption.
Qed.

(** X13.  A generation option that is set and is not one of the nine
    options [config_from_locals] converts gets into the configuration as
    it is. *)
Theorem plain_options_pass_through locals config key value :
  NoDup (dict_keys locals) ->
  config_from_locals locals = Ok config ->
  dict_get key locals = Some value ->
  str_in key config_keys = true ->
  value <> PyNone ->
  str_in key CONVERTED_KEYS = false ->
  dict_get key config = Some (Plain value).
Proof.
  intros Hnd Hrun Hget Hk Hv Hplain.
  destruct (config_from_locals_spec locals config Hnd Hrun) as (_ & Hto & _).
  destruct (Hto key value Hget) as (v & Hc & ->);
    [apply taken_iff; split; assumption|].
  rewrite converted_plain in Hc by exact Hplain. congruence.
Qed.

(** X14.  The switches.  For [parallel_tool_calls], [internal_tools] and
    [reasoning_history] the configuration records [False] when the value
    is [False] and [None] for every other value: every string given for
    [reasoning_history] is recorded as [None].  For [logprobs] it is the
    other way round: [False] is recorded as [None], every other value as
    it is. *)
Theorem switches_record_one_value locals config key value :
  NoDup (dict_keys locals) ->
  config_from_locals locals = Ok config ->
  dict_get key locals = Some value ->
  str_in key config_keys = true ->
  value <> PyNone ->
  (str_in key ["parallel_tool_calls"; "internal_tools"; "reasoning_history"]
   = true ->
   dict_get key config
   = Some (Plain (match value with
                  | PyBool false => PyBool false
                  | _ => PyNone
                  end)))
  /\ (key = "logprobs" ->
      dict_get key config
      = Some (Plain (match value with
                     | PyBool false => PyNone
                     | _ => value
                     end))).
Proof.
  intros Hnd Hrun Hget Hk Hv.
  destruct (config_from_locals_spec locals config Hnd Hrun) as (_ & Hto & _).
  destruct (Hto key value Hget) as (v & Hc & ->);
    [apply taken_iff; split; assumption|].
  split.
  - unfold str_in. cbn [existsb]. intros Hin.
    destruct (String.eqb_spec key "parallel_tool_calls") as [E|_];
      [|destruct (String.eqb_spec key "internal_tools") as [E|_];
        [|destruct (String.eqb_spec key "reasoning_history") as [E|_];
          [|discriminate Hin]]];
      rewrite E in Hc; destruct value as [ | [|] | | | | | | | | | ];
      cbn in Hc; congruence.
  - intros E. rewrite E in Hc.
    destruct value as [ | [|] | | | | | | | | | ]; cbn in Hc; congruence.
Qed.

(** X15.  The options given as text.  [stop_seqs] is recorded as the list
    of its parts between commas, which is never empty.  [cache_prompt] is
    recorded as [True] or [False] when it is one of these two words in
    any mix of upper and lower case, and as the string itself
    otherwise. *)
Theorem text_options_are_converted locals config key s :
  NoDup (dict_keys locals) ->
  config_from_locals locals = Ok config ->
  dict_get key locals = Some (PyStr s) ->
  str_in key config_keys = true ->
  (key = "stop_seqs" ->
   exists part parts,
     dict_get key config = Some (Plain (PyList (map PyStr (part :: parts))))
     /\ join "," (part :: parts) = s)
  /\ (key = "cache_prompt" ->
      dict_get key config
      = Some (Plain (if String.eqb (lower s) "true" then PyBool true
                     else if String.eqb (lower s) "false" then PyBool false
                     else PyStr s))).
Proof.
  intros Hnd Hrun Hget Hk.
  destruct (config_from_locals_spec locals config Hnd Hrun) as (_ & Hto & _).
  destruct (Hto key (PyStr s) Hget) as (v & Hc & ->);
    [apply taken_iff; split; [assumption | discriminate]|].
  split; intros E; rewrite E in Hc.
  - cbn in Hc. injection Hc as <-.
    pose proof (split_not_empty "," s) as Hne.
    pose proof (join_split "," s) as Hjoin.
    destruct (split "," s) as [|part parts]; [contradiction|].
    exists part, parts. split; [reflexivity | exact Hjoin].
  - cbn in Hc. revert Hc.
    destruct (String.eqb (lower s) "true"); [cbn; congruence|].
    destruct (String.eqb (lower s) "false"); cbn; congruence.
Qed.

End ConfigFacts.

Lemma sample_locals_is_a_dict : NoDup (dict_keys SampleCli.locals).
Proof.
  repeat (constructor;
          [cbn; intros H;
           repeat (destruct H as [H|H]; [discriminate H|]); exact H|]).
  constructor.
Qed.

Lemma sample_config_run :
  SampleCli.config_from_locals SampleCli.locals = Ok SampleCli.config.
Proof. reflexivity. Qed.

Lemma config_keeps_the_set_options_witness :
  dict_keys SampleCli.config
  = ["max_tokens"; "stop_seqs"; "logprobs"; "cache_prompt";
     "parallel_tool_calls"; "reasoning_history"]
  /\ dict_mem "model" SampleCli.config = false.
Proof.
  destruct (config_keeps_the_set_options
              SampleCli.config_keys SampleCli.parse_cli_args SampleCli.int
              SampleCli.model_validate_json SampleCli.batch_config
              SampleCli.locals SampleCli.config
              sample_locals_is_a_dict sample_config_run) as [Hkeys Hmem].
  split; [exact Hkeys|].
  destruct (dict_mem "model" SampleCli.config) eqn:E; [|reflexivity].
  apply Hmem in E as [E _]. discriminate E.
Defined.

Lemma plain_options_pass_through_witness :
  dict_get "max_tokens" SampleCli.config = Some (Plain (PyInt 100)).
Proof.
  apply (plain_options_pass_through
           SampleCli.config_keys SampleCli.parse_cli_args SampleCli.int
           SampleCli.model_validate_json SampleCli.batch_config
           SampleCli.locals SampleCli.config "max_tokens" (PyInt 100)
           sample_locals_is_a_dict sample_config_run).
  - reflexivity.
  - reflexivity.
  - discriminate.
  - reflexivity.
Defined.

Lemma switches_record_one_value_witness :
  dict_get "reasoning_history" SampleCli.config = Some (Plain PyNone).
Proof.
  destruct (switches_record_one_value
              SampleCli.config_keys SampleCli.parse_cli_args SampleCli.int
              SampleCli.model_validate_json SampleCli.batch_config
              SampleCli.locals SampleCli.config
              "reasoning_history" (PyStr "last")
              sample_locals_is_a_dict sample_config_run)
    as [H _].
  - reflexivity.
  - reflexivity.
  - discriminate.
  - apply H. reflexivity.
Defined.

Lemma text_options_are_converted_witness :
  dict_get "cache_prompt" SampleCli.config = Some (Plain (PyBool true)).
Proof.
  destruct (text_options_are_converted
              SampleCli.config_keys SampleCli.parse_cli_args SampleCli.int
              SampleCli.model_validate_json SampleCli.batch_config
              SampleCli.locals SampleCli.config "cache_prompt" "True"
              sample_locals_is_a_dict sample_config_run)
    as [_ H].
  - reflexivity.
  - reflexivity.
  - apply H. reflexivity.
Defined.

(** *** Token biases *)

Lemma zdict_get_set z k v d :
  zdict_get z (zdict_set k v d)
  = if Z.eqb z k then Some v else zdict_get z d.
Proof.
  induction d as [|[k' v'] d IH]; cbn [zdict_set zdict_get].
  - reflexivity.
  - destruct (Z.eqb_spec k k') as [->|Hne]; cbn [zdict_get].
    + destruct (Z.eqb z k'); reflexivity.
    + rewrite IH. destruct (Z.eqb_spec z k') as [->|]; [|reflexivity].
      destruct (Z.eqb_spec k' k) as [->|]; [contradiction|reflexivity].
Qed.

Lemma zdict_get_app z d1 d2 :
  zdict_get z (d1 ++ d2)
  = match zdict_get z d1 with
    | Some v => Some v
    | None => zdict_get z d2
    end.
Proof.
  induction d1 as [|[k v] d1 IH]; cbn [app zdict_get]; [reflexivity|].
  destruct (Z.eqb z k); [reflexivity | exact IH].
Qed.

Lemma zdict_set_keys k v d x :
  In x (map fst (zdict_set k v d)) -> x = k \/ In x (map fst d).
Proof.
  induction d as [|[k' v'] d IH]; cbn [zdict_set map fst In].
  - intros [<-|[]]. left. reflexivity.
  - destruct (Z.eqb k k'); cbn [map fst In].
    + intros H. right. exact H.
    + intros [<-|H]; [right; left; reflexivity|].
      destruct (IH H) as [->|Hin]; [left; reflexivity | right; right; exact Hin].
Qed.

Lemma zdict_set_NoDup k v d :
  NoDup (map fst d) -> NoDup (map fst (zdict_set k v d)).
Proof.
  induction d as [|[k' v'] d IH]; cbn [zdict_set map fst]; intros Hnd.
  - repeat constructor. intros [].
  - inversion Hnd as [|? ? Hnot Hnd']; subst.
    destruct (Z.eqb_spec k k') as [->|Hne]; cbn [map fst].
    + constructor; assumption.
    + constructor; [|apply IH; exact Hnd'].
      intros Hin. apply zdict_set_keys in Hin as [->|Hin]; contradiction.
Qed.

Lemma zdict_fold z pairs : forall acc,
  zdict_get z (fold_left (fun d kv => zdict_set (fst kv) (snd kv) d)
                         pairs acc)
  = match zdict_get z (rev pairs) with
    | Some v => Some v
    | None => zdict_get z acc
    end.
Proof.
  induction pairs as [|[k v] pairs IH]; intros acc; [reflexivity|].
  cbn [fold_left rev fst snd]. rewrite IH, zdict_get_app, zdict_get_set.
  cbn [zdict_get].
  destruct (zdict_get z (rev pairs)); [reflexivity|].
  destruct (Z.eqb z k); reflexivity.
Qed.

Lemma zdict_fold_NoDup pairs : forall acc,
  NoDup (map fst acc) ->
  NoDup (map fst (fold_left (fun d kv => zdict_set (fst kv) (snd kv) d)
                            pairs acc)).
Proof.
  induction pairs as [|[k v] pairs IH]; intros acc Hnd; [exact Hnd|].
  cbn [fold_left]. apply IH, zdict_set_NoDup, Hnd.
Qed.

Section LogitBias.

Variable parse_cli_args : list string -> result pydict.
Variable int : string -> result Z.

Local Abbreviation parse_logit_bias := (parse_logit_bias parse_cli_args int).

(** X16.  [parse_logit_bias] on a string that is not empty.  It raises
    what [parse_cli_args] raises on the parts between commas, and what
    the first failing [int] raises on a key.  It returns [None] when no
    argument was parsed.  Else it returns a dictionary without repeated
    keys in which every integer stands for the last argument whose key is
    that integer. *)
Theorem parse_logit_bias_outcomes s :
  s <> "" ->
  match parse_cli_args (split "," s) with
  | Ok [] => parse_logit_bias (Some s) = Ok None
  | Ok parsed =>
      match comprehension int (dict_keys parsed) with
      | Ok keys =>
          exists d,
            parse_logit_bias (Some s) = Ok (Some d)
            /\ NoDup (map fst d)
            /\ forall z,
                 zdict_get z d
                 = zdict_get z (rev (combine keys (map snd parsed)))
      | Raise e => parse_logit_bias (Some s) = Raise e
      | Unmodelled => True
      end
  | Raise e => parse_logit_bias (Some s) = Raise e
  | Unmodelled => True
  end.
Proof.
  intros Hs. destruct s as [|c rest]; [contradiction|].
  unfold parse_logit_bias.
  destruct (parse_cli_args (split "," (String c rest)))
    as [[|kv parsed]|e|]; cbn [result_map result_bind].
  - reflexivity.
  - destruct (comprehension int (dict_keys (kv :: parsed))) as [keys|e|];
      cbn [result_map].
    + eexists. split; [reflexivity|]. split.
      * apply zdict_fold_NoDup. constructor.
      * intros z. unfold zdict_of. rewrite zdict_fold.
        destruct (zdict_get z (rev (combine keys (map snd (kv :: parsed)))));
          reflexivity.
    + reflexivity.
    + exact I.
  - reflexivity.
  - exact I.
Qed.

End LogitBias.

Lemma parse_logit_bias_outcomes_witness :
  exists d,
    parse_logit_bias SampleCli.parse_cli_args SampleCli.int
                     (Some "42=10,43=-10,042=5")
    = Ok (Some d)
    /\ zdict_get 42 d = Some (PyStr "5")
    /\ zdict_get 43 d = Some (PyStr "-10").
Proof.
  pose proof (parse_logit_bias_outcomes
                SampleCli.parse_cli_args SampleCli.int "42=10,43=-10,042=5")
    as H.
  cbv beta iota in H.
  destruct H as (d & Hd & _ & Hget); [discriminate|].
  exists d. split; [exact Hd|]. split; rewrite Hget; reflexivity.
Defined.

(* ================================================================= *)
(** * Properties of the commands *)

Lemma dict_get_set_eq {V : Type} k k' (v : V) d :
  dict_get k (dict_set k' v d)
  = if String.eqb k k' then Some v else dict_get k d.
Proof.
  destruct (String.eqb_spec k k') as [->|Hne].
  - apply dict_get_set_same.
  - apply dict_get_set_other. exact Hne.
Qed.

Lemma dict_get_none_keys {V : Type} k (d : list (string * V)) :
  dict_get k d = None -> ~ In k (dict_keys d).
Proof.
  induction d as [|[k' v'] d IH]; [intros _ []|].
  cbn [dict_get dict_keys map fst In].
  destruct (String.eqb_spec k k') as [->|Hne]; [discriminate|].
  intros H [E|Hin]; [congruence | exact (IH H Hin)].
Qed.

Lemma dict_keys_rev {V : Type} (d : list (string * V)) :
  dict_keys (rev d) = rev (dict_keys d).
Proof. unfold dict_keys. apply map_rev. Qed.

Lemma dict_get_rev_none {V : Type} k (d : list (string * V)) :
  dict_get k d = None -> dict_get k (rev d) = None.
Proof.
  intros H. apply dict_get_not_key. rewrite dict_keys_rev.
  intros Hin. apply in_rev in Hin. exact (dict_get_none_keys k d H Hin).
Qed.

Lemma dict_get_rev {V : Type} k (d : list (string * V)) :
  NoDup (dict_keys d) -> dict_get k (rev d) = dict_get k d.
Proof.
  intros Hnd. destruct (dict_get k d) as [v|] eqn:E.
  - apply In_dict_get.
    + rewrite dict_keys_rev. apply NoDup_rev. exact Hnd.
    + apply in_rev. rewrite rev_involutive. apply dict_get_In. exact E.
  - apply dict_get_rev_none. exact E.
Qed.

Lemma dict_or_get {V : Type} k (right : list (string * V)) : forall left,
  dict_get k (Cli.dict_or left right)
  = match dict_get k (rev right) with
    | Some v => Some v
    | None => dict_get k left
    end.
Proof.
  unfold Cli.dict_or.
  induction right as [|[k' v'] right IH]; intros left; [reflexivity|].
  cbn [fold_left rev fst snd]. rewrite IH, dict_get_app, dict_get_set_eq.
  cbn [dict_get].
  destruct (dict_get k (rev right)); [reflexivity|].
  destruct (String.eqb k k'); reflexivity.
Qed.

Lemma dict_or_get_left {V : Type} k (left right : list (string * V)) :
  dict_mem k right = false ->
  dict_get k (Cli.dict_or left right) = dict_get k left.
Proof.
  rewrite dict_mem_get. intros H. rewrite dict_or_get.
  rewrite dict_get_rev_none; [reflexivity|].
  destruct (dict_get k right); [discriminate | reflexivity].
Qed.

Lemma dict_or_get_right {V : Type} k v (left right : list (string * V)) :
  NoDup (dict_keys right) ->
  dict_get k right = Some v ->
  dict_get k (Cli.dict_or left right) = Some v.
Proof.
  intros Hnd H. rewrite dict_or_get, (dict_get_rev k right Hnd), H.
  reflexivity.
Qed.

Section CommandFacts.

Variable parse_cli_config :
  option (list string) -> option string -> result pyval.
Variable parse_cli_args : option (list string) -> bool -> result pydict.
Variable create_reducers : option (list string) -> result pyval.
Variable Epochs : Z -> pyval -> result pyval.
Variable parse_samples_limit : option string -> result pyval.
Variable parse_sample_id : option string -> result pyval.
Variable SolverSpec : string -> pyval -> result pyval.
Variable parse_sandbox : option string -> result pyval.
Variable eval : list (string * config_value) -> result pyval.
Variable eval_set : list (string * config_value) -> result (bool * pyval).
Variable process_common_options : pydict -> result unit.
Variable log_file_info : string -> result pyval.
Variable eval_retry :
  list pyval -> list (string * config_value) -> result pyval.

Local Abbreviation eval_exec_params :=
  (Cli.eval_exec_params parse_cli_config parse_cli_args create_reducers
                        Epochs parse_samples_limit parse_sample_id
                        SolverSpec parse_sandbox).
Local Abbreviation eval_exec :=
  (Cli.eval_exec parse_cli_config parse_cli_args create_reducers
                 Epochs parse_samples_limit parse_sample_id
                 SolverSpec parse_sandbox eval eval_set).
Local Abbreviation eval_retry_params :=
  (Cli.eval_retry_params process_common_options log_file_info).

(** The calls made before [params] is built have returned. *)
Ltac returned H :=
  unfold Cli.eval_exec_params in H;
  repeat match type of H with
         | result_bind ?r _ = Ok _ =>
             let E := fresh "E" in
             destruct r eqn:E; cbn [result_bind] in H;
             [|discriminate H|discriminate H]
         end.

Lemma dict_or_mem {V : Type} k (left right : list (string * V)) :
  dict_mem k (Cli.dict_or left right) = dict_mem k right || dict_mem k left.
Proof.
  rewrite !dict_mem_get, dict_or_get.
  destruct (dict_get k right) as [v|] eqn:E.
  - destruct (dict_get k (rev right)) eqn:E'; [reflexivity|].
    exfalso. apply dict_get_In in E. apply in_rev in E.
    apply (in_map fst) in E.
    exact (dict_get_none_keys k (rev right) E' E).
  - rewrite (dict_get_rev_none k right E). reflexivity.
Qed.

(** What [params] is made of when the call is reached: the entries
    built from the arguments, the generation options merged into them,
    and the entries set last. *)
Lemma params_shape a kwargs params :
  eval_exec_params a kwargs = Ok params ->
  exists named,
    params
    = (if Cli.is_eval_set a then
         dict_set "bundle_overwrite" (Cli.of_bool (Cli.bundle_overwrite a))
        (dict_set "bundle_dir" (Cli.of_opt PyStr (Cli.bundle_dir a))
        (dict_set "retry_cleanup" (Cli.of_opt PyBool (Cli.retry_cleanup a))
        (dict_set "retry_connections"
                  (Cli.of_opt PyFloat (Cli.retry_connections a))
        (dict_set "retry_wait" (Cli.of_opt PyInt (Cli.retry_wait a))
        (dict_set "retry_attempts" (Cli.of_opt PyInt (Cli.retry_attempts a))
                  (Cli.dict_or named kwargs))))))
       else dict_set "log_header_only" (Cli.of_bool true)
                     (Cli.dict_or named kwargs))
    /\ (forall k, str_in k CliNames.LATE_KEYS = true ->
                  dict_get k named = None)
    /\ dict_get "sandbox_cleanup" named
       = Some (Cli.off_if (Cli.flag_set (Cli.no_sandbox_cleanup a)))
    /\ dict_get "fail_on_error" named
       = Some (Cli.resolve_fail_on_error (Cli.fail_on_error a)
                                         (Cli.no_fail_on_error a))
    /\ dict_get "retry_on_error" named
       = Some (Cli.resolve_retry_on_error (Cli.retry_on_error a))
    /\ dict_get "log_samples" named
       = Some (Cli.off_if (Cli.flag_set (Cli.no_log_samples a)))
    /\ dict_get "log_realtime" named
       = Some (Cli.off_if (Cli.flag_set (Cli.no_log_realtime a)))
    /\ dict_get "log_images" named
       = Some (match Cli.log_images a with
               | Some false => Cli.of_bool false
               | _ => Plain PyNone
               end)
    /\ dict_get "score" named
       = Some (Cli.of_bool (negb (Cli.flag_set (Cli.no_score a))))
    /\ dict_get "score_display" named
       = Some (Cli.off_if (Cli.flag_set (Cli.no_score_display a)))
    /\ dict_get "trace" named
       = Some (if Cli.flag_set (Cli.trace a) then Cli.of_bool true
               else Plain PyNone)
    /\ (Cli.number_set (Cli.epochs a) = false ->
        dict_get "epochs" named = Some (Plain PyNone)).
Proof.
  intros H. returned H. cbv zeta in H.
  match type of H with
  | context [Cli.dict_or ?n kwargs] => exists n
  end.
  split.
  { destruct (Cli.is_eval_set a); injection H as <-; reflexivity. }
  clear H. split.
  { intros k Hk.
    unfold str_in, CliNames.LATE_KEYS, CliNames.EVAL_SET_KEYS in Hk.
    cbn [existsb] in Hk.
    repeat match type of Hk with
           | (String.eqb k ?x || _) = true =>
               revert Hk; destruct (String.eqb k x) eqn:Ek; intros Hk;
               [apply String.eqb_eq in Ek; subst k; reflexivity
               | clear Ek; cbn [orb] in Hk]
           end.
    discriminate. }
  repeat split; try reflexivity.
  - destruct (Cli.flag_set (Cli.no_score a)); reflexivity.
  - intros He. rewrite He in *.
    match goal with
    | E : Ok PyNone = Ok _ |- _ => injection E as <-
    end.
    reflexivity.
Qed.

(** The same for [eval_retry_command]. *)
Lemma retry_entries r files params :
  eval_retry_params r = Ok (files, params) ->
  dict_get "sandbox_cleanup" params
  = Some (Cli.off_if (Cli.flag_set (Cli.r_no_sandbox_cleanup r)))
  /\ dict_get "fail_on_error" params
     = Some (Cli.resolve_fail_on_error (Cli.r_fail_on_error r)
                                       (Cli.r_no_fail_on_error r))
  /\ dict_get "retry_on_error" params
     = Some (Cli.resolve_retry_on_error (Cli.r_retry_on_error r))
  /\ dict_get "log_samples" params
     = Some (Cli.off_if (Cli.flag_set (Cli.r_no_log_samples r)))
  /\ dict_get "log_realtime" params
     = Some (Cli.off_if (Cli.flag_set (Cli.r_no_log_realtime r)))
  /\ dict_get "log_images" params
     = Some (match Cli.r_log_images r with
             | Some false => Cli.of_bool false
             | _ => Plain PyNone
             end)
  /\ dict_get "score" params
     = Some (Cli.of_bool (negb (Cli.flag_set (Cli.r_no_score r))))
  /\ dict_get "score_display" params
     = Some (Cli.off_if (Cli.flag_set (Cli.r_no_score_display r)))
  /\ dict_get "trace" params = Some (Cli.of_opt PyBool (Cli.r_trace r)).
Proof.
  unfold Cli.eval_retry_params. intros H.
  repeat match type of H with
         | result_bind ?x _ = Ok _ =>
             destruct x; cbn [result_bind] in H;
             [|discriminate H|discriminate H]
         end.
  cbv zeta in H. injection H as <- <-.
  lazy [dict_get String.eqb Ascii.eqb Bool.eqb].
  destruct (Cli.flag_set (Cli.r_no_score r)); repeat split.
Qed.

Lemma late_passes a k (base : list (string * config_value)) :
  str_in k CliNames.LATE_KEYS = false ->
  dict_get k
    (if Cli.is_eval_set a then
       dict_set "bundle_overwrite" (Cli.of_bool (Cli.bundle_overwrite a))
      (dict_set "bundle_dir" (Cli.of_opt PyStr (Cli.bundle_dir a))
      (dict_set "retry_cleanup" (Cli.of_opt PyBool (Cli.retry_cleanup a))
      (dict_set "retry_connections"
                (Cli.of_opt PyFloat (Cli.retry_connections a))
      (dict_set "retry_wait" (Cli.of_opt PyInt (Cli.retry_wait a))
      (dict_set "retry_attempts" (Cli.of_opt PyInt (Cli.retry_attempts a))
                base)))))
     else dict_set "log_header_only" (Cli.of_bool true) base)
  = dict_get k base.
Proof.
  unfold str_in, CliNames.LATE_KEYS, CliNames.EVAL_SET_KEYS.
  cbn [existsb]. intros H.
  repeat (apply orb_false_iff in H as [? H]).
  destruct (Cli.is_eval_set a); rewrite ?dict_get_set_eq;
    repeat match goal with
           | E : String.eqb k _ = false |- _ => rewrite E; clear E
           end; reflexivity.
Qed.

(** An entry built from the arguments reaches the call when no
    generation option has its name. *)
Lemma named_reaches a kwargs named k :
  dict_mem k kwargs = false ->
  str_in k CliNames.LATE_KEYS = false ->
  dict_get k
    (if Cli.is_eval_set a then
       dict_set "bundle_overwrite" (Cli.of_bool (Cli.bundle_overwrite a))
      (dict_set "bundle_dir" (Cli.of_opt PyStr (Cli.bundle_dir a))
      (dict_set "retry_cleanup" (Cli.of_opt PyBool (Cli.retry_cleanup a))
      (dict_set "retry_connections"
                (Cli.of_opt PyFloat (Cli.retry_connections a))
      (dict_set "retry_wait" (Cli.of_opt PyInt (Cli.retry_wait a))
      (dict_set "retry_attempts" (Cli.of_opt PyInt (Cli.retry_attempts a))
                (Cli.dict_or named kwargs))))))
     else dict_set "log_header_only" (Cli.of_bool true)
                   (Cli.dict_or named kwargs))
  = dict_get k named.
Proof.
  intros Hk Hlate. rewrite (late_passes a k _ Hlate).
  apply dict_or_get_left. exact Hk.
Qed.

(** X17.  Whatever its arguments, [eval_exec] never asks for sandbox
    cleanup, for the logging of samples, of events in real time or of
    images, or for the display of scores: each of these entries of the
    call is [False] or [None].  The entry [trace] is [True] or [None],
    never [False], and the entry [score] is always a boolean.  (No
    generation option has one of these names.) *)
Theorem switches_are_only_turned_off a kwargs params :
  eval_exec_params a kwargs = Ok params ->
  (forall k, str_in k ("trace" :: "score" :: CliNames.OFF_KEYS) = true ->
             dict_mem k kwargs = false) ->
  (forall k, str_in k CliNames.OFF_KEYS = true ->
             dict_get k params = Some (Plain (PyBool false))
             \/ dict_get k params = Some (Plain PyNone))
  /\ (dict_get "trace" params = Some (Plain (PyBool true))
      \/ dict_get "trace" params = Some (Plain PyNone))
  /\ (exists b, dict_get "score" params = Some (Plain (PyBool b))).
Proof.
  intros H Hk.
  destruct (params_shape a kwargs params H)
    as (named & -> & _ & Hsc & _ & _ & Hls & Hlr & Hli & Hs & Hsd & Ht & _).
  split; [|split].
  - intros k Hoff.
    assert (dict_mem k kwargs = false) as Hkw.
    { apply Hk. unfold str_in in *. cbn [existsb] in *.
      rewrite Hoff, !orb_true_r. reflexivity. }
    assert (str_in k CliNames.LATE_KEYS = false) as Hlate.
    { unfold str_in, CliNames.OFF_KEYS in Hoff. cbn [existsb] in Hoff.
      repeat match type of Hoff with
             | (String.eqb k ?x || _) = true =>
                 revert Hoff; destruct (String.eqb k x) eqn:Ek; intros Hoff;
                 [apply String.eqb_eq in Ek; subst k; reflexivity
                 | clear Ek; cbn [orb] in Hoff]
             end.
      discriminate. }
    rewrite (named_reaches a kwargs named k Hkw Hlate).
    unfold str_in, CliNames.OFF_KEYS in Hoff. cbn [existsb] in Hoff.
    repeat match type of Hoff with
           | (String.eqb k ?x || _) = true =>
               revert Hoff; destruct (String.eqb k x) eqn:Ek; intros Hoff;
               [apply String.eqb_eq in Ek; subst k | clear Ek; cbn [orb] in Hoff]
           end; try discriminate.
    + rewrite Hsc. destruct (Cli.flag_set (Cli.no_sandbox_cleanup a));
        [left|right]; reflexivity.
    + rewrite Hls. destruct (Cli.flag_set (Cli.no_log_samples a));
        [left|right]; reflexivity.
    + rewrite Hlr. destruct (Cli.flag_set (Cli.no_log_realtime a));
        [left|right]; reflexivity.
    + rewrite Hli. destruct (Cli.log_images a) as [[|]|];
        [right|left|right]; reflexivity.
    + rewrite Hsd. destruct (Cli.flag_set (Cli.no_score_display a));
        [left|right]; reflexivity.
  - rewrite (named_reaches a kwargs named "trace" (Hk "trace" eq_refl) eq_refl).
    rewrite Ht. destruct (Cli.flag_set (Cli.trace a));
      [left|right]; reflexivity.
  - rewrite (named_reaches a kwargs named "score" (Hk "score" eq_refl) eq_refl).
    rewrite Hs. eexists. reflexivity.
Qed.

(** X18.  How [eval_exec] resolves the tolerance of errors.  With
    [no_fail_on_error] the call gets [False], whatever [fail_on_error]
    is.  Else a [fail_on_error] of zero gets [True], any other number is
    passed as it is, and a boolean always gets [True]: [False] equals
    zero.  A [retry_on_error] of zero is passed as [None]. *)
Theorem fail_on_error_is_resolved a kwargs params :
  eval_exec_params a kwargs = Ok params ->
  dict_mem "fail_on_error" kwargs = false ->
  dict_mem "retry_on_error" kwargs = false ->
  dict_get "fail_on_error" params
  = Some (match Cli.no_fail_on_error a, Cli.fail_on_error a with
          | Some true, _ => Plain (PyBool false)
          | _, None => Plain PyNone
          | _, Some (inl _) => Plain (PyBool true)
          | _, Some (inr f) =>
              if mantissa f =? 0 then Plain (PyBool true)
              else Plain (PyFloat f)
          end)
  /\ dict_get "retry_on_error" params
     = Some (match Cli.retry_on_error a with
             | Some 0 | None => Plain PyNone
             | Some n => Plain (PyInt n)
             end).
Proof.
  intros H Hf Hr.
  destruct (params_shape a kwargs params H)
    as (named & -> & _ & _ & Hfe & Hre & _).
  rewrite (named_reaches a kwargs named "fail_on_error" Hf eq_refl), Hfe.
  rewrite (named_reaches a kwargs named "retry_on_error" Hr eq_refl), Hre.
  split.
  - unfold Cli.resolve_fail_on_error, Cli.equals_zero.
    destruct (Cli.no_fail_on_error a) as [[|]|];
      destruct (Cli.fail_on_error a) as [[[|]|f]|]; try reflexivity;
      destruct (mantissa f =? 0); reflexivity.
  - unfold Cli.resolve_retry_on_error.
    destruct (Cli.retry_on_error a) as [[|p|p]|]; reflexivity.
Qed.

(** X19.  [eval_retry_command] resolves the options it shares with
    [eval_exec] in the same way: on the same values, the two commands
    pass the same entries for the cleanup of sandboxes, the tolerance
    and the retrying of errors, the logging and the scoring.  They
    differ on [trace]: for [False], [eval_exec] passes [None] and
    [eval_retry_command] passes [False]. *)
Theorem retry_resolves_like_eval a kwargs params r files retry_params :
  eval_exec_params a kwargs = Ok params ->
  eval_retry_params r = Ok (files, retry_params) ->
  (forall k, str_in k ("trace" :: CliNames.RESOLVED_KEYS) = true ->
             dict_mem k kwargs = false) ->
  Cli.no_sandbox_cleanup a = Cli.r_no_sandbox_cleanup r ->
  Cli.fail_on_error a = Cli.r_fail_on_error r ->
  Cli.no_fail_on_error a = Cli.r_no_fail_on_error r ->
  Cli.retry_on_error a = Cli.r_retry_on_error r ->
  Cli.no_log_samples a = Cli.r_no_log_samples r ->
  Cli.no_log_realtime a = Cli.r_no_log_realtime r ->
  Cli.log_images a = Cli.r_log_images r ->
  Cli.no_score a = Cli.r_no_score r ->
  Cli.no_score_display a = Cli.r_no_score_display r ->
  Cli.trace a = Cli.r_trace r ->
  (forall k, str_in k CliNames.RESOLVED_KEYS = true ->
             dict_get k params = dict_get k retry_params)
  /\ (dict_get "trace" params = dict_get "trace" retry_params
      <-> Cli.trace a <> Some false).
Proof.
  intros H Hretry Hk E1 E2 E3 E4 E5 E6 E7 E8 E9 E10.
  destruct (params_shape a kwargs params H)
    as (named & -> & _ & Hsc & Hfe & Hre & Hls & Hlr & Hli & Hs & Hsd
        & Ht & _).
  destruct (retry_entries r files retry_params Hretry)
    as (Rsc & Rfe & Rre & Rls & Rlr & Rli & Rs & Rsd & Rt).
  rewrite E1 in Hsc. rewrite E2, E3 in Hfe. rewrite E4 in Hre.
  rewrite E5 in Hls. rewrite E6 in Hlr. rewrite E7 in Hli.
  rewrite E8 in Hs. rewrite E9 in Hsd.
  split.
  - intros k Hres.
    assert (dict_mem k kwargs = false) as Hkw.
    { apply Hk. unfold str_in in *. cbn [existsb] in *.
      rewrite Hres, !orb_true_r. reflexivity. }
    unfold str_in, CliNames.RESOLVED_KEYS in Hres. cbn [existsb] in Hres.
    repeat match type of Hres with
           | (String.eqb k ?x || _) = true =>
               revert Hres; destruct (String.eqb k x) eqn:Ek; intros Hres;
               [apply String.eqb_eq in Ek; subst k | clear Ek; cbn [orb] in Hres]
           end; try discriminate;
      rewrite (named_reaches a kwargs named _ Hkw eq_refl); congruence.
  - rewrite (named_reaches a kwargs named "trace" (Hk "trace" eq_refl) eq_refl).
    rewrite Ht, Rt, <- E10.
    unfold Cli.of_bool, Cli.of_opt, Cli.flag_set.
    destruct (Cli.trace a) as [[|]|]; split; intros; congruence.
Qed.

(** X20.  Where [eval_exec] hands over.  For an evaluation set it calls
    [eval_set] with the six entries of retrying and bundling set from its
    arguments, and returns the success [eval_set] reports.  Otherwise it
    calls [eval] with [log_header_only] set to [True], and returns [True]
    whatever [eval] returns.  In both cases it raises what the call
    raises, and what was raised before the call was reached. *)
Theorem eval_exec_hands_over a kwargs :
  match eval_exec_params a kwargs with
  | Ok params =>
      if Cli.is_eval_set a then
        eval_exec a kwargs = result_map fst (eval_set params)
        /\ dict_get "retry_attempts" params
           = Some (Cli.of_opt PyInt (Cli.retry_attempts a))
        /\ dict_get "retry_wait" params
           = Some (Cli.of_opt PyInt (Cli.retry_wait a))
        /\ dict_get "retry_connections" params
           = Some (Cli.of_opt PyFloat (Cli.retry_connections a))
        /\ dict_get "retry_cleanup" params
           = Some (Cli.of_opt PyBool (Cli.retry_cleanup a))
        /\ dict_get "bundle_dir" params
           = Some (Cli.of_opt PyStr (Cli.bundle_dir a))
        /\ dict_get "bundle_overwrite" params
           = Some (Plain (PyBool (Cli.bundle_overwrite a)))
        /\ dict_mem "log_header_only" params
           = dict_mem "log_header_only" kwargs
      else
        eval_exec a kwargs = result_map (fun _ => true) (eval params)
        /\ dict_get "log_header_only" params = Some (Plain (PyBool true))
        /\ forall k, str_in k CliNames.EVAL_SET_KEYS = true ->
                     dict_mem k params = dict_mem k kwargs
  | Raise e => eval_exec a kwargs = Raise e
  | Unmodelled => True
  end.
Proof.
  unfold Cli.eval_exec.
  destruct (eval_exec_params a kwargs) as [params|e|] eqn:H;
    [|reflexivity|exact I].
  cbn [result_bind].
  destruct (params_shape a kwargs params H) as (named & -> & Hlate & _).
  destruct (Cli.is_eval_set a).
  - split; [destruct (eval_set _) as [[b logs]| |]; reflexivity|].
    rewrite !dict_mem_get, !dict_get_set_eq.
    cbn [String.eqb Ascii.eqb Bool.eqb].
    repeat split.
    rewrite <- !dict_mem_get, dict_or_mem, (dict_mem_get _ named),
      (Hlate "log_header_only" eq_refl), orb_false_r.
    reflexivity.
  - split; [destruct (eval _); reflexivity|].
    split; [apply dict_get_set_same|].
    intros k Hk. rewrite dict_mem_get, dict_get_set_eq.
    assert (str_in k CliNames.LATE_KEYS = true) as Hl
        by (unfold CliNames.LATE_KEYS, str_in in *; cbn [existsb] in *;
            rewrite Hk; apply orb_true_r).
    assert (String.eqb k "log_header_only" = false) as ->.
    { unfold str_in, CliNames.EVAL_SET_KEYS in Hk. cbn [existsb] in Hk.
      repeat match type of Hk with
             | (String.eqb k ?x || _) = true =>
                 revert Hk; destruct (String.eqb k x) eqn:Ek; intros Hk;
                 [apply String.eqb_eq in Ek; subst k; reflexivity
                 | clear Ek; cbn [orb] in Hk]
             end.
      discriminate. }
    rewrite <- dict_mem_get, dict_or_mem, (dict_mem_get _ named),
      (Hlate k Hl), orb_false_r.
    reflexivity.
Qed.

(** X21.  Every generation option given to [eval_exec] reaches the
    call with its value, also when an entry built from the arguments
    has the same name; only the entries set last are out of its
    reach. *)
Theorem generation_options_reach_the_call a kwargs params key value :
  eval_exec_params a kwargs = Ok params ->
  NoDup (dict_keys kwargs) ->
  dict_get key kwargs = Some value ->
  str_in key CliNames.LATE_KEYS = false ->
  dict_get key params = Some value.
Proof.
  intros H Hnd Hget Hlate.
  destruct (params_shape a kwargs params H) as (named & -> & _).
  rewrite (late_passes a key _ Hlate).
  apply dict_or_get_right; assumption.
Qed.

(** X22.  Without a number of epochs (none, or zero) the reducers are
    not looked at: [eval_exec] does the same for every value of
    [epochs_reducer], also for one that [create_reducers] would refuse,
    and the call gets [None] for [epochs]. *)
Theorem reducers_need_epochs a kwargs reducer :
  Cli.number_set (Cli.epochs a) = false ->
  eval_exec_params (CliNames.with_epochs_reducer reducer a) kwargs
  = eval_exec_params a kwargs
  /\ forall params,
       eval_exec_params a kwargs = Ok params ->
       dict_mem "epochs" kwargs = false ->
       dict_get "epochs" params = Some (Plain PyNone).
Proof.
  intros He. split.
  - unfold Cli.eval_exec_params. destruct a. cbn in He |- *.
    rewrite He. reflexivity.
  - intros params H Hk.
    destruct (params_shape a kwargs params H)
      as (named & -> & _ & _ & _ & _ & _ & _ & _ & _ & _ & _ & Hep).
    rewrite (named_reaches a kwargs named "epochs" Hk eq_refl).
    apply Hep. exact He.
Qed.

End CommandFacts.

Lemma sample_params_run :
  SampleCommands.eval_exec_params SampleCommands.args SampleCommands.kwargs
  = Ok SampleCommands.params.
Proof. reflexivity. Qed.

Lemma sample_retry_run :
  SampleCommands.eval_retry_params SampleCommands.retry_args
  = Ok ([PyObj "EvalLogInfo" "logs/a.eval"], SampleCommands.retry_params).
Proof. reflexivity. Qed.

Lemma sample_kwargs_is_a_dict : NoDup (dict_keys SampleCommands.kwargs).
Proof.
  repeat (constructor;
          [cbn; intros H;
           repeat (destruct H as [H|H]; [discriminate H|]); exact H|]).
  constructor.
Qed.

Lemma sample_kwargs_names k :
  str_in k ("trace" :: "score" :: CliNames.RESOLVED_KEYS) = true ->
  dict_mem k SampleCommands.kwargs = false.
Proof.
  unfold str_in, CliNames.RESOLVED_KEYS. cbn [existsb]. intros H.
  repeat match type of H with
         | (String.eqb k ?x || _) = true =>
             revert H; destruct (String.eqb k x) eqn:Ek; intros H;
             [apply String.eqb_eq in Ek; subst k; reflexivity
             | clear Ek; cbn [orb] in H]
         end.
  discriminate.
Qed.

Lemma switches_are_only_turned_off_witness :
  (dict_get "log_samples" SampleCommands.params = Some (Plain (PyBool false))
   \/ dict_get "log_samples" SampleCommands.params = Some (Plain PyNone))
  /\ (dict_get "trace" SampleCommands.params = Some (Plain (PyBool true))
      \/ dict_get "trace" SampleCommands.params = Some (Plain PyNone)).
Proof.
  destruct (switches_are_only_turned_off
              SampleCommands.parse_cli_config SampleCommands.parse_cli_args
              SampleCommands.create_reducers SampleCommands.Epochs
              SampleCommands.parse_samples_limit
              SampleCommands.parse_sample_id SampleCommands.SolverSpec
              SampleCommands.parse_sandbox
              SampleCommands.args SampleCommands.kwargs SampleCommands.params
              sample_params_run) as (Hoff & Htrace & _).
  - intros k Hk. apply sample_kwargs_names.
    unfold str_in, CliNames.OFF_KEYS, CliNames.RESOLVED_KEYS in *.
    cbn [existsb] in *.
    repeat match type of Hk with
           | (String.eqb k ?x || _) = true =>
               revert Hk; destruct (String.eqb k x) eqn:Ek; intros Hk;
               [apply String.eqb_eq in Ek; subst k; reflexivity
               | clear Ek; cbn [orb] in Hk]
           end.
    discriminate.
  - split; [apply Hoff; reflexivity | exact Htrace].
Defined.

Lemma fail_on_error_is_resolved_witness :
  dict_get "fail_on_error" SampleCommands.params = Some (Plain (PyBool false))
  /\ dict_get "retry_on_error" SampleCommands.params = Some (Plain PyNone).
Proof.
  apply (fail_on_error_is_resolved
           SampleCommands.parse_cli_config SampleCommands.parse_cli_args
           SampleCommands.create_reducers SampleCommands.Epochs
           SampleCommands.parse_samples_limit
           SampleCommands.parse_sample_id SampleCommands.SolverSpec
           SampleCommands.parse_sandbox
           SampleCommands.args SampleCommands.kwargs SampleCommands.params
           sample_params_run).
  - reflexivity.
  - reflexivity.
Defined.

Lemma retry_resolves_like_eval_witness :
  dict_get "fail_on_error" SampleCommands.params
  = dict_get "fail_on_error" SampleCommands.retry_params
  /\ dict_get "trace" SampleCommands.params
     <> dict_get "trace" SampleCommands.retry_params.
Proof.
  destruct (retry_resolves_like_eval
              SampleCommands.parse_cli_config SampleCommands.parse_cli_args
              SampleCommands.create_reducers SampleCommands.Epochs
              SampleCommands.parse_samples_limit
              SampleCommands.parse_sample_id SampleCommands.SolverSpec
              SampleCommands.parse_sandbox
              SampleCommands.process_common_options
              SampleCommands.log_file_info
              SampleCommands.args SampleCommands.kwargs SampleCommands.params
              SampleCommands.retry_args
              [PyObj "EvalLogInfo" "logs/a.eval"]
              SampleCommands.retry_params
              sample_params_run sample_retry_run)
    as (Hsame & Htrace); try reflexivity.
  - intros k Hk. apply sample_kwargs_names.
    unfold str_in in *. cbn [existsb] in *.
    destruct (String.eqb k "trace"); [reflexivity|].
    cbn [orb] in *. rewrite Hk. apply orb_true_r.
  - split; [apply Hsame; reflexivity|].
    intros E. apply Htrace in E. apply E. reflexivity.
Defined.

Lemma generation_options_reach_the_call_witness :
  dict_get "max_tokens" SampleCommands.params = Some (Plain (PyInt 100)).
Proof.
  apply (generation_options_reach_the_call
           SampleCommands.parse_cli_config SampleCommands.parse_cli_args
           SampleCommands.create_reducers SampleCommands.Epochs
           SampleCommands.parse_samples_limit
           SampleCommands.parse_sample_id SampleCommands.SolverSpec
           SampleCommands.parse_sandbox
           SampleCommands.args SampleCommands.kwargs SampleCommands.params
           "max_tokens" (Plain (PyInt 100))
           sample_params_run sample_kwargs_is_a_dict).
  - reflexivity.
  - reflexivity.
Defined.

Lemma reducers_need_epochs_witness :
  SampleCommands.create_reducers (parse_comma_separated (Some "bogus"))
  = Raise (ValueError "unknown reducer")
  /\ SampleCommands.eval_exec_params
       (CliNames.with_epochs_reducer (Some "bogus") SampleCommands.args)
       SampleCommands.kwargs
     = Ok SampleCommands.params.
Proof.
  split; [reflexivity|].
  destruct (reducers_need_epochs
              SampleCommands.parse_cli_config SampleCommands.parse_cli_args
              SampleCommands.create_reducers SampleCommands.Epochs
              SampleCommands.parse_samples_limit
              SampleCommands.parse_sample_id SampleCommands.SolverSpec
              SampleCommands.parse_sandbox
              SampleCommands.args SampleCommands.kwargs (Some "bogus")
              eq_refl) as [H _].
  unfold SampleCommands.eval_exec_params. rewrite H.
  exact sample_params_run.
Defined.

(* ================================================================= *)
(** * From the command line to the evaluation *)

Lemma str_in_In k l : str_in k l = true <-> In k l.
Proof.
  unfold str_in. rewrite existsb_exists. split.
  - intros (x & Hin & E). apply String.eqb_eq in E. subst x. exact Hin.
  - intros Hin. exists k. split; [exact Hin | apply String.eqb_refl].
Qed.

Lemma distinct_NoDup l : distinct l = true -> NoDup l.
Proof.
  induction l as [|x rest IH]; [constructor|].
  cbn [distinct]. intros H. apply andb_true_iff in H as [Hx Hrest].
  constructor; [|apply IH; exact Hrest].
  intros Hin. apply str_in_In in Hin. rewrite Hin in Hx. discriminate.
Qed.

Lemma eval_command_locals_is_a_dict c :
  NoDup (dict_keys (Cli.eval_command_locals c)).
Proof. apply distinct_NoDup. vm_compute. reflexivity. Qed.

Lemma eval_set_command_locals_is_a_dict c :
  NoDup (dict_keys (Cli.eval_set_command_locals c)).
Proof. apply distinct_NoDup. vm_compute. reflexivity. Qed.

(** No local variable of [eval_command] has the name of an entry that
    [eval_exec] sets last. *)
Lemma eval_command_locals_not_late c key :
  str_in key CliNames.LATE_KEYS = true ->
  dict_get key (Cli.eval_command_locals c) = None.
Proof.
  unfold str_in, CliNames.LATE_KEYS, CliNames.EVAL_SET_KEYS.
  cbn [existsb]. intros H.
  repeat match type of H with
         | (String.eqb key ?x || _) = true =>
             revert H; destruct (String.eqb key x) eqn:Ek; intros H;
             [apply String.eqb_eq in Ek; subst key; vm_compute; reflexivity
             | clear Ek; cbn [orb] in H]
         end.
  discriminate.
Qed.

Section CommandLine.

Variable parse_cli_config :
  option (list string) -> option string -> result pyval.
Variable parse_cli_args : option (list string) -> bool -> result pydict.
Variable create_reducers : option (list string) -> result pyval.
Variable Epochs : Z -> pyval -> result pyval.
Variable parse_samples_limit : option string -> result pyval.
Variable parse_sample_id : option string -> result pyval.
Variable SolverSpec : string -> pyval -> result pyval.
Variable parse_sandbox : option string -> result pyval.
Variable eval : list (string * config_value) -> result pyval.
Variable eval_set : list (string * config_value) -> result (bool * pyval).
Variable process_common_options : pydict -> result unit.
Variable config_keys : list string.
Variable int : string -> result Z.
Variable model_validate_json : pyval -> result pyval.
Variable batch_config : string -> result pyval.
Variable ctx_exit : pyval -> Z -> result unit.

Local Abbreviation eval_exec_params :=
  (Cli.eval_exec_params parse_cli_config parse_cli_args create_reducers
                        Epochs parse_samples_limit parse_sample_id
                        SolverSpec parse_sandbox).
Local Abbreviation eval_exec :=
  (Cli.eval_exec parse_cli_config parse_cli_args create_reducers
                 Epochs parse_samples_limit parse_sample_id
                 SolverSpec parse_sandbox eval eval_set).
Local Abbreviation converted :=
  (converted (fun args => parse_cli_args (Some args) false) int
             model_validate_json batch_config).
Local Abbreviation eval_command_call :=
  (Cli.eval_command_call parse_cli_args process_common_options config_keys
                         int model_validate_json batch_config).
Local Abbreviation eval_command :=
  (Cli.eval_command parse_cli_config parse_cli_args create_reducers
                    Epochs parse_samples_limit parse_sample_id
                    SolverSpec parse_sandbox eval eval_set
                    process_common_options config_keys int
                    model_validate_json batch_config).
Local Abbreviation eval_set_command_call :=
  (Cli.eval_set_command_call parse_cli_args process_common_options
                             config_keys int model_validate_json
                             batch_config).
Local Abbreviation eval_set_command :=
  (Cli.eval_set_command parse_cli_config parse_cli_args create_reducers
                        Epochs parse_samples_limit parse_sample_id
                        SolverSpec parse_sandbox eval eval_set
                        process_common_options config_keys int
                        model_validate_json batch_config ctx_exit).

(** What the call of [eval_exec] by [eval_command] is made of. *)
Lemma eval_command_call_shape c a config :
  eval_command_call c = Ok (a, config) ->
  Cli.config_of parse_cli_args config_keys int model_validate_json
                batch_config (Cli.eval_command_locals c) = Ok config
  /\ Cli.is_eval_set a = false.
Proof.
  unfold Cli.eval_command_call. intros H.
  repeat match type of H with
         | result_bind ?x _ = Ok _ =>
             let E := fresh "E" in
             destruct x eqn:E; cbn [result_bind] in H;
             [|discriminate H|discriminate H]
         end.
  match type of H with
  | (if ?b then _ else _) = _ =>
      revert H; destruct b; intros H; [discriminate H|]
  end.
  inversion H. subst. split; reflexivity.
Qed.

(** X23.  From the command line to the evaluation.  A generation
    option set on the command line of [eval] reaches the call of [eval]
    in the form [config_from_locals] gives it, next to
    [log_header_only=True]; and the command returns when [eval] does and
    raises what it raises. *)
Theorem eval_command_passes_the_options c a config params key value :
  eval_command_call c = Ok (a, config) ->
  eval_exec_params a config = Ok params ->
  dict_get key (Cli.eval_command_locals c) = Some value ->
  str_in key config_keys = true ->
  value <> PyNone ->
  (exists v, converted key value = Ok v /\ dict_get key params = Some v)
  /\ dict_get "log_header_only" params = Some (Plain (PyBool true))
  /\ eval_command c = result_map (fun _ => tt) (eval params).
Proof.
  intros Hcall Hparams Hget Hkey Hvalue.
  destruct (eval_command_call_shape c a config Hcall) as [Hconfig Hset].
  unfold Cli.config_of in Hconfig.
  destruct (config_from_locals_spec
              config_keys (fun args => parse_cli_args (Some args) false)
              int model_validate_json batch_config
              (Cli.eval_command_locals c) config
              (eval_command_locals_is_a_dict c) Hconfig)
    as (Hkeys & Hto & _).
  destruct (Hto key value Hget) as (v & Hconv & Hv).
  { apply taken_iff. split; assumption. }
  assert (NoDup (dict_keys config)) as Hnd.
  { rewrite Hkeys. apply NoDup_filter_keys, eval_command_locals_is_a_dict. }
  assert (str_in key CliNames.LATE_KEYS = false) as Hlate.
  { destruct (str_in key CliNames.LATE_KEYS) eqn:E; [|reflexivity].
    rewrite (eval_command_locals_not_late c key E) in Hget. discriminate. }
  destruct (params_shape parse_cli_config parse_cli_args create_reducers
              Epochs parse_samples_limit parse_sample_id SolverSpec
              parse_sandbox a config params Hparams) as (named & Hshape & _).
  split; [|split].
  - exists v. split; [exact Hconv|]. rewrite Hshape.
    rewrite (late_passes a key _ Hlate).
    apply dict_or_get_right; assumption.
  - rewrite Hshape, Hset. apply dict_get_set_same.
  - unfold Cli.eval_command. fold eval_command_call. rewrite Hcall.
    cbn [result_bind fst snd]. unfold Cli.eval_exec.
    fold eval_exec_params. rewrite Hparams, Hset. cbn [result_bind].
    destruct (eval params); reflexivity.
Qed.

(** What the call of [eval_exec] by [eval_set_command] is made of. *)
Lemma eval_set_command_call_shape c a config :
  eval_set_command_call c = Ok (a, config) ->
  Cli.is_eval_set a = true
  /\ Cli.retry_cleanup a
     = Some (negb (Cli.flag_set (Cli.c_no_retry_cleanup c)))
  /\ Cli.bundle_overwrite a = Cli.flag_set (Cli.c_bundle_overwrite c)
  /\ Cli.keywords_once "inspect_ai._cli.eval.eval_exec"
                       Cli.EVAL_SET_KEYWORDS config = Ok tt.
Proof.
  unfold Cli.eval_set_command_call. intros H.
  repeat match type of H with
         | result_bind ?x _ = Ok _ =>
             let E := fresh "E" in
             destruct x eqn:E; cbn [result_bind] in H;
             [|discriminate H|discriminate H]
         end.
  inversion H. subst. repeat split.
  match goal with
  | E : Cli.keywords_once _ _ _ = Ok ?u |- _ => destruct u; exact E
  end.
Qed.

Lemma keywords_once_free f names config key :
  Cli.keywords_once f names config = Ok tt ->
  str_in key names = true ->
  dict_get key config = None.
Proof.
  unfold Cli.keywords_once. intros H Hkey.
  destruct (filter (fun k => str_in k names) (dict_keys config))
    as [|k rest] eqn:E; [|discriminate H].
  apply dict_get_not_key. intros Hin.
  assert (In key (filter (fun k => str_in k names) (dict_keys config)))
    as Hf by (apply filter_In; split; assumption).
  rewrite E in Hf. exact Hf.
Qed.

(** X24.  [eval_set_command] asks for the cleanup of failed logs unless
    [no_retry_cleanup] is set, and for the overwriting of the bundle
    only when [bundle_overwrite] is set; no generation option can
    replace these entries.  When [eval_set] returns, the command leaves
    through [ctx.exit], with the code 0 for a success and 1
    otherwise. *)
Theorem eval_set_command_exits_with_the_outcome
        c a config params success logs :
  eval_set_command_call c = Ok (a, config) ->
  eval_exec_params a config = Ok params ->
  eval_set params = Ok (success, logs) ->
  dict_get "retry_cleanup" params
  = Some (Plain (PyBool (negb (Cli.flag_set (Cli.c_no_retry_cleanup c)))))
  /\ dict_get "bundle_overwrite" params
     = Some (Plain (PyBool (Cli.flag_set (Cli.c_bundle_overwrite c))))
  /\ eval_set_command c
     = ctx_exit (Cli.c_ctx c) (if success then 0 else 1).
Proof.
  intros Hcall Hparams Hrun.
  destruct (eval_set_command_call_shape c a config Hcall)
    as (Hset & Hcleanup & Hbundle & _).
  destruct (params_shape parse_cli_config parse_cli_args create_reducers
              Epochs parse_samples_limit parse_sample_id SolverSpec
              parse_sandbox a config params Hparams) as (named & Hshape & _).
  split; [|split].
  - rewrite Hshape, Hset, !dict_get_set_eq. cbn [String.eqb Ascii.eqb Bool.eqb].
    rewrite Hcleanup. reflexivity.
  - rewrite Hshape, Hset, dict_get_set_same, Hbundle. reflexivity.
  - unfold Cli.eval_set_command. fold eval_set_command_call. rewrite Hcall.
    cbn [result_bind fst snd]. unfold Cli.eval_exec.
    fold eval_exec_params. rewrite Hparams, Hset. cbn [result_bind].
    rewrite Hrun. reflexivity.
Qed.

End CommandLine.

Lemma eval_command_passes_the_options_witness :
  exists params,
    dict_get "reasoning_history" params = Some (Plain PyNone)
    /\ dict_get "cache_prompt" params = Some (Plain (PyBool true))
    /\ dict_get "log_header_only" params = Some (Plain (PyBool true))
    /\ SampleCommands.eval_command SampleCommands.command = Ok tt.
Proof.
  destruct (SampleCommands.eval_command_call SampleCommands.command)
    as [[a config]| |] eqn:Hcall;
    [|vm_compute in Hcall; discriminate Hcall
     |vm_compute in Hcall; discriminate Hcall].
  pose proof Hcall as Hvalue. vm_compute in Hvalue.
  injection Hvalue as Ha Hconfig.
  destruct (SampleCommands.eval_exec_params a config) as [params| |]
    eqn:Hparams;
    [|rewrite <- Ha, <- Hconfig in Hparams; vm_compute in Hparams;
      discriminate Hparams
     |rewrite <- Ha, <- Hconfig in Hparams; vm_compute in Hparams;
      discriminate Hparams].
  exists params.
  destruct (eval_command_passes_the_options
              SampleCommands.parse_cli_config SampleCommands.parse_cli_args
              SampleCommands.create_reducers SampleCommands.Epochs
              SampleCommands.parse_samples_limit
              SampleCommands.parse_sample_id SampleCommands.SolverSpec
              SampleCommands.parse_sandbox SampleCommands.eval
              SampleCommands.eval_set SampleCommands.process_common_options
              SampleCli.config_keys SampleCli.int
              SampleCli.model_validate_json SampleCli.batch_config
              SampleCommands.command a config params
              "reasoning_history" (PyStr "last") Hcall Hparams)
    as ((v & Hconv & Hv) & Hlog & Hrun).
  - reflexivity.
  - reflexivity.
  - discriminate.
  - vm_compute in Hconv. injection Hconv as <-.
    split; [exact Hv|]. split; [|split; [exact Hlog | exact Hrun]].
    rewrite <- Ha, <- Hconfig in Hparams. vm_compute in Hparams.
    injection Hparams as <-. reflexivity.
Defined.

Lemma eval_set_command_exits_with_the_outcome_witness :
  SampleCommands.eval_set_command SampleCommands.command
  = SampleCommands.ctx_exit (PyObj "Context" "eval-set") 0.
Proof.
  destruct (SampleCommands.eval_set_command_call SampleCommands.command)
    as [[a config]| |] eqn:Hcall;
    [|vm_compute in Hcall; discriminate Hcall
     |vm_compute in Hcall; discriminate Hcall].
  pose proof Hcall as Hvalue. vm_compute in Hvalue.
  injection Hvalue as Ha Hconfig.
  destruct (SampleCommands.eval_exec_params a config) as [params| |]
    eqn:Hparams;
    [|rewrite <- Ha, <- Hconfig in Hparams; vm_compute in Hparams;
      discriminate Hparams
     |rewrite <- Ha, <- Hconfig in Hparams; vm_compute in Hparams;
      discriminate Hparams].
  destruct (eval_set_command_exits_with_the_outcome
              SampleCommands.parse_cli_config SampleCommands.parse_cli_args
              SampleCommands.create_reducers SampleCommands.Epochs
              SampleCommands.parse_samples_limit
              SampleCommands.parse_sample_id SampleCommands.SolverSpec
              SampleCommands.parse_sandbox SampleCommands.eval
              SampleCommands.eval_set SampleCommands.process_common_options
              SampleCli.config_keys SampleCli.int
              SampleCli.model_validate_json SampleCli.batch_config
              SampleCommands.ctx_exit
              SampleCommands.command a config params true (PyList [])
              Hcall Hparams eq_refl)
    as (_ & _ & Hrun).
  exact Hrun.
Defined.
